(** * FOGO testnet bot: submission-and-fallback orchestration

    A shallow embedding of the decision logic of the bot (airdrop.py,
    network.py, transaction.py, swap.py, utils.py, worker.py) and the
    properties its specification states about it.

    Modelling conventions.
    - Python [int] is [Z]; Python [float] is the binary64 primitive [float].
    - A decoded JSON document is a [json] value; a JSON number is an integer
      (the fields read by the bot -- balances, amounts, ids -- are integers;
      fractional JSON numbers are outside the model).
    - A [str] that the code compares, searches or passes on is a [string]
      ([lower] handles ASCII letters only).  A [str] whose characters the
      code counts or classifies -- the text of a response body, a line of
      the proxy file -- is a [unicode]: the list of its code points.
    - A coroutine is a computation in the monad [M]: it reads the remote
      world from a script of HTTP outcomes, emits the requests and sleeps it
      performs, and either returns a value or raises a Python exception.
    - Request headers, TLS context, proxy and time-outs do not influence any
      decision of the code and are not part of a [Request].
    - Log lines are modelled by the exceptions their formatting can raise
      (a non-numeric or out-of-range amount), not by their text.
    - [BaseException]s that are not [Exception]s (task cancellation, keyboard
      interrupt) are outside the model. *)

From Stdlib Require Import ZArith List String Ascii Bool Lia Floats Uint63.
From Stdlib Require Import Init.Byte.
Import ListNotations.

Set Warnings "-inexact-float,-register-all".

Local Open Scope string_scope.
Local Open Scope Z_scope.
Local Open Scope list_scope.

(* ================================================================== *)
(** * Python values and exceptions *)

Module Py.

Definition bytes : Type := list Byte.byte.

(** The exceptions that the modelled code can meet. *)
Inductive PyExn : Type :=
| TypeError
| KeyError
| AttributeError
| ValueError
| OverflowError
| BinasciiError
| TimeoutError
| ClientConnectionError      (* aiohttp.ClientError family *)
| ClientResponseError        (* aiohttp.ClientError family: raise_for_status *)
| ContentTypeError           (* aiohttp.ClientError family: resp.json() *)
| LibraryError (msg : string).

Definition is_client_error (e : PyExn) : bool :=
  match e with
  | ClientConnectionError | ClientResponseError | ContentTypeError => true
  | _ => false
  end.

Inductive Exc (A : Type) : Type :=
| Ok (a : A)
| Raise (e : PyExn).
Arguments Ok {A} a.
Arguments Raise {A} e.

Definition bindE {A B : Type} (x : Exc A) (f : A -> Exc B) : Exc B :=
  match x with
  | Ok a => f a
  | Raise e => Raise e
  end.

Definition catchE {A : Type} (x : Exc A) (h : PyExn -> Exc A) : Exc A :=
  match x with
  | Ok a => Ok a
  | Raise e => h e
  end.

(** A decoded JSON document, as [json.loads] builds it: [dict] as an
    association list read with [assoc] (first binding), [list] as a list. *)
Inductive json : Type :=
| JNull
| JBool (b : bool)
| JNum (n : Z)
| JStr (s : string)
| JArr (items : list json)
| JObj (fields : list (string * json)).

Fixpoint assoc (k : string) (fields : list (string * json)) : option json :=
  match fields with
  | [] => None
  | (k', v) :: rest => if String.eqb k k' then Some v else assoc k rest
  end.

(** [needle in hay] for two strings. *)
Fixpoint contains (needle hay : string) : bool :=
  prefix needle hay ||
  match hay with
  | EmptyString => false
  | String _ t => contains needle t
  end.

Definition lower_ascii (c : ascii) : ascii :=
  let n := nat_of_ascii c in
  if ((65 <=? n)%nat && (n <=? 90)%nat) then ascii_of_nat (n + 32) else c.

(** [s.lower()]. *)
Fixpoint lower (s : string) : string :=
  match s with
  | EmptyString => EmptyString
  | String c t => String (lower_ascii c) (lower t)
  end.

(** A [str] as the sequence of its code points. *)
Definition unicode : Type := list N.

(** The [str] of a literal. *)
Definition u (s : string) : unicode := map N_of_ascii (list_ascii_of_string s).

Fixpoint unicode_eqb (a b : unicode) : bool :=
  match a, b with
  | [], [] => true
  | x :: a', y :: b' => N.eqb x y && unicode_eqb a' b'
  | _, _ => false
  end.

Fixpoint lstrip (c : N) (s : unicode) : unicode :=
  match s with
  | [] => []
  | a :: t => if N.eqb a c then lstrip c t else s
  end.

Fixpoint rstrip (c : N) (s : unicode) : unicode :=
  match s with
  | [] => []
  | a :: t =>
      match rstrip c t with
      | [] => if N.eqb a c then [] else [a]
      | t' => a :: t'
      end
  end.

(** [s.strip(c)] for a one-character set. *)
Definition strip (c : N) (s : unicode) : unicode := rstrip c (lstrip c s).

(** [len(s)]: the number of characters. *)
Definition len (s : unicode) : Z := Z.of_nat (List.length s).

(** Truth value of a value used as a condition. *)
Definition truthy (v : json) : bool :=
  match v with
  | JNull => false
  | JBool b => b
  | JNum n => negb (n =? 0)
  | JStr s => negb (String.eqb s "")
  | JArr items => match items with [] => false | _ => true end
  | JObj fields => match fields with [] => false | _ => true end
  end.

Definition is_str (k : string) (v : json) : bool :=
  match v with
  | JStr s => String.eqb s k
  | _ => false
  end.

(** [k in v] for a string [k]: key of a dict, element of a list, substring
    of a string; any other operand is not iterable. *)
Definition py_in (k : string) (v : json) : Exc bool :=
  match v with
  | JObj fields => Ok (match assoc k fields with Some _ => true | None => false end)
  | JArr items => Ok (existsb (is_str k) items)
  | JStr s => Ok (contains k s)
  | _ => Raise TypeError
  end.

(** [v[k]] for a string [k]. *)
Definition py_getitem (v : json) (k : string) : Exc json :=
  match v with
  | JObj fields =>
      match assoc k fields with
      | Some x => Ok x
      | None => Raise KeyError
      end
  | _ => Raise TypeError
  end.

(** [v.get(k, default)]: only a dict has the method. *)
Definition py_get (v : json) (k : string) (default : json) : Exc json :=
  match v with
  | JObj fields =>
      match assoc k fields with
      | Some x => Ok x
      | None => Ok default
      end
  | _ => Raise AttributeError
  end.

(** [v.lower()]: only a str has the method. *)
Definition py_lower (v : json) : Exc string :=
  match v with
  | JStr s => Ok (lower s)
  | _ => Raise AttributeError
  end.

(** A value used as a number in arithmetic or in an ordering comparison
    with an int: [bool] is an [int]; everything else is a TypeError. *)
Definition py_number (v : json) : Exc Z :=
  match v with
  | JNum n => Ok n
  | JBool b => Ok (if b then 1 else 0)
  | _ => Raise TypeError
  end.

(** Largest magnitude (exclusive) that converts to a finite binary64:
    values from [2^1024 - 2^970] on round to infinity. *)
Definition FLOAT_OVERFLOW : Z := 2 ^ 1024 - 2 ^ 970.

(** [float_of_Z n]: the float of a count (exact below 2^53). *)
Definition float_of_Z (n : Z) : float := PrimFloat.of_uint63 (Uint63.of_Z n).

End Py.
Export Py.

(* ================================================================== *)
(** * The libraries the bot calls *)

Module Libs.

Record Wallet : Type := mkWallet {
  pubkey : string          (* str(wallet.pubkey()) *)
}.

(** The legacy [Transaction] class of solana-py. *)
Record LegacyTransaction (LTx : Type) : Type := mkLegacy {
  deserialize : bytes -> Exc LTx;
  sign : LTx -> Wallet -> Exc LTx;
  serialize : LTx -> Exc bytes
}.
Arguments deserialize {LTx} _ _.
Arguments sign {LTx} _ _ _.
Arguments serialize {LTx} _ _.

Inductive TransactionType : Type := solders | solana_versioned | legacy.

(** The library operations the code relies on, with whatever behaviour
    the installed versions have; those with an [Exc] result may raise.
    [TRANSACTION_TYPE] and [Transaction] are what the import block at the
    top of transaction.py found ([None] when the import failed). *)
Class Runtime : Type := {
  int_of_str : string -> Exc Z;                    (* int(s) for a str *)
  query_value_ok : json -> bool;                   (* accepted as a URL query value *)
  query_str_ok : forall s, query_value_ok (JStr s) = true;
  query_int_ok : forall n, query_value_ok (JNum n) = true;
  b64decode : string -> Exc bytes;                 (* base64.b64decode(s) *)
  b64encode : bytes -> string;                     (* base64.b64encode(b).decode() *)
  TRANSACTION_TYPE : TransactionType;
  VTx : Type;
  Msg : Type;
  Sig : Type;
  LTx : Type;
  VersionedTransaction_from_bytes : bytes -> Exc VTx;
  tx_message : VTx -> Msg;                         (* tx.message *)
  message_to_bytes : Msg -> Exc bytes;             (* bytes(tx.message) *)
  sign_message : Wallet -> bytes -> Exc Sig;       (* wallet.sign_message(b) *)
  signature_attr : Sig -> Exc Sig;                 (* signature.signature *)
  VersionedTransaction_new : Msg -> list Sig -> Exc VTx;
  vtx_to_bytes : VTx -> Exc bytes;                 (* bytes(signed_tx) *)
  Transaction : option (LegacyTransaction LTx)
}.

End Libs.
Export Libs.

(* ================================================================== *)
(** * The remote world and the monad of coroutines *)

Module World.

Inductive Verb : Type := GET | POST.

(** One HTTP request: [session.get(url, params=payload)] or
    [session.post(url, json=payload)]. *)
Record Request : Type := mkRequest {
  verb : Verb;
  url : string;
  payload : json
}.

(** What the response object offers: [resp.status]; [await resp.text()],
    which raises when the body cannot be read or decoded; and
    [await resp.json()], which raises when the body is not JSON. *)
Record Response : Type := mkResponse {
  status : Z;
  text : Exc unicode;
  body_json : option json
}.

(** The outcome of one request: a response, or an exception raised by the
    transport (connection error, time-out, ...). *)
Inductive HttpOutcome : Type :=
| Reply (r : Response)
| Fails (e : PyExn).

(** What a run does to the outside. *)
Inductive Event : Type :=
| EvRequest (req : Request)
| EvSleep (seconds : float).

(** The part of the world a run consumes: the outcomes of the successive
    HTTP requests, the successive results of [random.choices] (as indices)
    and of [random.random()]. *)
Record Env : Type := mkEnv {
  script : list HttpOutcome;
  picks : list nat;
  draws : list float
}.

Record Run (A : Type) : Type := mkRun {
  result : Exc A;
  rest : Env;
  events : list Event
}.
Arguments mkRun {A} _ _ _.
Arguments result {A} _.
Arguments rest {A} _.
Arguments events {A} _.

Definition M (A : Type) : Type := Env -> Run A.

Definition ret {A : Type} (a : A) : M A := fun s => mkRun (Ok a) s [].

Definition raise {A : Type} (e : PyExn) : M A := fun s => mkRun (Raise e) s [].

Definition lift {A : Type} (x : Exc A) : M A := fun s => mkRun x s [].

Definition bind {A B : Type} (m : M A) (f : A -> M B) : M B := fun s =>
  let r := m s in
  match result r with
  | Ok a => let r' := f a (rest r) in
            mkRun (result r') (rest r') (events r ++ events r')
  | Raise e => mkRun (Raise e) (rest r) (events r)
  end.

(** [try: m except Exception as e: h e]. *)
Definition try_except {A : Type} (m : M A) (h : PyExn -> M A) : M A := fun s =>
  let r := m s in
  match result r with
  | Ok a => r
  | Raise e => let r' := h e (rest r) in
               mkRun (result r') (rest r') (events r ++ events r')
  end.

(** Sending a request consumes the next outcome of the script; a script
    that has run out stands for an unreachable endpoint. *)
Definition next_outcome (s : Env) : HttpOutcome :=
  match script s with
  | o :: _ => o
  | [] => Fails ClientConnectionError
  end.

Definition advance (s : Env) : Env :=
  mkEnv (tl (script s)) (picks s) (draws s).

Definition send (req : Request) : M Response := fun s =>
  match next_outcome s with
  | Reply r => mkRun (Ok r) (advance s) [EvRequest req]
  | Fails e => mkRun (Raise e) (advance s) [EvRequest req]
  end.

(** [await asyncio.sleep(seconds)]. *)
Definition sleep (seconds : float) : M unit := fun s =>
  mkRun (Ok tt) s [EvSleep seconds].

(** [await resp.json()]. *)
Definition resp_json (r : Response) : M json :=
  match body_json r with
  | Some j => ret j
  | None => raise ContentTypeError
  end.

(** [resp.raise_for_status()]: raises from status 400 on. *)
Definition raise_for_status (r : Response) : M unit :=
  if 400 <=? status r then raise ClientResponseError else ret tt.

(** [session.post(url, json=payload)]. *)
Definition post (u : string) (p : json) : M Response := send (mkRequest POST u p).

(** [session.get(url, params=params)]: the URL builder accepts str and int
    query values and raises TypeError on a value it does not accept, before
    anything is sent. *)
Definition get {RT : Runtime} (u : string) (params : list (string * json)) : M Response :=
  if forallb (fun kv => query_value_ok (snd kv)) params
  then send (mkRequest GET u (JObj params))
  else raise TypeError.

(** [random.choices(...)]: the next pick of the world. *)
Definition next_pick : M nat := fun s =>
  mkRun (Ok (hd 0%nat (picks s))) (mkEnv (script s) (tl (picks s)) (draws s)) [].

(** [random.random()]: the next draw of the world. *)
Definition next_draw : M float := fun s =>
  mkRun (Ok (hd 0%float (draws s))) (mkEnv (script s) (picks s) (tl (draws s))) [].

End World.
Export World.

Declare Scope py_scope.
Delimit Scope py_scope with py.
Notation "x <- m ;; k" := (bind m (fun x => k))
  (at level 61, m at next level, right associativity) : py_scope.
Notation "m ;;; k" := (bind m (fun _ => k))
  (at level 61, right associativity) : py_scope.
Notation "x <~ e ;; k" := (bind (lift e) (fun x => k))
  (at level 61, e at next level, right associativity) : py_scope.
Local Open Scope py_scope.

(* ================================================================== *)
(** * config.py *)

Module Config.

Definition FOGO_RPC_URL : string := "https://testnet.fogo.io/".
Definition VALIANT_API_URL : string := "https://api.valiant.trade".
Definition PAYMASTER_URL : string := "https://sessions-example.fogo.io/paymaster".
Definition PUBLIC_FEE_PAYER : string := "8HnaXmgFJbvvJxSdjeNyWwMXZb85E35NM4XNg6rxuw3w".
Definition FOGO_MINT : string := "So11111111111111111111111111111111111111112".
Definition FUSD_MINT : string := "fUSDNGgHkZfwckbr5RLLvRbvqvRcTLdH9hcHJiq4jry".
Definition LAMPORTS_PER_FOGO : Z := 1000000000.
Definition SWAP_AMOUNTS : list Z := [100000; 200000; 500000; 1000000; 1500000].
Definition MIN_TRANSACTION_DELAY : float := 0.1%float.

End Config.
Export Config.

(* ================================================================== *)
(** * network.py *)

Module Network.

Definition balance_request (pubkey : string) : Request :=
  mkRequest POST FOGO_RPC_URL
    (JObj [("jsonrpc", JStr "2.0"); ("id", JNum 1); ("method", JStr "getBalance");
           ("params", JArr [JStr pubkey])]).

(** [get_balance_rpc]: the value the RPC reports, unvalidated, or 0 on any
    other status, shape or exception. *)
Definition get_balance_rpc (pubkey : string) : M json :=
  try_except
    (resp <- send (balance_request pubkey) ;;
     if status resp =? 200 then
       data <- resp_json resp ;;
       has_result <~ py_in "result" data ;;
       if has_result then
         res <~ py_getitem data "result" ;;
         has_value <~ py_in "value" res ;;
         if has_value then
           res' <~ py_getitem data "result" ;;
           lift (py_getitem res' "value")
         else ret (JNum 0)
       else ret (JNum 0)
     else ret (JNum 0))
    (fun _ => ret (JNum 0)).

End Network.
Export Network.

(* ================================================================== *)
(** * airdrop.py *)

Module Airdrop.

Definition AIRDROP_LAMPORTS : Z := 2000000000.

Definition airdrop_payload (pubkey : string) : json :=
  JObj [("jsonrpc", JStr "2.0"); ("id", JNum 1); ("method", JStr "requestAirdrop");
        ("params", JArr [JStr pubkey; JNum AIRDROP_LAMPORTS])].

Definition official_airdrop_request (pubkey : string) : Request :=
  mkRequest POST FOGO_RPC_URL (airdrop_payload pubkey).

Definition devnet_url : string := "https://api.devnet.solana.com".

Definition devnet_airdrop_request (pubkey : string) : Request :=
  mkRequest POST devnet_url (airdrop_payload pubkey).

Definition faucet_endpoints (pubkey : string) : list (string * json) :=
  [ ("https://faucet.fogo.io/api/airdrop",
     JObj [("address", JStr pubkey); ("amount", JNum AIRDROP_LAMPORTS)]);
    ("https://testnet.fogo.io/api/faucet",
     JObj [("wallet", JStr pubkey); ("network", JStr "testnet")]) ].

Definition LIMIT_KEYWORDS : list string := ["limit"; "already"; "funded"; "recent"].

(** ['result' in result and result['result']] as a condition. *)
Definition has_truthy_result (result : json) : Exc bool :=
  bindE (py_in "result" result) (fun has_result =>
  if has_result
  then bindE (py_getitem result "result") (fun r => Ok (truthy r))
  else Ok false).

Definition _try_official_fogo_airdrop (pubkey : string) : M bool :=
  try_except
    (resp <- send (official_airdrop_request pubkey) ;;
     if status resp =? 200 then
       result <- resp_json resp ;;
       accepted <~ has_truthy_result result ;;
       if accepted then ret true
       else
         has_error <~ py_in "error" result ;;
         if has_error then
           err <~ py_getitem result "error" ;;
           error_msg <~ py_get err "message" (JStr "Unknown error") ;;
           lowered <~ py_lower error_msg ;;
           if existsb (fun keyword => contains keyword lowered) LIMIT_KEYWORDS
           then ret true
           else ret false
         else ret false
     else ret false)
    (fun _ => ret false).

(** One turn of the loop over [faucet_endpoints]: [true] stands for the
    [return True] inside the loop, [false] for going on to the next one. *)
Definition try_faucet (endpoint : string * json) : M bool :=
  try_except
    (resp <- post (fst endpoint) (snd endpoint) ;;
     response_text <~ text resp ;;
     if (status resp =? 200) || (status resp =? 201) then ret true else ret false)
    (fun _ => ret false).

Fixpoint try_faucets (endpoints : list (string * json)) : M bool :=
  match endpoints with
  | [] => ret false
  | endpoint :: others =>
      hit <- try_faucet endpoint ;;
      if hit then ret true else try_faucets others
  end.

Definition _try_alternative_faucets (pubkey : string) : M bool :=
  try_faucets (faucet_endpoints pubkey).

Definition _try_devnet_fallback (pubkey : string) : M bool :=
  try_except
    (resp <- send (devnet_airdrop_request pubkey) ;;
     if status resp =? 200 then
       result <- resp_json resp ;;
       accepted <~ has_truthy_result result ;;
       if accepted then ret true else ret false
     else ret false)
    (fun _ => ret false).

Definition request_airdrop (pubkey : string) : M bool :=
  try_except
    (official <- _try_official_fogo_airdrop pubkey ;;
     if official then ret true
     else
       alternative <- _try_alternative_faucets pubkey ;;
       if alternative then ret true
       else
         devnet <- _try_devnet_fallback pubkey ;;
         if devnet then ret true else ret false)
    (fun _ => ret false).

End Airdrop.
Export Airdrop.

(* ================================================================== *)
(** * transaction.py *)

Module Transaction_py.

Section WithRuntime.
Context {RT : Runtime}.

Definition solders_method (raw_tx_bytes : bytes) (wallet : Wallet) : Exc (option bytes) :=
  match TRANSACTION_TYPE with
  | solders =>
      bindE (VersionedTransaction_from_bytes raw_tx_bytes) (fun tx =>
      bindE (message_to_bytes (tx_message tx)) (fun message_bytes =>
      bindE (sign_message wallet message_bytes) (fun signature =>
      bindE (signature_attr signature) (fun sig =>
      let signatures := [sig] in
      bindE (VersionedTransaction_new (tx_message tx) signatures) (fun signed_tx =>
      bindE (vtx_to_bytes signed_tx) (fun b => Ok (Some b)))))))
  | _ => Ok None
  end.

Definition legacy_method (raw_tx_bytes : bytes) (wallet : Wallet) : Exc (option bytes) :=
  match Transaction with
  | Some T =>
      bindE (deserialize T raw_tx_bytes) (fun legacy_tx =>
      bindE (sign T legacy_tx wallet) (fun legacy_tx' =>
      bindE (serialize T legacy_tx') (fun b => Ok (Some b))))
  | None => Ok None
  end.

(** [deserialize_and_sign_transaction]: each method sits in its own
    [try ... except Exception]; [Some b] is a [return b] inside the block,
    [None] is falling out of it. *)
Definition deserialize_and_sign_transaction (raw_tx_bytes : bytes) (wallet : Wallet)
  : Exc bytes :=
  bindE (catchE (solders_method raw_tx_bytes wallet) (fun _ => Ok None)) (fun r1 =>
  match r1 with
  | Some signed => Ok signed
  | None =>
      bindE (catchE (legacy_method raw_tx_bytes wallet) (fun _ => Ok None)) (fun r2 =>
      match r2 with
      | Some signed => Ok signed
      | None => Ok raw_tx_bytes
      end)
  end).

Definition PLACEHOLDER_SIGNATURE : string :=
  "1111111111111111111111111111111111111111111111111111111111111111".

Definition send_transaction_request (tx_bytes : bytes) : Request :=
  mkRequest POST FOGO_RPC_URL
    (JObj [("jsonrpc", JStr "2.0"); ("id", JNum 1); ("method", JStr "sendTransaction");
           ("params", JArr [JStr (b64encode tx_bytes);
                            JObj [("skipPreflight", JBool true);
                                  ("encoding", JStr "base64")]])]).

Definition send_transaction_rpc (tx_bytes : bytes) : M (bool * json) :=
  try_except
    (resp <- send (send_transaction_request tx_bytes) ;;
     if status resp =? 200 then
       result <- resp_json resp ;;
       accepted <~ has_truthy_result result ;;
       if accepted then
         tx_sig <~ py_getitem result "result" ;;
         if negb (is_str PLACEHOLDER_SIGNATURE tx_sig)
         then ret (true, tx_sig)
         else ret (true, JStr "placeholder")
       else ret (false, JStr "")
     else ret (false, JStr ""))
    (fun _ => ret (false, JStr "")).

Definition paymaster_request (raw_tx : json) : Request :=
  mkRequest POST PAYMASTER_URL (JObj [("transaction", raw_tx)]).

Definition dquote : N := 34%N.

Definition send_transaction_paymaster (raw_tx : json) : M (bool * unicode) :=
  try_except
    (resp <- send (paymaster_request raw_tx) ;;
     if status resp =? 200 then
       result <~ text resp ;;
       let result := strip dquote result in
       if negb (unicode_eqb result (u "")) && negb (unicode_eqb result (u "null"))
          && (10 <? len result)
       then ret (true, result)
       else ret (false, u "")
     else
       response_text <~ text resp ;;
       ret (false, u ""))
    (fun _ => ret (false, u "")).

End WithRuntime.

End Transaction_py.
Export Transaction_py.

(* ================================================================== *)
(** * utils.py *)

Module Utils.

(** [lamports / LAMPORTS_PER_FOGO], computed for a log line: true division
    of ints raises OverflowError when the quotient has no finite float. *)
Definition display_amount (lamports : Z) : Exc unit :=
  if Z.abs lamports >=? FLOAT_OVERFLOW * LAMPORTS_PER_FOGO
  then Raise OverflowError
  else Ok tt.

(** [format_token_amount(lamports)]; only whether it raises matters. *)
Definition format_token_amount (lamports : json) : Exc unit :=
  bindE (py_number lamports) display_amount.

(** [format_small_amount(lamports)] for an int. *)
Definition format_small_amount (lamports : Z) : Exc unit :=
  display_amount lamports.

(** The [if / elif / else] that chooses the multiplier. *)
Definition delay_multiplier (failure_rate : float) : float :=
  if PrimFloat.ltb 0.5 failure_rate then 2.0%float
  else if PrimFloat.ltb 0.3 failure_rate then 1.5%float
  else 1.0%float.

(** [random.uniform(a, b)] is [a + (b - a) * random()]. *)
Definition uniform (a b : float) : M float :=
  u <- next_draw ;;
  ret (PrimFloat.add a (PrimFloat.mul (PrimFloat.sub b a) u)).

Definition calculate_adaptive_delay (base_min base_max failure_rate : float) : M float :=
  let multiplier := delay_multiplier failure_rate in
  base_delay <- uniform base_min base_max ;;
  ret (PrimFloat.mul base_delay multiplier).

(** [max(a, b)]: the first argument unless the second is greater. *)
Definition py_max (a b : float) : float :=
  if PrimFloat.ltb a b then b else a.

End Utils.
Export Utils.

(* ================================================================== *)
(** * swap.py *)

Module Swap.

Record QuoteData : Type := mkQuote {
  token_min_out : Z;
  pool_address : json;
  is_fogo_to_fusd : bool
}.

Record TxData : Type := mkTxData {
  raw_tx : json;
  raw_tx_bytes : bytes
}.

Section WithRuntime.
Context {RT : Runtime}.

(** [int(v)]. *)
Definition py_int (v : json) : Exc Z :=
  match v with
  | JNum n => Ok n
  | JBool b => Ok (if b then 1 else 0)
  | JStr s => int_of_str s
  | _ => Raise TypeError
  end.

(** [base64.b64decode(v)]. *)
Definition py_b64decode (v : json) : Exc bytes :=
  match v with
  | JStr s => b64decode s
  | _ => Raise TypeError
  end.

(** [str(b).lower()]. *)
Definition bool_lower (b : bool) : string := if b then "true" else "false".

(** [int(balance * 0.8)]: the product is a float, so an int beyond the
    float range raises; the value is given up to the rounding of the float
    product (no later code reads it). *)
Definition adjusted_amount_of (balance : Z) : Exc Z :=
  if Z.abs balance >=? FLOAT_OVERFLOW then Raise OverflowError
  else Ok (balance * 8 / 10).

Definition CONFIRMATION_SLEEP : float := 5%float.

Definition _ensure_sufficient_balance (wallet : Wallet) (balance : json) (amount_in : Z)
  : M bool :=
  let fund : M bool :=
    airdrop_success <- request_airdrop (pubkey wallet) ;;
    if airdrop_success then
      sleep CONFIRMATION_SLEEP ;;;
      new_balance <- get_balance_rpc (pubkey wallet) ;;
      _ <~ format_token_amount new_balance ;;
      nb <~ py_number new_balance ;;
      ret (nb >=? amount_in)
    else ret false in
  b <~ py_number balance ;;
  if b >=? amount_in then ret true
  else if b >? 0 then
    _ <~ format_token_amount balance ;;
    _ <~ format_small_amount amount_in ;;
    if b >? 100000 then
      adjusted_amount <~ adjusted_amount_of b ;;
      _ <~ format_small_amount adjusted_amount ;;
      ret true
    else fund
  else fund.

Definition quote_params (amount_in : Z) (a_for_b : bool) : list (string * json) :=
  [("mintA", JStr FOGO_MINT); ("mintB", JStr FUSD_MINT);
   ("aForB", JStr (bool_lower a_for_b)); ("isExactIn", JStr "true");
   ("inputAmount", JNum amount_in); ("feePayer", JStr PUBLIC_FEE_PAYER)].

Definition quote_url : string := String.append VALIANT_API_URL "/dex/quote".

Definition _get_swap_quote (amount_in : Z) (direction : string) : M (option QuoteData) :=
  try_except
    (let a_for_b := String.eqb direction "FOGO_TO_FUSD" in
     resp <- get quote_url (quote_params amount_in a_for_b) ;;
     raise_for_status resp ;;;
     quote_data <- resp_json resp ;;
     has_quote <~ py_in "quote" quote_data ;;
     if negb has_quote then ret None
     else
       q <~ py_getitem quote_data "quote" ;;
       min_out <~ py_getitem q "tokenMinOut" ;;
       min_out <~ py_int min_out ;;
       q <~ py_getitem quote_data "quote" ;;
       pool <~ py_getitem q "poolAddress" ;;
       ret (Some (mkQuote min_out pool a_for_b)))
    (fun _ => ret None).

Definition swap_tx_params (wallet : Wallet) (amount_in : Z) (quote_data : QuoteData)
  : list (string * json) :=
  [("mintA", JStr FOGO_MINT); ("mintB", JStr FUSD_MINT);
   ("aForB", JStr (bool_lower (is_fogo_to_fusd quote_data))); ("isExactIn", JStr "true");
   ("inputAmount", JNum amount_in); ("feePayer", JStr PUBLIC_FEE_PAYER);
   ("userAddress", JStr (pubkey wallet)); ("sessionAddress", JStr (pubkey wallet));
   ("outputAmount", JNum (token_min_out quote_data));
   ("poolAddress", pool_address quote_data)].

Definition swap_tx_url : string := String.append VALIANT_API_URL "/dex/txs/swap".

Definition _get_swap_transaction (wallet : Wallet) (amount_in : Z) (direction : string)
    (quote_data : QuoteData) : M (option TxData) :=
  try_except
    (resp <- get swap_tx_url (swap_tx_params wallet amount_in quote_data) ;;
     raise_for_status resp ;;;
     txs_data <- resp_json resp ;;
     has_tx <~ py_in "serializedTx" txs_data ;;
     if negb has_tx then ret None
     else
       raw <~ py_getitem txs_data "serializedTx" ;;
       raw' <~ py_getitem txs_data "serializedTx" ;;
       decoded <~ py_b64decode raw' ;;
       ret (Some (mkTxData raw decoded)))
    (fun _ => ret None).

Definition _execute_transaction (wallet : Wallet) (tx_data : TxData) : M bool :=
  serialized_tx <-
    try_except
      (lift (deserialize_and_sign_transaction (raw_tx_bytes tx_data) wallet))
      (fun _ => ret (raw_tx_bytes tx_data)) ;;
  paymaster <- send_transaction_paymaster (raw_tx tx_data) ;;
  if fst paymaster then ret true
  else
    rpc <- send_transaction_rpc serialized_tx ;;
    if fst rpc then ret true else ret false.

(** The body of the [try] block of [perform_swap]. *)
Definition perform_swap_body (wallet : Wallet) (amount_in : Z) (direction : string) : M Z :=
  balance <- get_balance_rpc (pubkey wallet) ;;
  _ <~ format_token_amount balance ;;
  sufficient <- _ensure_sufficient_balance wallet balance amount_in ;;
  if negb sufficient then ret 0
  else
    quote_data <- _get_swap_quote amount_in direction ;;
    match quote_data with
    | None => ret 0
    | Some quote_data =>
        tx_data <- _get_swap_transaction wallet amount_in direction quote_data ;;
        match tx_data with
        | None => ret 0
        | Some tx_data =>
            success <- _execute_transaction wallet tx_data ;;
            if success then ret (token_min_out quote_data)
            else if token_min_out quote_data >? 0 then ret (token_min_out quote_data)
            else ret 0
        end
    end.

Definition perform_swap (wallet : Wallet) (amount_in : Z) (direction : string) : M Z :=
  try_except
    (perform_swap_body wallet amount_in direction)
    (fun e => if is_client_error e then ret 0 else ret 0).

End WithRuntime.

End Swap.
Export Swap.

(* ================================================================== *)
(** * worker.py *)

Module Worker.

Record Stats : Type := mkStats {
  successful_swaps : Z;
  failed_swaps : Z;
  total_volume : Z;
  worker_name : Z
}.

Section WithRuntime.
Context {RT : Runtime}.

(** [random.choices(SWAP_AMOUNTS, weights=SWAP_WEIGHTS)[0]]: all weights
    are positive, so every configured amount can come out. *)
Definition choose_amount : M Z :=
  k <- next_pick ;;
  ret (nth (k mod List.length SWAP_AMOUNTS)%nat SWAP_AMOUNTS 0).

Definition failure_rate_of (cycle : Z) (stats : Stats) : float :=
  let total_attempts := cycle + 1 in
  if total_attempts >? 0
  then PrimFloat.div (float_of_Z (failed_swaps stats)) (float_of_Z total_attempts)
  else 0%float.

Definition _adaptive_sleep (cycle : Z) (stats : Stats) (min_delay max_delay : float)
  : M unit :=
  let failure_rate := failure_rate_of cycle stats in
  sleep_time <- calculate_adaptive_delay min_delay max_delay failure_rate ;;
  let sleep_time := py_max sleep_time MIN_TRANSACTION_DELAY in
  sleep sleep_time.

Definition record_outcome (stats : Stats) (result amount_in : Z) : Stats :=
  if result >? 0
  then mkStats (successful_swaps stats + 1) (failed_swaps stats)
               (total_volume stats + amount_in) (worker_name stats)
  else mkStats (successful_swaps stats) (failed_swaps stats + 1)
               (total_volume stats) (worker_name stats).

(** The body of [for i in range(swaps)], for the [todo] iterations left. *)
Fixpoint worker_loop (todo : nat) (i swaps : Z) (wallet : Wallet)
    (min_delay max_delay : float) (stats : Stats) : M Stats :=
  match todo with
  | O => ret stats
  | S todo' =>
      amount_in <- choose_amount ;;
      result <- perform_swap wallet amount_in "FOGO_TO_FUSD" ;;
      let stats := record_outcome stats result amount_in in
      (if i <? swaps - 1 then _adaptive_sleep i stats min_delay max_delay else ret tt) ;;;
      worker_loop todo' (i + 1) swaps wallet min_delay max_delay stats
  end.

Definition worker (name : Z) (wallet : Wallet) (swaps : Z) (min_delay max_delay : float)
  : M Stats :=
  worker_loop (Z.to_nat swaps) 0 swaps wallet min_delay max_delay (mkStats 0 0 0 name).

End WithRuntime.

End Worker.
Export Worker.

(* ================================================================== *)
(** * A concrete runtime and concrete worlds for the scenarios *)

Module Scenario.

Definition B64_ALPHABET : string :=
  "ABCDEFGHIJKLMNOPQRSTUVWXYZabcdefghijklmnopqrstuvwxyz0123456789+/".

Definition sextet_char (n : N) : ascii :=
  match String.get (N.to_nat n) B64_ALPHABET with
  | Some c => c
  | None => "="%char
  end.

Definition pad : ascii := "="%char.

(** Standard base64 with padding. *)
Fixpoint base64_encode (b : bytes) : string :=
  match b with
  | [] => EmptyString
  | [b0] =>
      let n := N.shiftl (Byte.to_N b0) 16 in
      String (sextet_char (N.shiftr n 18))
        (String (sextet_char (N.land (N.shiftr n 12) 63))
           (String pad (String pad EmptyString)))
  | [b0; b1] =>
      let n := N.lor (N.shiftl (Byte.to_N b0) 16) (N.shiftl (Byte.to_N b1) 8) in
      String (sextet_char (N.shiftr n 18))
        (String (sextet_char (N.land (N.shiftr n 12) 63))
           (String (sextet_char (N.land (N.shiftr n 6) 63))
              (String pad EmptyString)))
  | b0 :: b1 :: b2 :: more =>
      let n := N.lor (N.lor (N.shiftl (Byte.to_N b0) 16) (N.shiftl (Byte.to_N b1) 8))
                     (Byte.to_N b2) in
      String (sextet_char (N.shiftr n 18))
        (String (sextet_char (N.land (N.shiftr n 12) 63))
           (String (sextet_char (N.land (N.shiftr n 6) 63))
              (String (sextet_char (N.land n 63))
                 (base64_encode more))))
  end.

Definition sextet_of (c : ascii) : option N :=
  let n := N_of_ascii c in
  if (65 <=? n)%N && (n <=? 90)%N then Some (n - 65)%N
  else if (97 <=? n)%N && (n <=? 122)%N then Some (n - 71)%N
  else if (48 <=? n)%N && (n <=? 57)%N then Some (n + 4)%N
  else if (n =? 43)%N then Some 62%N
  else if (n =? 47)%N then Some 63%N
  else None.

Definition byte_at (n : N) (shift : N) : Byte.byte :=
  match Byte.of_N (N.land (N.shiftr n shift) 255) with
  | Some b => b
  | None => Byte.x00
  end.

(** Decoder for canonical, padded base64 text; anything else is refused. *)
Fixpoint base64_decode (s : string) : Exc bytes :=
  match s with
  | EmptyString => Ok []
  | String c0 (String c1 (String c2 (String c3 more))) =>
      match sextet_of c0, sextet_of c1 with
      | Some s0, Some s1 =>
          let hi := N.lor (N.shiftl s0 18) (N.shiftl s1 12) in
          match sextet_of c2, sextet_of c3, more with
          | Some s2, Some s3, _ =>
              let n := N.lor hi (N.lor (N.shiftl s2 6) s3) in
              bindE (base64_decode more) (fun tail =>
              Ok (byte_at n 16 :: byte_at n 8 :: byte_at n 0 :: tail))
          | Some s2, None, EmptyString =>
              if Ascii.eqb c3 pad
              then let n := N.lor hi (N.shiftl s2 6) in Ok [byte_at n 16; byte_at n 8]
              else Raise BinasciiError
          | None, None, EmptyString =>
              if Ascii.eqb c2 pad && Ascii.eqb c3 pad
              then Ok [byte_at hi 16]
              else Raise BinasciiError
          | _, _, _ => Raise BinasciiError
          end
      | _, _ => Raise BinasciiError
      end
  | _ => Raise BinasciiError
  end.

Fixpoint digits_value (acc : Z) (s : string) : Exc Z :=
  match s with
  | EmptyString => Ok acc
  | String c t =>
      let n := Z.of_N (N_of_ascii c) in
      if (48 <=? n) && (n <=? 57) then digits_value (10 * acc + (n - 48)) t
      else Raise ValueError
  end.

(** [int(s)] on plain decimal text with an optional minus sign. *)
Definition decimal_int (s : string) : Exc Z :=
  match s with
  | EmptyString => Raise ValueError
  | String c t =>
      if Ascii.eqb c "-"%char
      then match t with
           | EmptyString => Raise ValueError
           | _ => bindE (digits_value 0 t) (fun n => Ok (- n))
           end
      else digits_value 0 s
  end.

Definition scalar_query_value (v : json) : bool :=
  match v with
  | JStr _ | JNum _ => true
  | _ => false
  end.

(** A runtime in which solders is installed but rejects the transaction
    bytes it is given, and no legacy [Transaction] class was found. *)
#[export] Instance rejecting_runtime : Runtime := {|
  int_of_str := decimal_int;
  query_value_ok := scalar_query_value;
  query_str_ok := fun _ => eq_refl;
  query_int_ok := fun _ => eq_refl;
  b64decode := base64_decode;
  b64encode := base64_encode;
  TRANSACTION_TYPE := solders;
  VTx := unit;
  Msg := unit;
  Sig := unit;
  LTx := unit;
  VersionedTransaction_from_bytes := fun _ => Raise ValueError;
  tx_message := fun _ => tt;
  message_to_bytes := fun _ => Ok [];
  sign_message := fun _ _ => Ok tt;
  signature_attr := fun _ => Raise AttributeError;
  VersionedTransaction_new := fun _ _ => Ok tt;
  vtx_to_bytes := fun _ => Ok [];
  Transaction := None
|}.

Definition alice : Wallet := mkWallet "7xKXtg2CW87d97TXJSDpbD5jBkheTqA83TZRuJosgAsU".

Definition json_reply (code : Z) (j : json) : HttpOutcome :=
  Reply (mkResponse code (Ok (u "")) (Some j)).

Definition text_reply (code : Z) (body : string) : HttpOutcome :=
  Reply (mkResponse code (Ok (u body)) None).

Definition balance_reply (lamports : Z) : HttpOutcome :=
  json_reply 200 (JObj [("jsonrpc", JStr "2.0");
                        ("result", JObj [("context", JObj [("slot", JNum 1)]);
                                         ("value", JNum lamports)]);
                        ("id", JNum 1)]).

Definition quote_reply (min_out : json) : HttpOutcome :=
  json_reply 200 (JObj [("quote", JObj [("tokenMinOut", min_out);
                                        ("poolAddress", JStr "pool1")])]).

Definition build_reply : HttpOutcome :=
  json_reply 200 (JObj [("serializedTx", JStr "AQID")]).

Definition world (outcomes : list HttpOutcome) : Env := mkEnv outcomes [] [].

End Scenario.


(* ================================================================== *)
(** * Vocabulary of the properties *)

Import Scenario.

(** ** Runs *)

Definition prefix_events {A : Type} (evs : list Event) (r : Run A) : Run A :=
  mkRun (result r) (rest r) (evs ++ events r).

(** The [k]-th outcome that a run started in [s] will receive. *)
Definition outcome_at (k : nat) (s : Env) : HttpOutcome :=
  next_outcome (Nat.iter k advance s).

(** [quiet m]: [m] consumes nothing of the world and emits nothing. *)
Definition quiet {A : Type} (m : M A) : Prop :=
  forall s, rest (m s) = s /\ events (m s) = [].

(** [emits P m]: every event of every run of [m] satisfies [P]. *)
Definition emits {A : Type} (P : Event -> Prop) (m : M A) : Prop :=
  forall s, Forall P (events (m s)).

Definition is_request (e : Event) : bool :=
  match e with
  | EvRequest _ => true
  | EvSleep _ => false
  end.

(** Some request made during the run [r] started in [s] raised. *)
Definition raised_during {A : Type} (s : Env) (r : Run A) : Prop :=
  exists e, In (Fails e) (firstn (List.length (filter is_request (events r))) (script s)).

(** ** Submission channels, in the words of the specification *)

(** The text of [body] between double quotes. *)
Definition quoted (body : string) : string :=
  String "034"%char (String.append body (String "034"%char EmptyString)).

(** A successful fallback response: HTTP 200 and a JSON object with a
    non-empty [result] field, which is the reference id. *)
Definition rpc_reference (o : HttpOutcome) : option json :=
  match o with
  | Reply r =>
      if status r =? 200 then
        match body_json r with
        | Some (JObj fields) =>
            match assoc "result" fields with
            | Some v => if truthy v then Some v else None
            | None => None
            end
        | _ => None
        end
      else None
  | Fails _ => None
  end.

(** ** Funding channels, in the words of the specification *)

Definition has_reference (fields : list (string * json)) : bool :=
  match assoc "result" fields with
  | Some v => truthy v
  | None => false
  end.

Definition error_matches_limit (fields : list (string * json)) : bool :=
  match assoc "error" fields with
  | Some (JObj error) =>
      match assoc "message" error with
      | Some (JStr message) =>
          existsb (fun keyword => contains keyword (lower message)) LIMIT_KEYWORDS
      | _ => false
      end
  | _ => false
  end.

(** Primary channel: the response carries a reference id, or its error
    message matches the "limit / already / funded / recent" pattern. *)
Definition primary_reports_success (o : HttpOutcome) : bool :=
  match o with
  | Reply (mkResponse 200 _ (Some (JObj fields))) =>
      has_reference fields || error_matches_limit fields
  | _ => false
  end.

(** Alternate faucet: the body of the reply could be read and the status
    is 200 or 201. *)
Definition faucet_reports_success (o : HttpOutcome) : bool :=
  match o with
  | Reply r =>
      match text r with
      | Ok _ => (status r =? 200) || (status r =? 201)
      | Raise _ => false
      end
  | Fails _ => false
  end.

(** Devnet fallback: the response carries a reference id. *)
Definition devnet_reports_success (o : HttpOutcome) : bool :=
  match o with
  | Reply (mkResponse 200 _ (Some (JObj fields))) => has_reference fields
  | _ => false
  end.

Definition faucet_request (endpoint : string * json) : Request :=
  mkRequest POST (fst endpoint) (snd endpoint).

(** The requests of the three channels, in the order of the code. *)
Definition airdrop_requests (pubkey : string) : list Request :=
  official_airdrop_request pubkey
  :: map faucet_request (faucet_endpoints pubkey)
  ++ [devnet_airdrop_request pubkey].

(** How many requests [request_airdrop] makes: it stops at the first
    channel attempt that reports success. *)
Definition requests_made (s : Env) : nat :=
  if primary_reports_success (outcome_at 0 s) then 1
  else if faucet_reports_success (outcome_at 1 s) then 2
  else if faucet_reports_success (outcome_at 2 s) then 3
  else 4.

Definition some_channel_succeeds (s : Env) : bool :=
  primary_reports_success (outcome_at 0 s)
  || (faucet_reports_success (outcome_at 1 s) || faucet_reports_success (outcome_at 2 s))
  || devnet_reports_success (outcome_at 3 s).

(** ** Funding attempts and requested amounts *)

Definition within_float_range (n : Z) : Prop := Z.abs n < FLOAT_OVERFLOW.

Definition json_field (k : string) (j : json) : option json :=
  match j with
  | JObj fields => assoc k fields
  | _ => None
  end.

(** A funding attempt is an invocation of [request_airdrop]; each one
    starts with exactly one "requestAirdrop" call to the FOGO RPC, which
    nothing else in the bot sends. *)
Definition is_funding_request (req : Request) : bool :=
  String.eqb (url req) FOGO_RPC_URL &&
  match json_field "method" (payload req) with
  | Some m => is_str "requestAirdrop" m
  | None => false
  end.

Definition is_funding_event (e : Event) : bool :=
  match e with
  | EvRequest req => is_funding_request req
  | EvSleep _ => false
  end.

Definition funding_attempts (evs : list Event) : nat :=
  List.length (filter is_funding_event evs).

(** The amount a DEX request asks to swap, if it names one. *)
Definition requested_amount (req : Request) : option json :=
  json_field "inputAmount" (payload req).

(** An event that is not a funding attempt and, if it is a request naming
    an input amount, names [amount_in]. *)
Definition keeps_amount (amount_in : Z) (e : Event) : Prop :=
  match e with
  | EvRequest req =>
      is_funding_request req = false /\
      forall v, requested_amount req = Some v -> v = JNum amount_in
  | EvSleep _ => True
  end.

Definition at_most {A : Type} (k : nat) (m : M A) : Prop :=
  forall s, (funding_attempts (events (m s)) <= k)%nat.

(** ** The orchestrator *)

Section OrchestratorVocabulary.
Context {RT : Runtime}.

Definition quote_request (amount_in : Z) (direction : string) : Request :=
  mkRequest GET quote_url
    (JObj (quote_params amount_in (String.eqb direction "FOGO_TO_FUSD"))).

Definition swap_tx_request (wallet : Wallet) (amount_in : Z) (q : QuoteData) : Request :=
  mkRequest GET swap_tx_url (JObj (swap_tx_params wallet amount_in q)).

(** The funding path of [_ensure_sufficient_balance]: one call of the
    Funding Acquirer, the confirmation delay, one new balance query. *)
Definition fund_and_recheck (wallet : Wallet) (amount_in : Z) : M bool :=
  airdrop_success <- request_airdrop (pubkey wallet) ;;
  if airdrop_success then
    sleep CONFIRMATION_SLEEP ;;;
    new_balance <- get_balance_rpc (pubkey wallet) ;;
    _ <~ format_token_amount new_balance ;;
    nb <~ py_number new_balance ;;
    ret (nb >=? amount_in)
  else ret false.

(** What [perform_swap_body] does once the balance is found sufficient. *)
Definition quote_build_submit (wallet : Wallet) (amount_in : Z) (direction : string) : M Z :=
  quote_data <- _get_swap_quote amount_in direction ;;
  match quote_data with
  | None => ret 0
  | Some quote_data =>
      tx_data <- _get_swap_transaction wallet amount_in direction quote_data ;;
      match tx_data with
      | None => ret 0
      | Some tx_data =>
          success <- _execute_transaction wallet tx_data ;;
          if success then ret (token_min_out quote_data)
          else if token_min_out quote_data >? 0 then ret (token_min_out quote_data)
          else ret 0
      end
  end.

(** The run started in [s] finds the balance sufficient and reaches the
    quote stage in world [s1]. *)
Definition reaches_quote (wallet : Wallet) (amount_in : Z) (s s1 : Env) : Prop :=
  exists balance,
    result (get_balance_rpc (pubkey wallet) s) = Ok balance /\
    format_token_amount balance = Ok tt /\
    let checked := _ensure_sufficient_balance wallet balance amount_in
                     (rest (get_balance_rpc (pubkey wallet) s)) in
    result checked = Ok true /\ rest checked = s1.

(** The quote stage gives [q], the build stage succeeds, and the
    submission pipeline reports [success]. *)
Definition reaches_submission (wallet : Wallet) (amount_in : Z) (direction : string)
    (s : Env) (q : QuoteData) (success : bool) : Prop :=
  exists s1 tx,
    reaches_quote wallet amount_in s s1 /\
    let quoted_run := _get_swap_quote amount_in direction s1 in
    result quoted_run = Ok (Some q) /\
    let built := _get_swap_transaction wallet amount_in direction q (rest quoted_run) in
    result built = Ok (Some tx) /\
    result (_execute_transaction wallet tx (rest built)) = Ok success.

End OrchestratorVocabulary.

(** ** Claims in the wording of the specification that the code refutes *)

(** C2 with its example: status 200 and body ["abc1234567"] give
    (True, "abc1234567"). *)
Definition paymaster_example_as_specified : Prop :=
  forall (raw_tx : json) (s : Env) (bj : option json),
    next_outcome s = Reply (mkResponse 200 (Ok (u (quoted "abc1234567"))) bj) ->
    result (send_transaction_paymaster raw_tx s) = Ok (true, u "abc1234567").

(** C4 as worded: after a failed submission the amount is still
    token_min_out whenever token_min_out is nonzero. *)
Definition nonzero_outcome_rule : Prop :=
  forall (RT : Runtime) (wallet : Wallet) (amount_in : Z) (direction : string)
         (s : Env) (q : QuoteData) (success : bool),
    reaches_submission wallet amount_in direction s q success ->
    result (perform_swap wallet amount_in direction s)
    = Ok (if success then token_min_out q
          else if negb (token_min_out q =? 0) then token_min_out q
          else 0).

(** C9 as worded: whenever a request of some step raises, the operation
    returns 0. *)
Definition every_exception_yields_zero : Prop :=
  forall (RT : Runtime) (wallet : Wallet) (amount_in : Z) (direction : string) (s : Env),
    raised_during s (perform_swap wallet amount_in direction s) ->
    result (perform_swap wallet amount_in direction s) = Ok 0.

(* ================================================================== *)
(** * Further code of the repository *)

(** ** Ordering of decoded values *)

Module Ordering.

(** [a > b] on decoded JSON values, as the interpreter evaluates it: on
    two ints it is the order of the integers; on other operands it is
    whatever Python does (an order on strings and lists, TypeError on
    most mixed operands). *)
Class PyOrder : Type := {
  py_gt : json -> json -> Exc bool;
  py_gt_int : forall a b : Z, py_gt (JNum a) (JNum b) = Ok (a >? b)
}.

End Ordering.
Export Ordering.

(** ** config.py, further constants *)

Module MoreConfig.

Definition FOGO_GENESIS_HASH : string := "9GGSFo95raqzZxWqKM5tGYvJp5iv4Dm565S4r8h5PEu9".
Definition NETWORK_CHECK_DELAY : float := 2%float.
Definition AIRDROP_CONFIRMATION_DELAY : float := 5%float.

End MoreConfig.
Export MoreConfig.

(** ** transaction.check_transaction_status *)

Module Status.

Definition signature_status_request (tx_signature : string) : Request :=
  mkRequest POST FOGO_RPC_URL
    (JObj [("jsonrpc", JStr "2.0"); ("id", JNum 1);
           ("method", JStr "getSignatureStatus");
           ("params", JArr [JStr tx_signature])]).

(** [v is None]. *)
Definition is_none (v : json) : bool :=
  match v with
  | JNull => true
  | _ => false
  end.

Definition check_transaction_status (tx_signature : string) : M bool :=
  try_except
    (if String.eqb tx_signature "" || String.eqb tx_signature PLACEHOLDER_SIGNATURE
     then ret true
     else
       resp <- send (signature_status_request tx_signature) ;;
       if status resp =? 200 then
         result <- resp_json resp ;;
         accepted <~ has_truthy_result result ;;
         if accepted then
           res <~ py_getitem result "result" ;;
           status_value <~ py_getitem res "value" ;;
           if is_none status_value then ret false
           else
             has_err <~ py_in "err" status_value ;;
             if has_err then
               err <~ py_getitem status_value "err" ;;
               if is_none err then ret true else ret false
             else ret false
         else ret true
       else ret true)
    (fun _ => ret true).

End Status.
Export Status.

(** ** network.py, connection checks *)

Module NetworkChecks.

Definition rpc_request (method : string) : Request :=
  mkRequest POST FOGO_RPC_URL
    (JObj [("jsonrpc", JStr "2.0"); ("id", JNum 1); ("method", JStr method)]).

Definition _check_network_version : M unit :=
  try_except
    (resp <- send (rpc_request "getVersion") ;;
     if status resp =? 200 then
       result <- resp_json resp ;;
       has_result <~ py_in "result" result ;;
       if has_result then
         version_info <~ py_getitem result "result" ;;
         _ <~ py_get version_info "solana-core" (JStr "Unknown") ;;
         has_features <~ py_in "feature-set" version_info ;;
         if has_features then
           _ <~ py_getitem version_info "feature-set" ;;
           ret tt
         else ret tt
       else ret tt
     else ret tt)
    (fun _ => ret tt).

Section WithOrder.
Context {PO : PyOrder}.

Definition _check_network_activity : M bool :=
  try_except
    (resp <- send (rpc_request "getSlot") ;;
     if status resp =? 200 then
       result <- resp_json resp ;;
       has_result <~ py_in "result" result ;;
       if has_result then
         current_slot <~ py_getitem result "result" ;;
         sleep NETWORK_CHECK_DELAY ;;;
         resp2 <- send (rpc_request "getSlot") ;;
         if status resp2 =? 200 then
           result2 <- resp_json resp2 ;;
           has_result2 <~ py_in "result" result2 ;;
           if has_result2 then
             new_slot <~ py_getitem result2 "result" ;;
             progressed <~ py_gt new_slot current_slot ;;
             if progressed then ret true else ret false
           else ret false
         else ret false
       else ret false
     else ret false)
    (fun _ => ret false).

(** [verify_fogo_connection]; [genesis_ok] is [false] where the code
    returns False from inside the genesis block, [true] where it falls
    out of the block and goes on. *)
Definition verify_fogo_connection : M bool :=
  try_except
    (resp <- send (rpc_request "getGenesisHash") ;;
     genesis_ok <-
       (if status resp =? 200 then
          result <- resp_json resp ;;
          has_result <~ py_in "result" result ;;
          if has_result then
            genesis_hash <~ py_getitem result "result" ;;
            if is_str FOGO_GENESIS_HASH genesis_hash then ret true else ret false
          else ret false
        else ret false) ;;
     if genesis_ok then
       _check_network_version ;;;
       network_active <- _check_network_activity ;;
       if network_active then ret true else ret false
     else ret false)
    (fun _ => ret false).

End WithOrder.

(** [send_rpc_request(session, method, params)]; Python's [None] is
    [JNull]. *)
Definition send_rpc_request (method : string) (params : json) : M json :=
  try_except
    (resp <- send (mkRequest POST FOGO_RPC_URL
                     (JObj [("jsonrpc", JStr "2.0"); ("id", JNum 1);
                            ("method", JStr method); ("params", params)])) ;;
     if status resp =? 200 then resp_json resp else ret JNull)
    (fun _ => ret JNull).

(** [check_wallets_balance(keypairs, session)] with a session, as main.py
    calls it: nothing catches what the comparison [balance > 1000000] or
    the formatting of the balance raises. *)
Fixpoint check_wallets_balance (keypairs : list Wallet) : M unit :=
  match keypairs with
  | [] => ret tt
  | keypair :: others =>
      balance <- get_balance_rpc (pubkey keypair) ;;
      _ <~ py_number balance ;;
      _ <~ format_token_amount balance ;;
      check_wallets_balance others
  end.

End NetworkChecks.
Export NetworkChecks.

(** ** utils.py, input validation and the proxy file *)

Module MoreUtils.

Definition validate_input_params (num_swaps : Z) (min_delay max_delay : float) : bool :=
  if num_swaps <=? 0 then false
  else if PrimFloat.ltb min_delay 0%float || PrimFloat.ltb max_delay 0%float then false
  else if PrimFloat.ltb max_delay min_delay then false
  else true.

(** [c.isspace()] as [str.strip()] tests it: the white-space characters
    of Unicode. *)
Definition is_space (c : N) : bool :=
  ((9 <=? c) && (c <=? 13) || (28 <=? c) && (c <=? 32)
   || (c =? 133) || (c =? 160) || (c =? 5760)
   || (8192 <=? c) && (c <=? 8202)
   || (c =? 8232) || (c =? 8233) || (c =? 8239) || (c =? 8287) || (c =? 12288))%N.

Fixpoint lstrip_space (s : unicode) : unicode :=
  match s with
  | [] => []
  | a :: t => if is_space a then lstrip_space t else s
  end.

Fixpoint rstrip_space (s : unicode) : unicode :=
  match s with
  | [] => []
  | a :: t =>
      match rstrip_space t with
      | [] => if is_space a then [] else [a]
      | t' => a :: t'
      end
  end.

(** [s.strip()]. *)
Definition strip_space (s : unicode) : unicode := rstrip_space (lstrip_space s).

(** [s.startswith(p)]. *)
Fixpoint startswith (p s : unicode) : bool :=
  match p, s with
  | [], _ => true
  | x :: p', y :: s' => N.eqb x y && startswith p' s'
  | _ :: _, [] => false
  end.

(** [needle in hay] for two [str]s. *)
Fixpoint unicode_in (needle hay : unicode) : bool :=
  startswith needle hay ||
  match hay with
  | [] => false
  | _ :: t => unicode_in needle t
  end.

(** The loop of [load_proxies] over the lines of the file. *)
Fixpoint load_proxy_lines (lines : list unicode) : list unicode :=
  match lines with
  | [] => []
  | line :: others =>
      let proxy := strip_space line in
      if negb (unicode_eqb proxy (u "")) && negb (startswith (u "#") proxy) then
        (if negb (unicode_in (u "://") proxy) then u "http://" ++ proxy else proxy)
        :: load_proxy_lines others
      else load_proxy_lines others
  end.

(** [load_proxies(filename)] for a file that can be read as UTF-8 text,
    given by its lines; [None] is a file that does not exist. *)
Definition load_proxies (file : option (list unicode)) : list unicode :=
  match file with
  | None => []
  | Some lines => load_proxy_lines lines
  end.

End MoreUtils.
Export MoreUtils.

(** ** worker.run_multiple_workers and airdrop.request_multiple_airdrops *)

Module Fleet.

(** The dictionary that [run_multiple_workers] returns. *)
Record FleetStats : Type := mkFleet {
  total_successful_swaps : Z;
  total_failed_swaps : Z;
  total_volume : Z;
  total_time : float;
  worker_count : Z;
  swaps_per_worker : Z;
  worker_results : list Stats
}.

(** [enumerate(l, start)]. *)
Definition enumerate {A : Type} (start : nat) (l : list A) : list (nat * A) :=
  combine (seq start (List.length l)) l.

(** [await asyncio.gather] over the tasks.  The tasks share no mutable state
    (each worker has its own session, statistics and wallet), so a
    concurrent run is given by the world each task meets: [worlds k] is
    the sequence of outcomes, picks and draws that task [k] receives.
    The first task that raises makes [gather] raise. *)
Fixpoint gather {A : Type} (tasks : list (nat * M A)) (worlds : nat -> Env)
  : Exc (list A) :=
  match tasks with
  | [] => Ok []
  | (k, task) :: others =>
      bindE (result (task (worlds k))) (fun a =>
      bindE (gather others worlds) (fun l => Ok (a :: l)))
  end.

Definition sum_of (f : Stats -> Z) (results : list Stats) : Z :=
  fold_right (fun r acc => f r + acc) 0 results.

Section WithRuntime.
Context {RT : Runtime}.

(** [total_time] is the difference of the two clock readings. *)
Definition run_multiple_workers (keypairs : list Wallet) (num_swaps : Z)
    (min_delay max_delay : float) (worlds : nat -> Env) (elapsed : float)
  : Exc FleetStats :=
  let tasks :=
    map (fun ik => (fst ik,
                    worker (Z.of_nat (fst ik)) (snd ik) num_swaps min_delay max_delay))
        (enumerate 1 keypairs) in
  bindE (gather tasks worlds) (fun results =>
  Ok (mkFleet (sum_of successful_swaps results)
              (sum_of failed_swaps results)
              (sum_of Worker.total_volume results)
              elapsed
              (Z.of_nat (List.length keypairs))
              num_swaps
              results)).

End WithRuntime.

(** [total_attempts] of [print_final_statistics] and
    [generate_summary_report]. *)
Definition total_attempts (stats : FleetStats) : Z :=
  worker_count stats * swaps_per_worker stats.

(** [r is True] for a result of [gather(..., return_exceptions=True)]. *)
Definition is_true_result (r : Exc bool) : bool :=
  match r with
  | Ok true => true
  | _ => false
  end.

(** [request_multiple_airdrops]: the number of successful requests and
    what the function does after the [gather]. *)
Definition request_multiple_airdrops (keypairs : list Wallet) (worlds : nat -> Env)
  : Z * list Event :=
  let results :=
    map (fun ik => result (request_airdrop (pubkey (snd ik)) (worlds (fst ik))))
        (enumerate 0 keypairs) in
  let successful_airdrops := Z.of_nat (List.length (filter is_true_result results)) in
  (successful_airdrops,
   if successful_airdrops >? 0 then [EvSleep AIRDROP_CONFIRMATION_DELAY] else []).

End Fleet.

(** ** worker.generate_summary_report *)

Module Report.

(** The arithmetic exceptions that the report can meet. *)
Inductive ArithmeticError : Type :=
| ZeroDivisionError
| IntTooLargeForFloat.       (* OverflowError *)

(** [a / b] on two ints: whether it raises.  The quotient is rounded to
    the nearest float, so it overflows from [FLOAT_OVERFLOW] on. *)
Definition int_true_div (a b : Z) : option ArithmeticError :=
  if b =? 0 then Some ZeroDivisionError
  else if Z.abs a >=? FLOAT_OVERFLOW * Z.abs b then Some IntTooLargeForFloat
  else None.

(** [x / b] for a float [x] and an int [b]: [b] is converted to a float
    first. *)
Definition float_div_int (b : Z) : option ArithmeticError :=
  if Z.abs b >=? FLOAT_OVERFLOW then Some IntTooLargeForFloat
  else if b =? 0 then Some ZeroDivisionError
  else None.

(** A run of the report: how many [f.write] calls were completed, and the
    exception that ended it, if any.  The file is closed either way, so
    the completed writes are what the file holds. *)
Definition ReportRun : Type := (nat * option ArithmeticError)%type.

Definition checked (x : option ArithmeticError) (written : nat) (k : ReportRun)
  : ReportRun :=
  match x with
  | Some e => (written, Some e)
  | None => k
  end.

(** The loop over [stats["worker_results"]] and the two closing writes. *)
Fixpoint worker_lines (swaps_per_worker : Z) (results : list Stats) (written : nat)
  : ReportRun :=
  match results with
  | [] => ((written + 2)%nat, None)
  | result :: others =>
      checked (if swaps_per_worker >? 0
               then int_true_div (successful_swaps result) swaps_per_worker
               else None) written
        (checked (int_true_div (Worker.total_volume result) LAMPORTS_PER_FOGO) written
           (worker_lines swaps_per_worker others (S written)))
  end.

Definition generate_summary_report (stats : Fleet.FleetStats) : ReportRun :=
  (* three header writes, four writes of general information *)
  let total_attempts := Fleet.worker_count stats * Fleet.swaps_per_worker stats in
  checked (if total_attempts >? 0
           then int_true_div (Fleet.total_successful_swaps stats) total_attempts
           else None) 7
    (checked (int_true_div (Fleet.total_volume stats) LAMPORTS_PER_FOGO) 7
       (* six writes up to "Total volume", then the average per swap *)
       (checked (float_div_int (Fleet.total_successful_swaps stats)) 13
          (* the average, and four writes of the table header *)
          (worker_lines (Fleet.swaps_per_worker stats) (Fleet.worker_results stats) 18))).

End Report.

(** ** Vocabulary of the further properties *)

(** A [getSignatureStatus] value that the code reads as a failed
    transaction. *)
Definition status_reports_failure (v : json) : bool :=
  match v with
  | JNull => true
  | JObj fields =>
      match assoc "err" fields with
      | Some JNull => false
      | _ => true
      end
  | JArr items => negb (existsb (is_str "err") items)
  | JStr s => negb (contains "err" s)
  | _ => false
  end.

Definition confirmed_failure (o : HttpOutcome) : bool :=
  match o with
  | Reply (mkResponse 200 _ (Some (JObj fields))) =>
      match assoc "result" fields with
      | Some (JObj res) =>
          match assoc "value" res with
          | Some v => status_reports_failure v
          | None => false
          end
      | _ => false
      end
  | _ => false
  end.

(** The [result] member of a 200 reply that is a JSON object. *)
Definition result_member (o : HttpOutcome) : option json :=
  match o with
  | Reply (mkResponse 200 _ (Some (JObj fields))) => assoc "result" fields
  | _ => None
  end.

Definition genesis_matches (o : HttpOutcome) : bool :=
  match result_member o with
  | Some v => is_str FOGO_GENESIS_HASH v
  | None => false
  end.

(** The reference id of a paymaster reply that counts as a success. *)
Definition paymaster_reference (o : HttpOutcome) : option unicode :=
  match o with
  | Reply r =>
      if status r =? 200 then
        match text r with
        | Ok body =>
            if negb (unicode_eqb (strip dquote body) (u ""))
               && negb (unicode_eqb (strip dquote body) (u "null"))
               && (10 <? len (strip dquote body))
            then Some (strip dquote body)
            else None
        | Raise _ => None
        end
      else None
  | Fails _ => None
  end.

Definition requests_in (evs : list Event) : nat :=
  List.length (filter is_request evs).

Definition sends_at_most {A : Type} (k : nat) (m : M A) : Prop :=
  forall s, (requests_in (events (m s)) <= k)%nat.

(** [keeps_rng m]: [m] draws no random number. *)
Definition keeps_rng {A : Type} (m : M A) : Prop :=
  forall s, picks (rest (m s)) = picks s /\ draws (rest (m s)) = draws s.

(** The balance that a reply to getBalance reports: the [value] member of
    its [result] object, whatever it is. *)
Definition reported_balance (o : HttpOutcome) : json :=
  match result_member o with
  | Some (JObj res) =>
      match assoc "value" res with
      | Some v => v
      | None => JNum 0
      end
  | _ => JNum 0
  end.

(** The decoded body of a 200 reply. *)
Definition decoded_reply (o : HttpOutcome) : json :=
  match o with
  | Reply r => if status r =? 200 then
                 match body_json r with Some j => j | None => JNull end
               else JNull
  | Fails _ => JNull
  end.

(** The second of two slot readings compares greater than the first. *)
Definition slot_progressed {PO : PyOrder} (s : Env) (current_slot : json) : bool :=
  match result_member (next_outcome (advance s)) with
  | Some new_slot =>
      match py_gt new_slot current_slot with
      | Ok b => b
      | Raise _ => false
      end
  | None => false
  end.

(** The world after [n] requests. *)
Definition after_requests (n : nat) (s : Env) : Env := Nat.iter n advance s.

Definition balance_requests (keypairs : list Wallet) : list Event :=
  map (fun keypair => EvRequest (balance_request (pubkey keypair))) keypairs.

(** Every wallet of [keypairs], queried in turn from world [s], has a
    balance that the status line can print (a number a float can hold). *)
Fixpoint balances_printable (keypairs : list Wallet) (s : Env) : Prop :=
  match keypairs with
  | [] => True
  | keypair :: others =>
      (exists balance,
          result (get_balance_rpc (pubkey keypair) s) = Ok balance /\
          format_token_amount balance = Ok tt) /\
      balances_printable others (advance s)
  end.

Section StageVocabulary.
Context {RT : Runtime}.

(** The quote that a reply of the quote endpoint carries. *)
Definition quote_of_reply (direction : string) (o : HttpOutcome) : option QuoteData :=
  match o with
  | Reply r =>
      if 400 <=? status r then None
      else
        match body_json r with
        | Some (JObj fields) =>
            match assoc "quote" fields with
            | Some (JObj quote) =>
                match assoc "tokenMinOut" quote, assoc "poolAddress" quote with
                | Some min_out, Some pool =>
                    match py_int min_out with
                    | Ok n => Some (mkQuote n pool (String.eqb direction "FOGO_TO_FUSD"))
                    | Raise _ => None
                    end
                | _, _ => None
                end
            | _ => None
            end
        | _ => None
        end
  | Fails _ => None
  end.

(** The transaction that a reply of the build endpoint carries. *)
Definition tx_of_reply (o : HttpOutcome) : option TxData :=
  match o with
  | Reply r =>
      if 400 <=? status r then None
      else
        match body_json r with
        | Some (JObj fields) =>
            match assoc "serializedTx" fields with
            | Some (JStr encoded) =>
                match b64decode encoded with
                | Ok decoded => Some (mkTxData (JStr encoded) decoded)
                | Raise _ => None
                end
            | _ => None
            end
        | _ => None
        end
  | Fails _ => None
  end.

End StageVocabulary.

(** The statistics [final] continue [stats] by [todo] recorded swaps:
    same worker, counters that only grow, and a volume that grows by one
    configured amount per successful swap. *)
Definition grows_from (stats final : Stats) (todo : Z) : Prop :=
  worker_name final = worker_name stats /\
  successful_swaps stats <= successful_swaps final /\
  failed_swaps stats <= failed_swaps final /\
  successful_swaps final + failed_swaps final
  = successful_swaps stats + failed_swaps stats + todo /\
  100000 * (successful_swaps final - successful_swaps stats)
  <= Worker.total_volume final - Worker.total_volume stats
  <= 1500000 * (successful_swaps final - successful_swaps stats).

(** The wallets, by position, whose funding request succeeds. *)
Definition funded_positions (count : nat) (worlds : nat -> Env) : list nat :=
  filter (fun k => some_channel_succeeds (worlds k)) (seq 0 count).

(** A stripped line that [load_proxies] takes as a proxy: not empty and
    not a comment. *)
Definition names_a_proxy (proxy : unicode) : bool :=
  negb (unicode_eqb proxy (u "")) && negb (startswith (u "#") proxy).

(** The proxy that a stripped line stands for. *)
Definition with_scheme (proxy : unicode) : unicode :=
  if unicode_in (u "://") proxy then proxy else u "http://" ++ proxy.

(** An order for the scenarios: numbers by value, strings by their
    characters; the scenarios compare slot numbers only. *)
#[export] Instance scenario_order : PyOrder := {|
  py_gt := fun a b =>
    match a, b with
    | JStr x, JStr y => Ok (match String.compare x y with Gt => true | _ => false end)
    | _, _ =>
        bindE (py_number a) (fun x => bindE (py_number b) (fun y => Ok (x >? y)))
    end;
  py_gt_int := fun _ _ => eq_refl
|}.

(* ================================================================== *)
(** * Reasoning about runs *)

Section RunLemmas.
Context {A B : Type}.

Lemma run_bind_known (m : M A) (f : A -> M B) (s s' : Env) (a : A) (evs : list Event) :
  m s = mkRun (Ok a) s' evs -> bind m f s = prefix_events evs (f a s').
Proof. intros H. unfold bind, prefix_events. rewrite H. reflexivity. Qed.

Lemma run_bind_raised (m : M A) (f : A -> M B) (s s' : Env) (e : PyExn)
    (evs : list Event) :
  m s = mkRun (Raise e) s' evs -> bind m f s = mkRun (Raise e) s' evs.
Proof. intros H. unfold bind. rewrite H. reflexivity. Qed.

Lemma run_bind_lift_ok (x : Exc A) (f : A -> M B) (s : Env) (a : A) :
  x = Ok a -> bind (lift x) f s = f a s.
Proof. intros ->. unfold bind, lift. simpl. destruct (f a s); reflexivity. Qed.

Lemma run_bind_lift_raise (x : Exc A) (f : A -> M B) (s : Env) (e : PyExn) :
  x = Raise e -> bind (lift x) f s = mkRun (Raise e) s [].
Proof. intros ->. reflexivity. Qed.

Lemma run_try_ok (m : M A) (h : PyExn -> M A) (s : Env) (a : A) :
  result (m s) = Ok a -> try_except m h s = m s.
Proof. intros H. unfold try_except. rewrite H. reflexivity. Qed.

Lemma run_try_known (m : M A) (h : PyExn -> M A) (s s' : Env) (a : A)
    (evs : list Event) :
  m s = mkRun (Ok a) s' evs -> try_except m h s = mkRun (Ok a) s' evs.
Proof. intros H. unfold try_except. rewrite H. reflexivity. Qed.

Lemma result_bind (m : M A) (f : A -> M B) (s : Env) :
  result (bind m f s)
  = match result (m s) with
    | Ok a => result (f a (rest (m s)))
    | Raise e => Raise e
    end.
Proof. unfold bind. destruct (result (m s)); reflexivity. Qed.

Lemma result_bind_lift (x : Exc A) (f : A -> M B) (s : Env) :
  result (bind (lift x) f s)
  = match x with
    | Ok a => result (f a s)
    | Raise e => Raise e
    end.
Proof. destruct x; reflexivity. Qed.

Lemma events_bind (m : M A) (f : A -> M B) (s : Env) :
  exists more, events (bind m f s) = events (m s) ++ more.
Proof.
  unfold bind. destruct (result (m s)); simpl.
  - eexists. reflexivity.
  - exists []. symmetry. apply app_nil_r.
Qed.

End RunLemmas.

Lemma prefix_events_nil {A : Type} (r : Run A) : prefix_events [] r = r.
Proof. destruct r. reflexivity. Qed.

Lemma result_prefix_events {A : Type} (evs : list Event) (r : Run A) :
  result (prefix_events evs r) = result r.
Proof. reflexivity. Qed.

Lemma result_try_ret {A : Type} (m : M A) (c : A) (s : Env) :
  result (try_except m (fun _ => ret c) s)
  = match result (m s) with
    | Ok a => Ok a
    | Raise _ => Ok c
    end.
Proof.
  unfold try_except. destruct (result (m s)) eqn:E; simpl; rewrite ?E; reflexivity.
Qed.

Lemma result_bind_json {B : Type} (r : Response) (f : json -> M B) (s : Env) :
  result (bind (resp_json r) f s)
  = match body_json r with
    | Some j => result (f j s)
    | None => Raise ContentTypeError
    end.
Proof. unfold resp_json. destruct (body_json r); reflexivity. Qed.

Lemma result_bind_status {B : Type} (r : Response) (f : unit -> M B) (s : Env) :
  result (bind (raise_for_status r) f s)
  = if 400 <=? status r then Raise ClientResponseError else result (f tt s).
Proof. unfold raise_for_status. destruct (400 <=? status r); reflexivity. Qed.

(** A [try] whose handler returns a value never raises. *)
Lemma try_except_returns {A : Type} (m : M A) (h : PyExn -> A) (s : Env) :
  exists a, result (try_except m (fun e => ret (h e)) s) = Ok a.
Proof.
  unfold try_except. destruct (result (m s)) as [a | e] eqn:E.
  - exists a. exact E.
  - exists (h e). reflexivity.
Qed.

(** A guarded request: [try: resp = send(req); k(resp) except: h]. *)
Lemma guarded_send_reply {A : Type} (req : Request) (k : Response -> M A)
    (h : PyExn -> M A) (s : Env) (r : Response) :
  next_outcome s = Reply r ->
  try_except (bind (send req) k) h s
  = prefix_events [EvRequest req] (try_except (k r) h (advance s)).
Proof.
  intros H. unfold try_except, bind, send, prefix_events. rewrite H. simpl.
  destruct (result (k r (advance s))) eqn:E; simpl; rewrite ?E; reflexivity.
Qed.

Lemma guarded_send_fails {A : Type} (req : Request) (k : Response -> M A)
    (h : PyExn -> M A) (s : Env) (e : PyExn) :
  next_outcome s = Fails e ->
  try_except (bind (send req) k) h s
  = prefix_events [EvRequest req] (h e (advance s)).
Proof.
  intros H. unfold try_except, bind, send, prefix_events. rewrite H. reflexivity.
Qed.

Ltac eval_step :=
  first [ rewrite result_prefix_events | rewrite result_try_ret
        | rewrite result_bind_lift | rewrite result_bind_json
        | rewrite result_bind_status ];
  cbn [status body_json text].

Ltac not_200 st Hst :=
  destruct st as [ | p | p]; try reflexivity;
  do 8 (destruct p as [p | p | ]; try reflexivity);
  exfalso; apply Hst; reflexivity.

Lemma is_str_true (k : string) (v : json) : is_str k v = true <-> v = JStr k.
Proof.
  destruct v; simpl; split; intros H; try discriminate.
  - apply String.eqb_eq in H. now subst.
  - injection H as ->. apply String.eqb_refl.
Qed.

Lemma is_str_false (k : string) (v : json) : is_str k v = false <-> v <> JStr k.
Proof.
  split.
  - intros H Heq. apply is_str_true in Heq. congruence.
  - intros H. destruct (is_str k v) eqn:E; [| reflexivity].
    apply is_str_true in E. contradiction.
Qed.

Lemma Ok_true_iff (b : bool) : @Ok bool b = Ok true <-> b = true.
Proof. split; [intros [= ->] | intros ->]; reflexivity. Qed.

Lemma EvRequest_url (r1 r2 : Request) : EvRequest r1 = EvRequest r2 -> url r1 = url r2.
Proof. intros [= ->]. reflexivity. Qed.

Lemma has_truthy_result_obj (fields : list (string * json)) :
  has_truthy_result (JObj fields) = Ok (has_reference fields).
Proof.
  unfold has_truthy_result, has_reference. simpl.
  destruct (assoc "result" fields); reflexivity.
Qed.

(* ================================================================== *)
(** * What a run emits *)

Section EmitRules.
Context {A B : Type}.

Lemma quiet_ret (a : A) : quiet (ret a).
Proof. intros s. split; reflexivity. Qed.

Lemma quiet_raise (e : PyExn) : quiet (@raise A e).
Proof. intros s. split; reflexivity. Qed.

Lemma quiet_lift (x : Exc A) : quiet (lift x).
Proof. intros s. split; reflexivity. Qed.

Lemma quiet_bind (m : M A) (f : A -> M B) :
  quiet m -> (forall a, quiet (f a)) -> quiet (bind m f).
Proof.
  intros Hm Hf s. destruct (Hm s) as [Hr He]. unfold bind.
  destruct (result (m s)) as [a | e]; simpl.
  - destruct (Hf a (rest (m s))) as [Hr' He']. rewrite Hr', He', He, Hr. auto.
  - auto.
Qed.

Lemma quiet_try (m : M A) (h : PyExn -> M A) :
  quiet m -> (forall e, quiet (h e)) -> quiet (try_except m h).
Proof.
  intros Hm Hh s. destruct (Hm s) as [Hr He]. unfold try_except.
  destruct (result (m s)) as [a | e]; simpl.
  - auto.
  - destruct (Hh e (rest (m s))) as [Hr' He']. rewrite Hr', He', He, Hr. auto.
Qed.

Lemma quiet_run (m : M A) (s : Env) : quiet m -> m s = mkRun (result (m s)) s [].
Proof. intros H. destruct (H s) as [Hr He]. destruct (m s); simpl in *. now subst. Qed.

Lemma quiet_emits (P : Event -> Prop) (m : M A) : quiet m -> emits P m.
Proof. intros H s. destruct (H s) as [_ ->]. constructor. Qed.

Lemma emits_bind (P : Event -> Prop) (m : M A) (f : A -> M B) :
  emits P m -> (forall a, emits P (f a)) -> emits P (bind m f).
Proof.
  intros Hm Hf s. unfold bind. specialize (Hm s).
  destruct (result (m s)) as [a | e]; simpl.
  - apply Forall_app. split; [exact Hm | apply Hf].
  - exact Hm.
Qed.

Lemma emits_try (P : Event -> Prop) (m : M A) (h : PyExn -> M A) :
  emits P m -> (forall e, emits P (h e)) -> emits P (try_except m h).
Proof.
  intros Hm Hh s. unfold try_except. specialize (Hm s).
  destruct (result (m s)) as [a | e]; simpl.
  - exact Hm.
  - apply Forall_app. split; [exact Hm | apply Hh].
Qed.

(** A quiet handler adds nothing to what the body did. *)
Lemma try_quiet_handler (m : M A) (h : PyExn -> M A) (s : Env) :
  (forall e, quiet (h e)) ->
  rest (try_except m h s) = rest (m s) /\ events (try_except m h s) = events (m s).
Proof.
  intros Hh. unfold try_except. destruct (result (m s)) as [a | e]; simpl.
  - auto.
  - destruct (Hh e (rest (m s))) as [-> ->]. rewrite app_nil_r. auto.
Qed.

End EmitRules.

Lemma quiet_resp_json (r : Response) : quiet (resp_json r).
Proof. unfold resp_json. destruct (body_json r); [apply quiet_ret | apply quiet_raise]. Qed.

Lemma quiet_raise_for_status (r : Response) : quiet (raise_for_status r).
Proof.
  unfold raise_for_status. destruct (400 <=? status r); [apply quiet_raise | apply quiet_ret].
Qed.

Lemma emits_send (P : Event -> Prop) (req : Request) :
  P (EvRequest req) -> emits P (send req).
Proof.
  intros H s. unfold send. destruct (next_outcome s); simpl; repeat constructor; exact H.
Qed.

Lemma emits_get {RT : Runtime} (P : Event -> Prop) (u : string)
    (params : list (string * json)) :
  P (EvRequest (mkRequest GET u (JObj params))) -> emits P (get u params).
Proof.
  intros H. unfold get. destruct (forallb _ params).
  - apply emits_send. exact H.
  - apply quiet_emits, quiet_raise.
Qed.

Lemma emits_sleep (P : Event -> Prop) (t : float) : P (EvSleep t) -> emits P (sleep t).
Proof. intros H s. simpl. repeat constructor. exact H. Qed.

(** Walks through the structure of a coroutine. *)
Ltac walk :=
  repeat first
    [ apply quiet_ret | apply quiet_raise | apply quiet_lift
    | apply quiet_resp_json | apply quiet_raise_for_status
    | apply quiet_bind; [| intro] | apply quiet_try; [| intro]
    | apply emits_bind; [| intro] | apply emits_try; [| intro]
    | match goal with
      | |- emits _ (ret _) => apply quiet_emits
      | |- emits _ (raise _) => apply quiet_emits
      | |- emits _ (lift _) => apply quiet_emits
      | |- emits _ (resp_json _) => apply quiet_emits
      | |- emits _ (raise_for_status _) => apply quiet_emits
      | |- quiet (if ?c then _ else _) => destruct c
      | |- emits _ (if ?c then _ else _) => destruct c
      | |- quiet (match ?x with _ => _ end) => destruct x
      | |- emits _ (match ?x with _ => _ end) => destruct x
      end ].

(** A guarded request whose continuation and handler are quiet makes
    exactly that request. *)
Lemma guarded_send_shape {A : Type} (req : Request) (k : Response -> M A)
    (h : PyExn -> M A) (s : Env) :
  (forall r, quiet (k r)) -> (forall e, quiet (h e)) ->
  try_except (bind (send req) k) h s
  = mkRun (result (try_except (bind (send req) k) h s)) (advance s) [EvRequest req].
Proof.
  intros Hk Hh. destruct (next_outcome s) as [r | e] eqn:E.
  - rewrite (guarded_send_reply _ _ _ _ _ E). unfold prefix_events.
    destruct (quiet_try _ _ (Hk r) Hh (advance s)) as [-> ->]. reflexivity.
  - rewrite (guarded_send_fails _ _ _ _ _ E). unfold prefix_events.
    destruct (Hh e (advance s)) as [-> ->]. reflexivity.
Qed.

(* ================================================================== *)
(** * Adaptive delay (utils.calculate_adaptive_delay, worker._adaptive_sleep) *)


Lemma adaptive_sleep_run {RT : Runtime} (cycle : Z) (stats : Stats)
    (min_delay max_delay : float) (s : Env) :
  let u := hd 0%float (draws s) in
  let base_delay :=
    PrimFloat.add min_delay (PrimFloat.mul (PrimFloat.sub max_delay min_delay) u) in
  let t := py_max (PrimFloat.mul base_delay
                     (delay_multiplier (failure_rate_of cycle stats)))
                  MIN_TRANSACTION_DELAY in
  _adaptive_sleep cycle stats min_delay max_delay s
  = mkRun (Ok tt) (mkEnv (script s) (picks s) (tl (draws s))) [EvSleep t].
Proof. reflexivity. Qed.



(* ================================================================== *)
(** * Signing (transaction.deserialize_and_sign_transaction) *)

Section Signing.
Context {RT : Runtime}.

Lemma catch_to_none_ok (x : Exc (option bytes)) :
  exists r, catchE x (fun _ => Ok None) = Ok r.
Proof. destruct x as [r | e]; simpl; eauto. Qed.

Lemma catch_to_none_failed (x : Exc (option bytes)) :
  (forall b, x <> Ok (Some b)) -> catchE x (fun _ => Ok None) = Ok None.
Proof.
  intros H. destruct x as [[b | ] | e]; simpl; try reflexivity.
  exfalso. apply (H b). reflexivity.
Qed.

Lemma sign_returns (raw_tx_bytes : bytes) (wallet : Wallet) :
  exists signed, deserialize_and_sign_transaction raw_tx_bytes wallet = Ok signed.
Proof.
  unfold deserialize_and_sign_transaction.
  destruct (catch_to_none_ok (solders_method raw_tx_bytes wallet)) as [[b1 | ] ->]; simpl.
  - eauto.
  - destruct (catch_to_none_ok (legacy_method raw_tx_bytes wallet)) as [[b2 | ] ->];
      simpl; eauto.
Qed.

End Signing.

(** C10. [deserialize_and_sign_transaction] returns bytes for every input
    and every behaviour of the signing libraries, and never raises; when
    neither the solders method nor the legacy method produces a signed
    transaction it returns the input bytes unchanged; hence the [try] that
    [_execute_transaction] wraps around it never reaches its handler,
    whatever that handler is. *)
Theorem deserialize_and_sign_total :
  forall (RT : Runtime) (raw_tx_bytes : bytes) (wallet : Wallet),
    (exists signed,
        deserialize_and_sign_transaction raw_tx_bytes wallet = Ok signed /\
        forall (h : PyExn -> M bytes) (s : Env),
          try_except (lift (deserialize_and_sign_transaction raw_tx_bytes wallet)) h s
          = mkRun (Ok signed) s []) /\
    (forall e, deserialize_and_sign_transaction raw_tx_bytes wallet <> Raise e) /\
    ((forall b, solders_method raw_tx_bytes wallet <> Ok (Some b)) ->
     (forall b, legacy_method raw_tx_bytes wallet <> Ok (Some b)) ->
     deserialize_and_sign_transaction raw_tx_bytes wallet = Ok raw_tx_bytes).
Proof.
  intros RT raw_tx_bytes wallet.
  destruct (sign_returns raw_tx_bytes wallet) as [signed Hs].
  split; [| split].
  - exists signed. split; [exact Hs |].
    intros h s. unfold try_except, lift. simpl. rewrite Hs. reflexivity.
  - intros e He. rewrite Hs in He. discriminate.
  - intros H1 H2. unfold deserialize_and_sign_transaction.
    rewrite (catch_to_none_failed _ H1). simpl.
    rewrite (catch_to_none_failed _ H2). reflexivity.
Qed.

Lemma deserialize_and_sign_total_witness :
  deserialize_and_sign_transaction [Byte.x01; Byte.x02; Byte.x03] alice
  = Ok [Byte.x01; Byte.x02; Byte.x03].
Proof.
  apply (proj2 (proj2 (deserialize_and_sign_total rejecting_runtime
                         [Byte.x01; Byte.x02; Byte.x03] alice))).
  - intros b H. vm_compute in H. discriminate.
  - intros b H. vm_compute in H. discriminate.
Defined.

(* ================================================================== *)
(** * Submission channels of transaction.py *)

Lemma unicode_eqb_spec (a b : unicode) : unicode_eqb a b = true <-> a = b.
Proof.
  revert b. induction a as [| x a IH]; intros [| y b]; cbn [unicode_eqb];
    try (split; [discriminate | discriminate]); [tauto |].
  rewrite andb_true_iff, N.eqb_eq, IH. split.
  - intros [-> ->]. reflexivity.
  - intros [= -> ->]. auto.
Qed.

Lemma unicode_eqb_neq (a b : unicode) : unicode_eqb a b = false <-> a <> b.
Proof.
  rewrite <- unicode_eqb_spec. destruct (unicode_eqb a b); split; congruence.
Qed.

(** Whether the stripped body of a 200 reply is taken as a reference id. *)
Lemma paymaster_quiet_after (resp : Response) :
  quiet (if status resp =? 200
         then
           result <~ text resp ;;
           let result := strip dquote result in
           if negb (unicode_eqb result (u "")) && negb (unicode_eqb result (u "null"))
              && (10 <? len result)
           then ret (true, result)
           else ret (false, u "")
         else
           response_text <~ text resp ;;
           ret (false, u "")).
Proof. cbv zeta. walk. Qed.

Lemma paymaster_run (raw_tx : json) (s : Env) :
  send_transaction_paymaster raw_tx s
  = mkRun (result (send_transaction_paymaster raw_tx s)) (advance s)
          [EvRequest (paymaster_request raw_tx)].
Proof.
  unfold send_transaction_paymaster. apply guarded_send_shape.
  - intros r. apply paymaster_quiet_after.
  - intros e. walk.
Qed.

Lemma paymaster_result_200 (raw_tx : json) (s : Env) (body : unicode) (bj : option json) :
  next_outcome s = Reply (mkResponse 200 (Ok body) bj) ->
  result (send_transaction_paymaster raw_tx s)
  = Ok (if negb (unicode_eqb (strip dquote body) (u ""))
           && negb (unicode_eqb (strip dquote body) (u "null"))
           && (10 <? len (strip dquote body))
        then (true, strip dquote body) else (false, u "")).
Proof.
  intros H. unfold send_transaction_paymaster.
  rewrite (guarded_send_reply _ _ _ _ _ H). do 2 eval_step.
  change (200 =? 200) with true. cbv iota.
  eval_step. cbv zeta.
  destruct (negb (unicode_eqb (strip dquote body) (u ""))
            && negb (unicode_eqb (strip dquote body) (u "null"))
            && (10 <? len (strip dquote body))); reflexivity.
Qed.

Lemma paymaster_result_unreadable (raw_tx : json) (s : Env) (st : Z) (e : PyExn)
    (bj : option json) :
  next_outcome s = Reply (mkResponse st (Raise e) bj) ->
  result (send_transaction_paymaster raw_tx s) = Ok (false, u "").
Proof.
  intros H. unfold send_transaction_paymaster.
  rewrite (guarded_send_reply _ _ _ _ _ H). do 2 eval_step.
  destruct (st =? 200); eval_step; reflexivity.
Qed.

Lemma paymaster_result_other_status (raw_tx : json) (s : Env) (r : Response) :
  next_outcome s = Reply r -> status r <> 200 ->
  result (send_transaction_paymaster raw_tx s) = Ok (false, u "").
Proof.
  intros H Hst. unfold send_transaction_paymaster.
  rewrite (guarded_send_reply _ _ _ _ _ H). do 2 eval_step.
  destruct (Z.eqb_spec (status r) 200) as [Heq | _]; [contradiction |].
  eval_step. destruct (text r); reflexivity.
Qed.

Lemma paymaster_result_raised (raw_tx : json) (s : Env) (e : PyExn) :
  next_outcome s = Fails e ->
  result (send_transaction_paymaster raw_tx s) = Ok (false, u "").
Proof.
  intros H. unfold send_transaction_paymaster.
  rewrite (guarded_send_fails _ _ _ _ _ H). reflexivity.
Qed.

(** C2, counterexample. The body ["abc1234567"] of the specification's
    example is ten characters long once its quotes are stripped, which is
    not longer than the minimum length 10: the paymaster channel answers
    (False, ""), not (True, "abc1234567"). *)
Lemma paymaster_ten_char_reference_rejected :
  result (send_transaction_paymaster (JStr "AQID")
            (world [text_reply 200 (quoted "abc1234567")]))
  = Ok (false, u "")
  /\ ~ paymaster_example_as_specified.
Proof.
  split; [reflexivity |].
  intros H.
  specialize (H (JStr "AQID") (world [text_reply 200 (quoted "abc1234567")]) None eq_refl).
  vm_compute in H. discriminate.
Qed.

(** C2, amended. For the paymaster channel an HTTP 200 response whose
    body, after stripping double quotes, is non-empty, is not "null" and
    is longer than 10 characters is a success, with the stripped body as
    the reference id; a 200 response whose stripped body is 10 characters
    or shorter, or whose body cannot be read, is a failure.  Characters
    are counted as [len] counts them: by code point. *)
Theorem paymaster_success_classification :
  forall (raw_tx : json) (s : Env) (bj : option json),
    (forall body : unicode,
       next_outcome s = Reply (mkResponse 200 (Ok body) bj) ->
       (strip dquote body <> u "" ->
        strip dquote body <> u "null" ->
        10 < len (strip dquote body) ->
        result (send_transaction_paymaster raw_tx s) = Ok (true, strip dquote body)) /\
       (len (strip dquote body) <= 10 ->
        result (send_transaction_paymaster raw_tx s) = Ok (false, u ""))) /\
    (forall e : PyExn,
       next_outcome s = Reply (mkResponse 200 (Raise e) bj) ->
       result (send_transaction_paymaster raw_tx s) = Ok (false, u "")).
Proof.
  intros raw_tx s bj. split.
  - intros body H. rewrite (paymaster_result_200 raw_tx s body bj H). split.
    + intros H1 H2 H3.
      apply unicode_eqb_neq in H1. apply unicode_eqb_neq in H2. apply Z.ltb_lt in H3.
      rewrite H1, H2, H3. reflexivity.
    + intros H3. apply Z.ltb_ge in H3. rewrite H3.
      rewrite !andb_false_r. reflexivity.
  - intros e H. apply (paymaster_result_unreadable raw_tx s 200 e bj H).
Qed.

Lemma paymaster_success_classification_witness :
  result (send_transaction_paymaster (JStr "AQID")
            (world [text_reply 200 (quoted "abc12345678")]))
  = Ok (true, u "abc12345678").
Proof.
  refine (proj1 (proj1 (paymaster_success_classification (JStr "AQID")
                          (world [text_reply 200 (quoted "abc12345678")]) None)
                   (u (quoted "abc12345678")) eq_refl) _ _ _).
  - vm_compute. discriminate.
  - vm_compute. discriminate.
  - vm_compute. reflexivity.
Defined.

Section FallbackChannel.
Context {RT : Runtime}.

Lemma rpc_run (tx_bytes : bytes) (s : Env) :
  send_transaction_rpc tx_bytes s
  = mkRun (result (send_transaction_rpc tx_bytes s)) (advance s)
          [EvRequest (send_transaction_request tx_bytes)].
Proof. unfold send_transaction_rpc. apply guarded_send_shape; intros; walk. Qed.

Lemma rpc_result (tx_bytes : bytes) (s : Env) :
  result (send_transaction_rpc tx_bytes s)
  = Ok (match rpc_reference (next_outcome s) with
        | Some v => if is_str PLACEHOLDER_SIGNATURE v
                    then (true, JStr "placeholder") else (true, v)
        | None => (false, JStr "")
        end).
Proof.
  unfold send_transaction_rpc, rpc_reference.
  destruct (next_outcome s) as [[st tx bj] | e] eqn:E.
  2: { rewrite (guarded_send_fails _ _ _ _ _ E). reflexivity. }
  rewrite (guarded_send_reply _ _ _ _ _ E). do 2 eval_step.
  destruct (st =? 200); [| reflexivity].
  eval_step. destruct bj as [j | ]; [| reflexivity].
  eval_step.
  destruct j as [ | b | n | str | items | fields]; try reflexivity.
  - unfold has_truthy_result. cbn [py_in bindE].
    destruct (contains "result" str); reflexivity.
  - unfold has_truthy_result. cbn [py_in bindE].
    destruct (existsb (is_str "result") items); reflexivity.
  - rewrite has_truthy_result_obj. unfold has_reference.
    destruct (assoc "result" fields) as [v | ] eqn:Ev; [| reflexivity].
    destruct (truthy v); [| reflexivity].
    eval_step. cbn [py_getitem]. rewrite Ev.
    destruct (is_str PLACEHOLDER_SIGNATURE v); reflexivity.
Qed.

End FallbackChannel.

(** C5. The fallback channel [send_transaction_rpc] succeeds exactly on an
    HTTP 200 response whose JSON object has a non-empty [result]: when
    that result is the 64-character all-ones signature it returns
    (True, "placeholder"), for any other non-empty result it returns
    (True, result), and for every other outcome -- another status, another
    shape, an empty result, an exception -- it returns (False, ""). *)
Theorem send_transaction_rpc_classification :
  forall (RT : Runtime) (tx_bytes : bytes) (s : Env),
    String.length PLACEHOLDER_SIGNATURE = 64%nat /\
    (rpc_reference (next_outcome s) = Some (JStr PLACEHOLDER_SIGNATURE) ->
     result (send_transaction_rpc tx_bytes s) = Ok (true, JStr "placeholder")) /\
    (forall v, rpc_reference (next_outcome s) = Some v ->
               v <> JStr PLACEHOLDER_SIGNATURE ->
               result (send_transaction_rpc tx_bytes s) = Ok (true, v)) /\
    (rpc_reference (next_outcome s) = None ->
     result (send_transaction_rpc tx_bytes s) = Ok (false, JStr "")) /\
    events (send_transaction_rpc tx_bytes s)
    = [EvRequest (send_transaction_request tx_bytes)].
Proof.
  intros RT tx_bytes s. rewrite rpc_result.
  split; [reflexivity |]. repeat split.
  - intros ->. reflexivity.
  - intros v -> Hv. apply is_str_false in Hv. rewrite Hv. reflexivity.
  - intros ->. reflexivity.
  - rewrite rpc_run. reflexivity.
Qed.

Lemma send_transaction_rpc_classification_witness :
  result (send_transaction_rpc [Byte.x01]
            (world [json_reply 200 (JObj [("result", JStr PLACEHOLDER_SIGNATURE)])]))
  = Ok (true, JStr "placeholder")
  /\ result (send_transaction_rpc [Byte.x01]
               (world [json_reply 200 (JObj [("result", JStr "5VERv8NMvzbJMEkV8xnrLkEaWRtSz9CosKDYjCJjBRnbJLgp8uirBgmQpjKhoR4tjF3ZpRzrFmBV6UjKdiSZkQUW")])]))
     = Ok (true, JStr "5VERv8NMvzbJMEkV8xnrLkEaWRtSz9CosKDYjCJjBRnbJLgp8uirBgmQpjKhoR4tjF3ZpRzrFmBV6UjKdiSZkQUW")
  /\ result (send_transaction_rpc [Byte.x01]
               (world [json_reply 200 (JObj [("error", JObj [("code", JNum (-32002))])])]))
     = Ok (false, JStr "").
Proof.
  split; [| split].
  - apply (proj1 (proj2 (send_transaction_rpc_classification rejecting_runtime [Byte.x01]
                           (world [json_reply 200
                                     (JObj [("result", JStr PLACEHOLDER_SIGNATURE)])])))).
    reflexivity.
  - apply (proj1 (proj2 (proj2 (send_transaction_rpc_classification rejecting_runtime
                                  [Byte.x01] (world [json_reply 200 (JObj [("result", JStr "5VERv8NMvzbJMEkV8xnrLkEaWRtSz9CosKDYjCJjBRnbJLgp8uirBgmQpjKhoR4tjF3ZpRzrFmBV6UjKdiSZkQUW")])]))))).
    + reflexivity.
    + discriminate.
  - apply (proj1 (proj2 (proj2 (proj2 (send_transaction_rpc_classification
                                         rejecting_runtime [Byte.x01]
                                         (world [json_reply 200 (JObj [("error", JObj [("code", JNum (-32002))])])])))))).
    reflexivity.
Defined.

(* ================================================================== *)
(** * Funding (airdrop.request_airdrop) *)

Lemma official_shape (pubkey : string) (s : Env) :
  _try_official_fogo_airdrop pubkey s
  = mkRun (result (_try_official_fogo_airdrop pubkey s)) (advance s)
          [EvRequest (official_airdrop_request pubkey)].
Proof. unfold _try_official_fogo_airdrop. apply guarded_send_shape; intros; walk. Qed.

Lemma official_result (pubkey : string) (s : Env) :
  result (_try_official_fogo_airdrop pubkey s)
  = Ok (primary_reports_success (next_outcome s)).
Proof.
  unfold _try_official_fogo_airdrop, primary_reports_success.
  destruct (next_outcome s) as [[st tx bj] | e] eqn:E.
  2: { rewrite (guarded_send_fails _ _ _ _ _ E). reflexivity. }
  rewrite (guarded_send_reply _ _ _ _ _ E). do 2 eval_step.
  destruct (Z.eqb_spec st 200) as [-> | Hst]; [| not_200 st Hst].
  eval_step. destruct bj as [j | ]; [| reflexivity].
  eval_step.
  destruct j as [ | b | n | str | items | fields]; try reflexivity.
  - unfold has_truthy_result. cbn [py_in bindE].
    destruct (contains "result" str); [reflexivity |].
    eval_step. cbn [py_in]. destruct (contains "error" str); reflexivity.
  - unfold has_truthy_result. cbn [py_in bindE].
    destruct (existsb (is_str "result") items); [reflexivity |].
    eval_step. cbn [py_in]. destruct (existsb (is_str "error") items); reflexivity.
  - rewrite has_truthy_result_obj.
    destruct (has_reference fields); [reflexivity |].
    eval_step. unfold error_matches_limit. cbn [py_in py_getitem orb].
    destruct (assoc "error" fields) as [err | ]; [| reflexivity].
    do 2 eval_step.
    destruct err as [ | b | n | str | items | error]; try reflexivity.
    cbn [py_get].
    destruct (assoc "message" error) as [msg | ].
    + eval_step.
      destruct msg as [ | b | n | str | items | obj]; try reflexivity.
      cbn [py_lower].
      destruct (existsb (fun keyword => contains keyword (lower str)) LIMIT_KEYWORDS);
        reflexivity.
    + reflexivity.
Qed.

Lemma official_run (pubkey : string) (s : Env) :
  _try_official_fogo_airdrop pubkey s
  = mkRun (Ok (primary_reports_success (next_outcome s))) (advance s)
          [EvRequest (official_airdrop_request pubkey)].
Proof. rewrite official_shape, official_result. reflexivity. Qed.

Lemma faucet_run (endpoint : string * json) (s : Env) :
  try_faucet endpoint s
  = mkRun (Ok (faucet_reports_success (next_outcome s))) (advance s)
          [EvRequest (faucet_request endpoint)].
Proof.
  unfold try_faucet, post, faucet_reports_success, faucet_request.
  destruct (next_outcome s) as [r | e] eqn:E.
  2: { rewrite (guarded_send_fails _ _ _ _ _ E). reflexivity. }
  rewrite (guarded_send_reply _ _ _ _ _ E).
  destruct (text r) as [response_text | e]; [| reflexivity].
  destruct ((status r =? 200) || (status r =? 201)); reflexivity.
Qed.

Lemma devnet_shape (pubkey : string) (s : Env) :
  _try_devnet_fallback pubkey s
  = mkRun (result (_try_devnet_fallback pubkey s)) (advance s)
          [EvRequest (devnet_airdrop_request pubkey)].
Proof. unfold _try_devnet_fallback. apply guarded_send_shape; intros; walk. Qed.

Lemma devnet_result (pubkey : string) (s : Env) :
  result (_try_devnet_fallback pubkey s)
  = Ok (devnet_reports_success (next_outcome s)).
Proof.
  unfold _try_devnet_fallback, devnet_reports_success.
  destruct (next_outcome s) as [[st tx bj] | e] eqn:E.
  2: { rewrite (guarded_send_fails _ _ _ _ _ E). reflexivity. }
  rewrite (guarded_send_reply _ _ _ _ _ E). do 2 eval_step.
  destruct (Z.eqb_spec st 200) as [-> | Hst]; [| not_200 st Hst].
  eval_step. destruct bj as [j | ]; [| reflexivity].
  eval_step.
  destruct j as [ | b | n | str | items | fields]; try reflexivity.
  - unfold has_truthy_result. cbn [py_in bindE].
    destruct (contains "result" str); reflexivity.
  - unfold has_truthy_result. cbn [py_in bindE].
    destruct (existsb (is_str "result") items); reflexivity.
  - rewrite has_truthy_result_obj. destruct (has_reference fields); reflexivity.
Qed.

Lemma devnet_run (pubkey : string) (s : Env) :
  _try_devnet_fallback pubkey s
  = mkRun (Ok (devnet_reports_success (next_outcome s))) (advance s)
          [EvRequest (devnet_airdrop_request pubkey)].
Proof. rewrite devnet_shape, devnet_result. reflexivity. Qed.

Lemma alternative_run (pubkey : string) (s : Env) :
  let first := faucet_reports_success (next_outcome s) in
  let second := faucet_reports_success (next_outcome (advance s)) in
  _try_alternative_faucets pubkey s
  = mkRun (Ok (first || second))
          (if first then advance s else advance (advance s))
          (map EvRequest
             (firstn (if first then 1 else 2)
                     (map faucet_request (faucet_endpoints pubkey)))).
Proof.
  intros first second. subst first second.
  unfold _try_alternative_faucets, faucet_endpoints, try_faucets.
  rewrite (run_bind_known _ _ _ _ _ _ (faucet_run _ s)).
  destruct (faucet_reports_success (next_outcome s)); [reflexivity |].
  rewrite (run_bind_known _ _ _ _ _ _ (faucet_run _ (advance s))).
  destruct (faucet_reports_success (next_outcome (advance s))); reflexivity.
Qed.

Lemma request_airdrop_run (pubkey : string) (s : Env) :
  request_airdrop pubkey s
  = mkRun (Ok (some_channel_succeeds s))
          (Nat.iter (requests_made s) advance s)
          (map EvRequest (firstn (requests_made s) (airdrop_requests pubkey))).
Proof.
  unfold request_airdrop. apply run_try_known.
  rewrite (run_bind_known _ _ _ _ _ _ (official_run pubkey s)).
  unfold some_channel_succeeds, requests_made, outcome_at. simpl.
  destruct (primary_reports_success (next_outcome s)); [reflexivity |].
  rewrite (run_bind_known _ _ _ _ _ _ (alternative_run pubkey (advance s))).
  destruct (faucet_reports_success (next_outcome (advance s))); [reflexivity |].
  destruct (faucet_reports_success (next_outcome (advance (advance s))));
    [reflexivity |].
  simpl.
  rewrite (run_bind_known _ _ _ _ _ _
             (devnet_run pubkey (advance (advance (advance s))))).
  destruct (devnet_reports_success (next_outcome (advance (advance (advance s)))));
    reflexivity.
Qed.

(** C1. [request_airdrop] returns True if and only if one of its three
    channels -- official RPC airdrop, alternate faucet endpoints, devnet
    fallback, tried in that order -- reports success, where the primary
    channel also succeeds on an error message matching the
    "limit / already / funded / recent" pattern, and a faucet succeeds
    when the body of its reply could be read and the status is 200 or 201;
    it never raises; and it short-circuits: the requests it makes are
    exactly those up to the first attempt that reports success, so no
    later channel is invoked. *)
Theorem request_airdrop_first_success :
  forall (pubkey : string) (s : Env),
    let r := request_airdrop pubkey s in
    (result r = Ok true <->
       primary_reports_success (outcome_at 0 s) = true \/
       (faucet_reports_success (outcome_at 1 s) = true \/
        faucet_reports_success (outcome_at 2 s) = true) \/
       devnet_reports_success (outcome_at 3 s) = true) /\
    (result r = Ok true \/ result r = Ok false) /\
    events r = map EvRequest (firstn (requests_made s) (airdrop_requests pubkey)) /\
    (primary_reports_success (outcome_at 0 s) = true ->
       events r = [EvRequest (official_airdrop_request pubkey)]) /\
    (primary_reports_success (outcome_at 0 s) = false ->
       (faucet_reports_success (outcome_at 1 s) = true \/
        faucet_reports_success (outcome_at 2 s) = true) ->
       ~ In (EvRequest (devnet_airdrop_request pubkey)) (events r)).
Proof.
  intros pubkey s r. subst r. rewrite request_airdrop_run.
  cbn [result events]. unfold some_channel_succeeds, requests_made.
  split; [| split; [| split; [| split]]].
  - rewrite Ok_true_iff, !orb_true_iff. tauto.
  - destruct (_ || _ || _); auto.
  - reflexivity.
  - intros ->. reflexivity.
  - intros -> Hf Hin.
    assert (Hreq : In (EvRequest (devnet_airdrop_request pubkey))
                      (map EvRequest (firstn 3 (airdrop_requests pubkey)))).
    { destruct (faucet_reports_success (outcome_at 1 s)); [| destruct Hf as [Hf | Hf];
        [discriminate | rewrite Hf in Hin]].
      - simpl in Hin |- *. tauto.
      - exact Hin. }
    clear -Hreq. simpl in Hreq.
    destruct Hreq as [H | [H | [H | []]]]; apply EvRequest_url in H;
      vm_compute in H; discriminate.
Qed.

Lemma request_airdrop_first_success_witness :
  events (request_airdrop "pk"
            (world [json_reply 200
                      (JObj [("error",
                              JObj [("code", JNum 429);
                                    ("message", JStr "Airdrop LIMIT reached")])])]))
  = [EvRequest (official_airdrop_request "pk")]
  /\ ~ In (EvRequest (devnet_airdrop_request "pk"))
          (events (request_airdrop "pk"
                     (world [Fails TimeoutError; text_reply 201 "queued"]))).
Proof.
  split.
  - apply (proj1 (proj2 (proj2 (proj2 (request_airdrop_first_success "pk"
             (world [json_reply 200
                       (JObj [("error",
                               JObj [("code", JNum 429);
                                     ("message", JStr "Airdrop LIMIT reached")])])])))))).
    reflexivity.
  - apply (proj2 (proj2 (proj2 (proj2 (request_airdrop_first_success "pk"
             (world [Fails TimeoutError; text_reply 201 "queued"])))))).
    + reflexivity.
    + left. reflexivity.
Defined.

(* ================================================================== *)
(** * Amounts a float can hold *)

Lemma FLOAT_OVERFLOW_large : 1500000 < FLOAT_OVERFLOW.
Proof. vm_compute. reflexivity. Qed.

Lemma swap_amounts_within_float_range (n : Z) :
  In n SWAP_AMOUNTS -> within_float_range n.
Proof.
  unfold within_float_range. pose proof FLOAT_OVERFLOW_large as HF.
  revert HF. generalize FLOAT_OVERFLOW. intros F HF.
  intros [<- | [<- | [<- | [<- | [<- | []]]]]]; simpl; lia.
Qed.

Lemma display_amount_ok (n : Z) :
  Z.abs n < FLOAT_OVERFLOW * LAMPORTS_PER_FOGO -> display_amount n = Ok tt.
Proof.
  unfold display_amount. generalize (FLOAT_OVERFLOW * LAMPORTS_PER_FOGO). intros L H.
  destruct (Z.geb_spec (Z.abs n) L); [lia | reflexivity].
Qed.

Lemma display_amount_in_range (n : Z) : within_float_range n -> display_amount n = Ok tt.
Proof.
  unfold within_float_range. intros H. apply display_amount_ok.
  pose proof FLOAT_OVERFLOW_large as HF. unfold LAMPORTS_PER_FOGO.
  revert H HF. generalize FLOAT_OVERFLOW. intros F H HF. lia.
Qed.

Lemma adjusted_amount_in_range (b : Z) :
  0 < b -> within_float_range b ->
  exists a, adjusted_amount_of b = Ok a /\ within_float_range a.
Proof.
  unfold within_float_range, adjusted_amount_of.
  generalize FLOAT_OVERFLOW. intros F Hpos H.
  destruct (Z.geb_spec (Z.abs b) F); [lia |].
  exists (b * 8 / 10). split; [reflexivity |].
  assert (0 <= b * 8 / 10 <= b).
  { split; [apply Z.div_pos; lia | apply Z.div_le_upper_bound; lia]. }
  lia.
Qed.

(* ================================================================== *)
(** * Funding attempts and requested amounts in a run *)

Lemma funding_attempts_app (l1 l2 : list Event) :
  funding_attempts (l1 ++ l2) = (funding_attempts l1 + funding_attempts l2)%nat.
Proof. unfold funding_attempts. rewrite filter_app, length_app. reflexivity. Qed.

Lemma keeps_amount_no_funding (amount_in : Z) (evs : list Event) :
  Forall (keeps_amount amount_in) evs -> funding_attempts evs = 0%nat.
Proof.
  induction 1 as [ | e evs He _ IH]; [reflexivity |].
  unfold funding_attempts in *. simpl.
  destruct e as [req | t]; simpl in *.
  - destruct He as [-> _]. exact IH.
  - exact IH.
Qed.

Section CountRules.
Context {A B : Type}.

Lemma at_most_bind (k1 k2 : nat) (m : M A) (f : A -> M B) :
  at_most k1 m -> (forall a, at_most k2 (f a)) -> at_most (k1 + k2) (bind m f).
Proof.
  intros Hm Hf s. unfold bind. specialize (Hm s).
  destruct (result (m s)) as [a | e]; simpl.
  - rewrite funding_attempts_app. specialize (Hf a (rest (m s))).
    apply Nat.add_le_mono; assumption.
  - apply (Nat.le_trans _ _ _ Hm), Nat.le_add_r.
Qed.

Lemma at_most_try (k1 k2 : nat) (m : M A) (h : PyExn -> M A) :
  at_most k1 m -> (forall e, at_most k2 (h e)) -> at_most (k1 + k2) (try_except m h).
Proof.
  intros Hm Hh s. unfold try_except. specialize (Hm s).
  destruct (result (m s)) as [a | e]; simpl.
  - apply (Nat.le_trans _ _ _ Hm), Nat.le_add_r.
  - rewrite funding_attempts_app. specialize (Hh e (rest (m s))).
    apply Nat.add_le_mono; assumption.
Qed.

Lemma at_most_emits (amount_in : Z) (m : M A) :
  emits (keeps_amount amount_in) m -> at_most 0 m.
Proof. intros H s. rewrite (keeps_amount_no_funding amount_in _ (H s)). apply Nat.le_refl. Qed.

Lemma at_most_quiet (m : M A) : quiet m -> at_most 0 m.
Proof. intros H s. destruct (H s) as [_ ->]. apply Nat.le_refl. Qed.

End CountRules.

Lemma keeps_amount_plain (amount_in : Z) (req : Request) :
  is_funding_request req = false ->
  requested_amount req = None ->
  keeps_amount amount_in (EvRequest req).
Proof. intros H1 H2. split; [exact H1 |]. rewrite H2. discriminate. Qed.

Lemma keeps_balance_request (amount_in : Z) (pubkey : string) :
  keeps_amount amount_in (EvRequest (balance_request pubkey)).
Proof. apply keeps_amount_plain; reflexivity. Qed.

Lemma keeps_paymaster_request (amount_in : Z) (raw : json) :
  keeps_amount amount_in (EvRequest (paymaster_request raw)).
Proof. apply keeps_amount_plain; reflexivity. Qed.

Lemma keeps_send_transaction_request {RT : Runtime} (amount_in : Z) (tx : bytes) :
  keeps_amount amount_in (EvRequest (send_transaction_request tx)).
Proof. apply keeps_amount_plain; reflexivity. Qed.

Lemma keeps_quote_request (amount_in : Z) (a_for_b : bool) :
  keeps_amount amount_in
    (EvRequest (mkRequest GET quote_url (JObj (quote_params amount_in a_for_b)))).
Proof. split; [reflexivity |]. intros v [= <-]. reflexivity. Qed.

Lemma keeps_swap_tx_request (amount_in : Z) (wallet : Wallet) (q : QuoteData) :
  keeps_amount amount_in
    (EvRequest (mkRequest GET swap_tx_url (JObj (swap_tx_params wallet amount_in q)))).
Proof. split; [reflexivity |]. intros v [= <-]. reflexivity. Qed.

Lemma funding_attempts_airdrop (pubkey : string) (s : Env) :
  funding_attempts (events (request_airdrop pubkey s)) = 1%nat.
Proof.
  rewrite request_airdrop_run. cbn [events]. unfold requests_made.
  destruct (primary_reports_success _); [reflexivity |].
  destruct (faucet_reports_success _); [reflexivity |].
  destruct (faucet_reports_success _); reflexivity.
Qed.

(* ================================================================== *)
(** * The stages of a swap (network.get_balance_rpc, swap.py) *)

Section Stages.
Context {RT : Runtime}.

Lemma balance_run (pubkey : string) (s : Env) :
  get_balance_rpc pubkey s
  = mkRun (result (get_balance_rpc pubkey s)) (advance s)
          [EvRequest (balance_request pubkey)].
Proof. unfold get_balance_rpc. apply guarded_send_shape; intros; walk. Qed.

Lemma balance_returns (pubkey : string) (s : Env) :
  exists v, result (get_balance_rpc pubkey s) = Ok v.
Proof. unfold get_balance_rpc. apply (try_except_returns _ (fun _ => JNum 0)). Qed.

Lemma balance_known (pubkey : string) (s : Env) (v : json) :
  result (get_balance_rpc pubkey s) = Ok v ->
  get_balance_rpc pubkey s = mkRun (Ok v) (advance s) [EvRequest (balance_request pubkey)].
Proof. intros H. rewrite balance_run, H. reflexivity. Qed.

Lemma get_accepted (u : string) (params : list (string * json)) :
  forallb (fun kv => query_value_ok (snd kv)) params = true ->
  get u params = send (mkRequest GET u (JObj params)).
Proof. intros H. unfold get. rewrite H. reflexivity. Qed.

Lemma quote_params_accepted (amount_in : Z) (a_for_b : bool) :
  forallb (fun kv => query_value_ok (snd kv)) (quote_params amount_in a_for_b) = true.
Proof. simpl. rewrite !query_str_ok, query_int_ok. reflexivity. Qed.

Lemma quote_run (amount_in : Z) (direction : string) (s : Env) :
  _get_swap_quote amount_in direction s
  = mkRun (result (_get_swap_quote amount_in direction s)) (advance s)
          [EvRequest (quote_request amount_in direction)].
Proof.
  unfold _get_swap_quote, quote_request. cbv zeta.
  rewrite (get_accepted _ _ (quote_params_accepted _ _)).
  apply guarded_send_shape; intros; walk.
Qed.

Lemma quote_returns (amount_in : Z) (direction : string) (s : Env) :
  exists q, result (_get_swap_quote amount_in direction s) = Ok q.
Proof. unfold _get_swap_quote. apply (try_except_returns _ (fun _ => None)). Qed.

Lemma quote_raised (amount_in : Z) (direction : string) (s : Env) (e : PyExn) :
  next_outcome s = Fails e ->
  result (_get_swap_quote amount_in direction s) = Ok None.
Proof.
  intros H. unfold _get_swap_quote. cbv zeta.
  rewrite (get_accepted _ _ (quote_params_accepted _ _)).
  rewrite (guarded_send_fails _ _ _ _ _ H). reflexivity.
Qed.

Lemma swap_tx_returns (wallet : Wallet) (amount_in : Z) (direction : string)
    (q : QuoteData) (s : Env) :
  exists tx, result (_get_swap_transaction wallet amount_in direction q s) = Ok tx.
Proof. unfold _get_swap_transaction. apply (try_except_returns _ (fun _ => None)). Qed.

Lemma swap_tx_raised (wallet : Wallet) (amount_in : Z) (direction : string)
    (q : QuoteData) (s : Env) (e : PyExn) :
  next_outcome s = Fails e ->
  result (_get_swap_transaction wallet amount_in direction q s) = Ok None.
Proof.
  intros H. unfold _get_swap_transaction, get.
  destruct (forallb _ (swap_tx_params wallet amount_in q)).
  - rewrite (guarded_send_fails _ _ _ _ _ H). reflexivity.
  - reflexivity.
Qed.

(** Signing is pure and, by [sign_returns], always yields bytes. *)
Lemma execute_run (wallet : Wallet) (tx_data : TxData) (s : Env) :
  exists signed,
    deserialize_and_sign_transaction (raw_tx_bytes tx_data) wallet = Ok signed /\
    _execute_transaction wallet tx_data s
    = bind (send_transaction_paymaster (raw_tx tx_data))
        (fun paymaster =>
           if fst paymaster then ret true
           else bind (send_transaction_rpc signed)
                  (fun rpc => if fst rpc then ret true else ret false)) s.
Proof.
  destruct (sign_returns (raw_tx_bytes tx_data) wallet) as [signed Hs].
  exists signed. split; [exact Hs |].
  unfold _execute_transaction.
  rewrite (run_bind_known _ _ s s signed []).
  - apply prefix_events_nil.
  - unfold try_except, lift. simpl. rewrite Hs. reflexivity.
Qed.

Lemma execute_returns (wallet : Wallet) (tx_data : TxData) (s : Env) :
  exists success, result (_execute_transaction wallet tx_data s) = Ok success.
Proof.
  destruct (execute_run wallet tx_data s) as [signed [_ ->]].
  rewrite result_bind.
  destruct (next_outcome s) as [[st body bj] | e] eqn:E.
  - rewrite paymaster_run.
    assert (Hp : exists p, result (send_transaction_paymaster (raw_tx tx_data) s) = Ok p).
    { unfold send_transaction_paymaster. apply (try_except_returns _ (fun _ => (false, u ""))). }
    destruct Hp as [[ok ref] Hp]. rewrite Hp. cbn [result rest fst].
    destruct ok; [eexists; reflexivity |].
    rewrite result_bind, rpc_result. cbn [fst].
    destruct (rpc_reference _) as [v | ]; [| eexists; reflexivity].
    destruct (is_str PLACEHOLDER_SIGNATURE v); eexists; reflexivity.
  - rewrite (paymaster_result_raised _ _ _ E). cbn [fst].
    rewrite result_bind, rpc_result. cbn [fst].
    destruct (rpc_reference _) as [v | ]; [| eexists; reflexivity].
    destruct (is_str PLACEHOLDER_SIGNATURE v); eexists; reflexivity.
Qed.

Lemma execute_both_raised (wallet : Wallet) (tx_data : TxData) (s : Env) (e1 e2 : PyExn) :
  next_outcome s = Fails e1 ->
  next_outcome (advance s) = Fails e2 ->
  result (_execute_transaction wallet tx_data s) = Ok false.
Proof.
  intros H1 H2. destruct (execute_run wallet tx_data s) as [signed [_ ->]].
  rewrite result_bind, (paymaster_result_raised _ _ _ H1). cbn [fst].
  rewrite paymaster_run. cbn [rest].
  rewrite result_bind, rpc_result, H2. reflexivity.
Qed.

(** ** What the stages emit *)

Lemma emits_balance (P : Event -> Prop) (pubkey : string) :
  P (EvRequest (balance_request pubkey)) -> emits P (get_balance_rpc pubkey).
Proof. intros H s. rewrite balance_run. cbn [events]. constructor; [exact H | constructor]. Qed.

Lemma emits_quote (amount_in : Z) (direction : string) :
  emits (keeps_amount amount_in) (_get_swap_quote amount_in direction).
Proof.
  intros s. rewrite quote_run. cbn [events].
  constructor; [apply keeps_quote_request | constructor].
Qed.

Lemma emits_swap_tx (wallet : Wallet) (amount_in : Z) (direction : string) (q : QuoteData) :
  emits (keeps_amount amount_in) (_get_swap_transaction wallet amount_in direction q).
Proof.
  unfold _get_swap_transaction. walk.
  apply emits_get, keeps_swap_tx_request.
Qed.

Lemma emits_execute (wallet : Wallet) (amount_in : Z) (tx_data : TxData) :
  emits (keeps_amount amount_in) (_execute_transaction wallet tx_data).
Proof.
  intros s. destruct (execute_run wallet tx_data s) as [signed [_ ->]].
  revert s. apply emits_bind.
  - intros s. rewrite paymaster_run. cbn [events].
    constructor; [apply keeps_paymaster_request | constructor].
  - intros p. destruct (fst p); walk.
    apply emits_send, keeps_send_transaction_request.
Qed.

Lemma emits_quote_build_submit (wallet : Wallet) (amount_in : Z) (direction : string) :
  emits (keeps_amount amount_in) (quote_build_submit wallet amount_in direction).
Proof.
  unfold quote_build_submit.
  apply emits_bind; [apply emits_quote |]. intros [q | ]; [| walk].
  apply emits_bind; [apply emits_swap_tx |]. intros [tx | ]; [| walk].
  apply emits_bind; [apply emits_execute |]. intros success. walk.
Qed.

End Stages.

(* ================================================================== *)
(** * The swap orchestrator (swap.perform_swap) *)

Section Orchestrator.
Context {RT : Runtime}.

Lemma perform_swap_body_eq (wallet : Wallet) (amount_in : Z) (direction : string) :
  perform_swap_body wallet amount_in direction
  = (balance <- get_balance_rpc (pubkey wallet) ;;
     _ <~ format_token_amount balance ;;
     sufficient <- _ensure_sufficient_balance wallet balance amount_in ;;
     if negb sufficient then ret 0
     else quote_build_submit wallet amount_in direction).
Proof. reflexivity. Qed.

Lemma perform_swap_returns (wallet : Wallet) (amount_in : Z) (direction : string) (s : Env) :
  exists z, result (perform_swap wallet amount_in direction s) = Ok z.
Proof.
  unfold perform_swap, try_except.
  destruct (result (perform_swap_body wallet amount_in direction s)) as [z | e] eqn:E.
  - exists z. exact E.
  - exists 0. destruct (is_client_error e); reflexivity.
Qed.

Lemma perform_swap_handler (wallet : Wallet) (amount_in : Z) (direction : string)
    (s : Env) (e : PyExn) :
  result (perform_swap_body wallet amount_in direction s) = Raise e ->
  result (perform_swap wallet amount_in direction s) = Ok 0.
Proof.
  intros E. unfold perform_swap, try_except. rewrite E.
  destruct (is_client_error e); reflexivity.
Qed.

Lemma perform_swap_body_ok (wallet : Wallet) (amount_in : Z) (direction : string)
    (s : Env) (z : Z) :
  result (perform_swap_body wallet amount_in direction s) = Ok z ->
  perform_swap wallet amount_in direction s
  = perform_swap_body wallet amount_in direction s.
Proof. intros E. unfold perform_swap. apply (run_try_ok _ _ _ _ E). Qed.

Lemma perform_swap_trace (wallet : Wallet) (amount_in : Z) (direction : string) (s : Env) :
  rest (perform_swap wallet amount_in direction s)
  = rest (perform_swap_body wallet amount_in direction s) /\
  events (perform_swap wallet amount_in direction s)
  = events (perform_swap_body wallet amount_in direction s).
Proof.
  unfold perform_swap. apply try_quiet_handler.
  intros e. destruct (is_client_error e); apply quiet_ret.
Qed.

Lemma quote_build_submit_returns (wallet : Wallet) (amount_in : Z) (direction : string)
    (s : Env) :
  exists z, result (quote_build_submit wallet amount_in direction s) = Ok z.
Proof.
  unfold quote_build_submit. rewrite result_bind.
  destruct (quote_returns amount_in direction s) as [[q | ] ->]; [| eexists; reflexivity].
  rewrite result_bind.
  destruct (swap_tx_returns wallet amount_in direction q
              (rest (_get_swap_quote amount_in direction s))) as [[tx | ] ->];
    [| eexists; reflexivity].
  rewrite result_bind.
  destruct (execute_returns wallet tx
              (rest (_get_swap_transaction wallet amount_in direction q
                       (rest (_get_swap_quote amount_in direction s)))))
    as [success ->].
  destruct success; [eexists; reflexivity |].
  destruct (token_min_out q >? 0); eexists; reflexivity.
Qed.

Lemma perform_swap_after_balance (wallet : Wallet) (amount_in : Z) (direction : string)
    (s s1 : Env) :
  reaches_quote wallet amount_in s s1 ->
  result (perform_swap wallet amount_in direction s)
  = result (quote_build_submit wallet amount_in direction s1).
Proof.
  intros [balance [Hb [Hf [Hc Hr]]]].
  assert (Hbody : result (perform_swap_body wallet amount_in direction s)
                  = result (quote_build_submit wallet amount_in direction s1)).
  { rewrite perform_swap_body_eq, result_bind, Hb, result_bind_lift, Hf, result_bind, Hc.
    cbn [negb]. rewrite Hr. reflexivity. }
  destruct (quote_build_submit_returns wallet amount_in direction s1) as [z Hz].
  rewrite Hz in Hbody |- *.
  rewrite (perform_swap_body_ok _ _ _ _ _ Hbody). exact Hbody.
Qed.

Lemma quote_build_submit_outcome (wallet : Wallet) (amount_in : Z) (direction : string)
    (s1 : Env) (q : QuoteData) (tx : TxData) (success : bool) :
  result (_get_swap_quote amount_in direction s1) = Ok (Some q) ->
  result (_get_swap_transaction wallet amount_in direction q
            (rest (_get_swap_quote amount_in direction s1))) = Ok (Some tx) ->
  result (_execute_transaction wallet tx
            (rest (_get_swap_transaction wallet amount_in direction q
                     (rest (_get_swap_quote amount_in direction s1))))) = Ok success ->
  result (quote_build_submit wallet amount_in direction s1)
  = Ok (if success then token_min_out q
        else if token_min_out q >? 0 then token_min_out q else 0).
Proof.
  intros Hq Hb He. unfold quote_build_submit.
  rewrite result_bind, Hq, result_bind, Hb, result_bind, He.
  destruct success; [reflexivity |]. destruct (token_min_out q >? 0); reflexivity.
Qed.

End Orchestrator.

(** C4, counterexample. With a sufficient balance, a quote whose
    tokenMinOut is -5, a built transaction and two failing submission
    channels, [perform_swap] returns 0, not the nonzero -5. *)
Lemma negative_min_out_counts_as_failure :
  result (perform_swap alice 100000 "FOGO_TO_FUSD"
            (world [balance_reply 1000000000; quote_reply (JNum (-5)); build_reply;
                    Fails TimeoutError; Fails TimeoutError]))
  = Ok 0
  /\ ~ nonzero_outcome_rule.
Proof.
  split; [vm_compute; reflexivity |].
  intros H.
  specialize (H rejecting_runtime alice 100000 "FOGO_TO_FUSD"
                (world [balance_reply 1000000000; quote_reply (JNum (-5)); build_reply;
                        Fails TimeoutError; Fails TimeoutError])
                (mkQuote (-5) (JStr "pool1") true) false).
  assert (Hreach : reaches_submission alice 100000 "FOGO_TO_FUSD"
            (world [balance_reply 1000000000; quote_reply (JNum (-5)); build_reply;
                    Fails TimeoutError; Fails TimeoutError])
            (mkQuote (-5) (JStr "pool1") true) false).
  { exists (world [quote_reply (JNum (-5)); build_reply;
                   Fails TimeoutError; Fails TimeoutError]).
    exists (mkTxData (JStr "AQID") [Byte.x01; Byte.x02; Byte.x03]).
    split.
    - exists (JNum 1000000000). vm_compute. auto.
    - vm_compute. auto. }
  specialize (H Hreach). vm_compute in H. discriminate.
Qed.

(** C4, amended. When the quote and build stages succeed, the amount
    [perform_swap] returns is the quote's token_min_out if the submission
    pipeline reports success; otherwise it is still token_min_out
    whenever token_min_out is positive; otherwise it is 0. *)
Theorem swap_outcome_amount :
  forall (RT : Runtime) (wallet : Wallet) (amount_in : Z) (direction : string)
         (s : Env) (q : QuoteData) (success : bool),
    reaches_submission wallet amount_in direction s q success ->
    result (perform_swap wallet amount_in direction s)
    = Ok (if success then token_min_out q
          else if token_min_out q >? 0 then token_min_out q
          else 0).
Proof.
  intros RT wallet amount_in direction s q success [s1 [tx [Hreach Hrest]]].
  cbv zeta in Hrest. destruct Hrest as [Hq [Hb He]].
  rewrite (perform_swap_after_balance _ _ _ _ _ Hreach).
  apply (quote_build_submit_outcome _ _ _ _ _ tx); assumption.
Qed.

Lemma swap_outcome_amount_witness :
  result (perform_swap alice 100000 "FOGO_TO_FUSD"
            (world [balance_reply 1000000000; quote_reply (JStr "42"); build_reply;
                    Fails TimeoutError; Fails TimeoutError]))
  = Ok 42.
Proof.
  apply (swap_outcome_amount rejecting_runtime alice 100000 "FOGO_TO_FUSD"
           (world [balance_reply 1000000000; quote_reply (JStr "42"); build_reply;
                   Fails TimeoutError; Fails TimeoutError])
           (mkQuote 42 (JStr "pool1") true) false).
  exists (world [quote_reply (JStr "42"); build_reply;
                 Fails TimeoutError; Fails TimeoutError]).
  exists (mkTxData (JStr "AQID") [Byte.x01; Byte.x02; Byte.x03]).
  split.
  - exists (JNum 1000000000). vm_compute. auto.
  - vm_compute. auto.
Defined.

(* ================================================================== *)
(** * Sufficiency check and funding (swap._ensure_sufficient_balance) *)

Section Sufficiency.
Context {RT : Runtime}.

Lemma format_in_range (n : Z) :
  within_float_range n -> format_token_amount (JNum n) = Ok tt.
Proof. intros H. unfold format_token_amount. simpl. apply display_amount_in_range, H. Qed.

Lemma ensure_adjust_run (wallet : Wallet) (b amount_in : Z) (s : Env) :
  100000 < b -> b < amount_in -> within_float_range amount_in ->
  _ensure_sufficient_balance wallet (JNum b) amount_in s = mkRun (Ok true) s [].
Proof.
  intros Hlow Hb Hrange.
  assert (Hbr : within_float_range b) by (unfold within_float_range in *; lia).
  destruct (adjusted_amount_in_range b ltac:(lia) Hbr) as [a [Ha Har]].
  unfold _ensure_sufficient_balance. cbv zeta.
  rewrite (run_bind_lift_ok _ _ _ b eq_refl).
  destruct (Z.geb_spec b amount_in); [lia |].
  destruct (Z.gtb_spec b 0); [| lia].
  rewrite (run_bind_lift_ok _ _ _ tt (format_in_range b Hbr)).
  rewrite (run_bind_lift_ok _ _ _ tt (display_amount_in_range amount_in Hrange)).
  destruct (Z.gtb_spec b 100000); [| lia].
  rewrite (run_bind_lift_ok _ _ _ a Ha).
  rewrite (run_bind_lift_ok _ _ _ tt (display_amount_in_range a Har)).
  reflexivity.
Qed.

Lemma ensure_fund_run (wallet : Wallet) (b amount_in : Z) (s : Env) :
  0 <= b <= 100000 -> b < amount_in -> within_float_range amount_in ->
  _ensure_sufficient_balance wallet (JNum b) amount_in s
  = fund_and_recheck wallet amount_in s.
Proof.
  intros Hlow Hb Hrange.
  assert (Hbr : within_float_range b) by (unfold within_float_range in *; lia).
  unfold _ensure_sufficient_balance, fund_and_recheck. cbv zeta.
  rewrite (run_bind_lift_ok _ _ _ b eq_refl).
  destruct (Z.geb_spec b amount_in); [lia |].
  destruct (Z.gtb_spec b 0); [| reflexivity].
  rewrite (run_bind_lift_ok _ _ _ tt (format_in_range b Hbr)).
  rewrite (run_bind_lift_ok _ _ _ tt (display_amount_in_range amount_in Hrange)).
  destruct (Z.gtb_spec b 100000); [lia | reflexivity].
Qed.

(** After a successful funding call: the delay, one balance query, and a
    verdict that is not True when the new balance is below the request. *)
Lemma fund_and_recheck_still_short (wallet : Wallet) (amount_in nb : Z) (s : Env) :
  let funding := request_airdrop (pubkey wallet) s in
  result funding = Ok true ->
  result (get_balance_rpc (pubkey wallet) (rest funding)) = Ok (JNum nb) ->
  nb < amount_in ->
  fund_and_recheck wallet amount_in s
  = mkRun (match display_amount nb with
           | Ok _ => Ok false
           | Raise e => Raise e
           end)
          (advance (rest funding))
          (events funding
           ++ [EvSleep CONFIRMATION_SLEEP; EvRequest (balance_request (pubkey wallet))]).
Proof.
  intros funding Hf Hnb Hlt. subst funding. unfold fund_and_recheck.
  set (funding := request_airdrop (pubkey wallet) s) in *.
  assert (Hrun : request_airdrop (pubkey wallet) s
                 = mkRun (Ok true) (rest funding) (events funding)).
  { subst funding. rewrite <- Hf. destruct (request_airdrop (pubkey wallet) s). reflexivity. }
  rewrite (run_bind_known _ _ _ _ _ _ Hrun).
  rewrite (run_bind_known _ _ _ (rest funding) tt [EvSleep CONFIRMATION_SLEEP] eq_refl).
  rewrite (run_bind_known _ _ _ _ _ _ (balance_known _ _ _ Hnb)).
  rewrite quiet_run by walk.
  unfold prefix_events. cbn [result rest events].
  rewrite app_nil_r. f_equal.
  rewrite result_bind_lift. unfold format_token_amount. cbn [py_number bindE].
  destruct (display_amount nb); [| reflexivity].
  rewrite result_bind_lift. cbn [py_number result ret].
  destruct (Z.geb_spec nb amount_in); [lia | reflexivity].
Qed.

End Sufficiency.

Section FundingCount.
Context {RT : Runtime}.

Lemma at_most_weaken {A : Type} (k k' : nat) (m : M A) :
  at_most k m -> (k <= k')%nat -> at_most k' m.
Proof. intros H Hk s. exact (Nat.le_trans _ _ _ (H s) Hk). Qed.

Lemma at_most_fund (wallet : Wallet) (amount_in : Z) :
  at_most 1 (fund_and_recheck wallet amount_in).
Proof.
  unfold fund_and_recheck. apply (at_most_bind 1 0).
  - intros s. rewrite funding_attempts_airdrop. apply Nat.le_refl.
  - intros [ | ]; [| apply at_most_quiet, quiet_ret].
    apply (at_most_emits 0).
    apply emits_bind; [apply emits_sleep; exact I |]. intros _.
    apply emits_bind; [apply emits_balance, keeps_balance_request |]. intros v.
    walk.
Qed.

Lemma at_most_ensure (wallet : Wallet) (balance : json) (amount_in : Z) :
  at_most 1 (_ensure_sufficient_balance wallet balance amount_in).
Proof.
  unfold _ensure_sufficient_balance. cbv zeta.
  apply (at_most_bind 0 1); [apply at_most_quiet, quiet_lift |]. intros b.
  destruct (b >=? amount_in);
    [apply (at_most_weaken 0); [apply at_most_quiet, quiet_ret | auto] |].
  destruct (b >? 0); [| apply at_most_fund].
  apply (at_most_bind 0 1); [apply at_most_quiet, quiet_lift |]. intros _.
  apply (at_most_bind 0 1); [apply at_most_quiet, quiet_lift |]. intros _.
  destruct (b >? 100000); [| apply at_most_fund].
  apply (at_most_weaken 0); [apply at_most_quiet; walk | auto].
Qed.

Lemma at_most_perform_swap (wallet : Wallet) (amount_in : Z) (direction : string) :
  at_most 1 (perform_swap wallet amount_in direction).
Proof.
  unfold perform_swap. apply (at_most_try 1 0).
  - rewrite perform_swap_body_eq.
    apply (at_most_bind 0 1).
    { apply (at_most_emits 0), emits_balance, keeps_balance_request. }
    intros balance.
    apply (at_most_bind 0 1); [apply at_most_quiet, quiet_lift |]. intros _.
    apply (at_most_bind 1 0); [apply at_most_ensure |]. intros sufficient.
    destruct (negb sufficient); [apply at_most_quiet, quiet_ret |].
    apply (at_most_emits amount_in), emits_quote_build_submit.
  - intros e. destruct (is_client_error e); apply at_most_quiet, quiet_ret.
Qed.

End FundingCount.

(** C6. A swap operation makes at most one funding attempt; and when the
    (non-negative) balance is at or below the usability threshold of
    100000 lamports (and below the requested amount, an amount a float can
    hold as every configured swap amount is, so that funding is asked
    for), the
    Funding Acquirer succeeds and the balance queried after the fixed
    confirmation delay is still below the requested amount, the operation
    fails with 0 after exactly these steps: balance query, the one funding
    call, the delay, one new balance query -- funding is not invoked a
    second time and nothing is quoted, built or submitted. *)
Theorem single_funding_attempt :
  forall (RT : Runtime) (wallet : Wallet) (amount_in : Z) (direction : string) (s : Env),
    (funding_attempts (events (perform_swap wallet amount_in direction s)) <= 1)%nat /\
    (forall b nb : Z,
       result (get_balance_rpc (pubkey wallet) s) = Ok (JNum b) ->
       0 <= b <= 100000 -> b < amount_in -> within_float_range amount_in ->
       let funding := request_airdrop (pubkey wallet) (advance s) in
       result funding = Ok true ->
       result (get_balance_rpc (pubkey wallet) (rest funding)) = Ok (JNum nb) ->
       nb < amount_in ->
       perform_swap wallet amount_in direction s
       = mkRun (Ok 0) (advance (rest funding))
               (EvRequest (balance_request (pubkey wallet))
                :: events funding
                ++ [EvSleep CONFIRMATION_SLEEP;
                    EvRequest (balance_request (pubkey wallet))])
       /\ funding_attempts (events (perform_swap wallet amount_in direction s)) = 1%nat).
Proof.
  intros RT wallet amount_in direction s. split; [apply at_most_perform_swap |].
  intros b nb Hb Hlow Hlt Hrange funding Hf Hnb Hnlt.
  assert (Hbr : within_float_range b) by (unfold within_float_range in *; lia).
  pose proof (fund_and_recheck_still_short wallet amount_in nb (advance s) Hf Hnb Hnlt)
    as Hfund.
  rewrite <- (ensure_fund_run wallet b amount_in (advance s) Hlow Hlt Hrange) in Hfund.
  fold funding in Hfund.
  assert (Hrun : perform_swap wallet amount_in direction s
                 = mkRun (Ok 0) (advance (rest funding))
                     (EvRequest (balance_request (pubkey wallet))
                      :: events funding
                      ++ [EvSleep CONFIRMATION_SLEEP;
                          EvRequest (balance_request (pubkey wallet))])).
  { assert (Hbody : perform_swap_body wallet amount_in direction s
                    = mkRun (match display_amount nb with
                             | Ok _ => Ok 0
                             | Raise e => Raise e
                             end)
                        (advance (rest funding))
                        (EvRequest (balance_request (pubkey wallet))
                         :: events funding
                         ++ [EvSleep CONFIRMATION_SLEEP;
                             EvRequest (balance_request (pubkey wallet))])).
    { rewrite perform_swap_body_eq.
      rewrite (run_bind_known _ _ _ _ _ _ (balance_known _ _ _ Hb)).
      rewrite (run_bind_lift_ok _ _ _ tt (format_in_range b Hbr)).
      destruct (display_amount nb) as [[] | e].
      - rewrite (run_bind_known _ _ _ _ _ _ Hfund).
        unfold prefix_events. cbn. rewrite app_nil_r. reflexivity.
      - rewrite (run_bind_raised _ _ _ _ _ _ Hfund). reflexivity. }
    unfold perform_swap, try_except. rewrite Hbody. cbn [result rest events].
    destruct (display_amount nb) as [[] | e]; [reflexivity |].
    destruct (is_client_error e); cbn; rewrite app_nil_r; reflexivity. }
  split; [exact Hrun |].
  rewrite Hrun. cbn [events].
  change (EvRequest (balance_request (pubkey wallet)) :: events funding ++ _)
    with ([EvRequest (balance_request (pubkey wallet))] ++ events funding
          ++ [EvSleep CONFIRMATION_SLEEP; EvRequest (balance_request (pubkey wallet))]).
  rewrite !funding_attempts_app. subst funding. rewrite funding_attempts_airdrop.
  reflexivity.
Qed.

Lemma single_funding_attempt_witness :
  perform_swap alice 100000 "FOGO_TO_FUSD"
    (world [balance_reply 0;
            json_reply 200 (JObj [("result", JStr "5VERv8NMvzbJMEkV8xnrLkEaWRtSz9Cos")]);
            balance_reply 50000;
            quote_reply (JStr "42")])
  = mkRun (Ok 0) (world [quote_reply (JStr "42")])
      [EvRequest (balance_request (pubkey alice));
       EvRequest (official_airdrop_request (pubkey alice));
       EvSleep CONFIRMATION_SLEEP;
       EvRequest (balance_request (pubkey alice))].
Proof.
  refine (proj1 (proj2 (single_funding_attempt rejecting_runtime alice 100000
                          "FOGO_TO_FUSD"
                          (world [balance_reply 0;
                                  json_reply 200
                                    (JObj [("result",
                                            JStr "5VERv8NMvzbJMEkV8xnrLkEaWRtSz9Cos")]);
                                  balance_reply 50000;
                                  quote_reply (JStr "42")]))
                   0 50000 _ _ _ _ _ _ _)).
  - reflexivity.
  - lia.
  - lia.
  - unfold within_float_range. vm_compute. reflexivity.
  - reflexivity.
  - reflexivity.
  - lia.
Defined.

(** C7. When the balance is positive, below the requested amount and
    above the usability threshold of 100000 lamports, the orchestrator
    goes on to the quote stage with the original requested amount and
    without funding: the next request is the quote for [amount_in], every
    request of the operation that names an input amount names [amount_in],
    and the 80%-of-balance adjusted amount, although computed, is the
    input amount of no request.  ([amount_in] is an amount a float can
    hold, as every configured swap amount is.) *)
Theorem requested_amount_is_kept :
  forall (RT : Runtime) (wallet : Wallet) (amount_in : Z) (direction : string)
         (s : Env) (b : Z),
    result (get_balance_rpc (pubkey wallet) s) = Ok (JNum b) ->
    0 < b -> b < amount_in -> 100000 < b -> within_float_range amount_in ->
    let run := perform_swap wallet amount_in direction s in
    reaches_quote wallet amount_in s (advance s) /\
    (exists more,
        events run = EvRequest (balance_request (pubkey wallet))
                     :: EvRequest (quote_request amount_in direction) :: more) /\
    Forall (keeps_amount amount_in) (events run) /\
    funding_attempts (events run) = 0%nat /\
    (exists adjusted,
        adjusted_amount_of b = Ok adjusted /\ adjusted < amount_in /\
        forall req, In (EvRequest req) (events run) ->
                    requested_amount req <> Some (JNum adjusted)).
Proof.
  intros RT wallet amount_in direction s b Hb Hpos Hlt Hlow Hrange run.
  assert (Hbr : within_float_range b) by (unfold within_float_range in *; lia).
  assert (Hreach : reaches_quote wallet amount_in s (advance s)).
  { exists (JNum b). split; [exact Hb |]. split; [apply format_in_range, Hbr |].
    cbv zeta. rewrite balance_run. cbn [rest].
    rewrite (ensure_adjust_run wallet b amount_in (advance s) Hlow Hlt Hrange).
    split; reflexivity. }
  assert (Hev : events run
                = EvRequest (balance_request (pubkey wallet))
                  :: events (quote_build_submit wallet amount_in direction (advance s))).
  { subst run. rewrite (proj2 (perform_swap_trace wallet amount_in direction s)).
    rewrite perform_swap_body_eq.
    rewrite (run_bind_known _ _ _ _ _ _ (balance_known _ _ _ Hb)).
    rewrite (run_bind_lift_ok _ _ _ tt (format_in_range b Hbr)).
    rewrite (run_bind_known _ _ _ _ _ _
               (ensure_adjust_run wallet b amount_in (advance s) Hlow Hlt Hrange)).
    reflexivity. }
  assert (Hkeeps : Forall (keeps_amount amount_in) (events run)).
  { rewrite Hev. constructor.
    - apply keeps_balance_request.
    - apply emits_quote_build_submit. }
  split; [exact Hreach |]. split; [| split; [exact Hkeeps | split]].
  - rewrite Hev. unfold quote_build_submit.
    destruct (events_bind (_get_swap_quote amount_in direction)
                (fun quote_data =>
                   match quote_data with
                   | None => ret 0
                   | Some quote_data =>
                       tx_data <- _get_swap_transaction wallet amount_in direction
                                    quote_data ;;
                       match tx_data with
                       | None => ret 0
                       | Some tx_data =>
                           success <- _execute_transaction wallet tx_data ;;
                           if success then ret (token_min_out quote_data)
                           else if token_min_out quote_data >? 0
                                then ret (token_min_out quote_data)
                                else ret 0
                       end
                   end) (advance s)) as [more Hmore].
    exists more. rewrite Hmore, quote_run. reflexivity.
  - apply (keeps_amount_no_funding amount_in), Hkeeps.
  - destruct (adjusted_amount_in_range b Hpos Hbr) as [adjusted [Ha _]].
    exists adjusted. split; [exact Ha |].
    assert (Hadj : adjusted < amount_in).
    { unfold adjusted_amount_of in Ha.
      destruct (Z.abs b >=? FLOAT_OVERFLOW); [discriminate |].
      injection Ha as <-.
      assert (b * 8 / 10 <= b) by (apply Z.div_le_upper_bound; lia). lia. }
    split; [exact Hadj |].
    intros req Hin Hreq.
    rewrite Forall_forall in Hkeeps. specialize (Hkeeps _ Hin).
    destruct Hkeeps as [_ Hk]. specialize (Hk _ Hreq).
    injection Hk as Hk. lia.
Qed.

Lemma requested_amount_is_kept_witness :
  exists more,
    events (perform_swap alice 500000 "FOGO_TO_FUSD"
              (world [balance_reply 300000; quote_reply (JStr "42"); build_reply;
                      text_reply 200 "5VERv8NMvzbJMEkV8xnrLkEaWRtSz9Cos"]))
    = EvRequest (balance_request (pubkey alice))
      :: EvRequest (quote_request 500000 "FOGO_TO_FUSD") :: more.
Proof.
  refine (proj1 (proj2 (requested_amount_is_kept rejecting_runtime alice 500000
                          "FOGO_TO_FUSD"
                          (world [balance_reply 300000; quote_reply (JStr "42");
                                  build_reply;
                                  text_reply 200 "5VERv8NMvzbJMEkV8xnrLkEaWRtSz9Cos"])
                          300000 _ _ _ _ _))).
  - reflexivity.
  - lia.
  - lia.
  - lia.
  - unfold within_float_range. vm_compute. reflexivity.
Defined.

(** C9, counterexample. Both submission channels raise, yet the quote's
    positive token_min_out makes [perform_swap] return 5, not 0: an
    exception raised in a step does not always end in 0. *)
Lemma raising_submission_still_counts_as_success :
  result (perform_swap alice 100000 "FOGO_TO_FUSD"
            (world [balance_reply 1000000000; quote_reply (JNum 5); build_reply;
                    Fails ClientConnectionError; Fails TimeoutError]))
  = Ok 5
  /\ ~ every_exception_yields_zero.
Proof.
  split; [vm_compute; reflexivity |].
  intros H.
  specialize (H rejecting_runtime alice 100000 "FOGO_TO_FUSD"
                (world [balance_reply 1000000000; quote_reply (JNum 5); build_reply;
                        Fails ClientConnectionError; Fails TimeoutError])).
  assert (Hraised : raised_during
            (world [balance_reply 1000000000; quote_reply (JNum 5); build_reply;
                    Fails ClientConnectionError; Fails TimeoutError])
            (perform_swap alice 100000 "FOGO_TO_FUSD"
               (world [balance_reply 1000000000; quote_reply (JNum 5); build_reply;
                       Fails ClientConnectionError; Fails TimeoutError]))).
  { exists TimeoutError. vm_compute. tauto. }
  specialize (H Hraised). vm_compute in H. discriminate.
Qed.

(** C9, amended. No exception escapes [perform_swap]: for every input and
    whatever the requests and libraries raise it returns an integer.  It
    returns 0 whenever an exception reaches its own handler, and whenever
    the quote request or the build request raises.  An exception inside a
    submission channel is absorbed by that channel: when both channels
    raise, the result is still token_min_out if that is positive, and 0
    otherwise. *)
Theorem perform_swap_never_raises :
  forall (RT : Runtime) (wallet : Wallet) (amount_in : Z) (direction : string) (s : Env),
    (exists z, result (perform_swap wallet amount_in direction s) = Ok z) /\
    (forall e, result (perform_swap_body wallet amount_in direction s) = Raise e ->
               result (perform_swap wallet amount_in direction s) = Ok 0) /\
    (forall s1 e,
       reaches_quote wallet amount_in s s1 ->
       next_outcome s1 = Fails e ->
       result (perform_swap wallet amount_in direction s) = Ok 0) /\
    (forall s1 q e,
       reaches_quote wallet amount_in s s1 ->
       result (_get_swap_quote amount_in direction s1) = Ok (Some q) ->
       next_outcome (advance s1) = Fails e ->
       result (perform_swap wallet amount_in direction s) = Ok 0) /\
    (forall s1 q tx e1 e2,
       reaches_quote wallet amount_in s s1 ->
       result (_get_swap_quote amount_in direction s1) = Ok (Some q) ->
       let built := _get_swap_transaction wallet amount_in direction q (advance s1) in
       result built = Ok (Some tx) ->
       next_outcome (rest built) = Fails e1 ->
       next_outcome (advance (rest built)) = Fails e2 ->
       result (perform_swap wallet amount_in direction s)
       = Ok (if token_min_out q >? 0 then token_min_out q else 0)).
Proof.
  intros RT wallet amount_in direction s.
  split; [apply perform_swap_returns |].
  split; [intros e; apply perform_swap_handler |].
  split; [| split].
  - intros s1 e Hreach Hfail.
    rewrite (perform_swap_after_balance _ _ _ _ _ Hreach).
    unfold quote_build_submit. rewrite result_bind, (quote_raised _ _ _ _ Hfail).
    reflexivity.
  - intros s1 q e Hreach Hq Hfail.
    rewrite (perform_swap_after_balance _ _ _ _ _ Hreach).
    unfold quote_build_submit. rewrite result_bind, Hq, result_bind.
    rewrite quote_run. cbn [rest]. rewrite (swap_tx_raised _ _ _ _ _ _ Hfail).
    reflexivity.
  - intros s1 q tx e1 e2 Hreach Hq built Hb H1 H2. subst built.
    rewrite (perform_swap_after_balance _ _ _ _ _ Hreach).
    assert (Hrest : rest (_get_swap_quote amount_in direction s1) = advance s1).
    { rewrite quote_run. reflexivity. }
    rewrite (quote_build_submit_outcome wallet amount_in direction s1 q tx false Hq).
    + reflexivity.
    + rewrite Hrest. exact Hb.
    + rewrite Hrest. apply (execute_both_raised _ _ _ e1 e2); assumption.
Qed.

Lemma perform_swap_never_raises_witness :
  result (perform_swap alice 100000 "FOGO_TO_FUSD"
            (world [balance_reply 1000000000; Fails TimeoutError]))
  = Ok 0.
Proof.
  refine (proj1 (proj2 (proj2 (perform_swap_never_raises rejecting_runtime alice 100000
                                 "FOGO_TO_FUSD"
                                 (world [balance_reply 1000000000; Fails TimeoutError]))))
            (world [Fails TimeoutError]) TimeoutError _ _).
  - exists (JNum 1000000000). vm_compute. auto.
  - reflexivity.
Defined.

(* ================================================================== *)
(** * The worker loop (worker.worker) *)

Section WorkerLoop.
Context {RT : Runtime}.

Lemma choose_amount_run (s : Env) :
  choose_amount s
  = mkRun (Ok (nth (hd 0%nat (picks s) mod List.length SWAP_AMOUNTS)%nat SWAP_AMOUNTS 0))
          (mkEnv (script s) (tl (picks s)) (draws s)) [].
Proof. reflexivity. Qed.

Lemma choose_amount_configured (s : Env) :
  exists amount_in, result (choose_amount s) = Ok amount_in /\ In amount_in SWAP_AMOUNTS.
Proof.
  rewrite choose_amount_run. eexists. split; [reflexivity |].
  apply nth_In. apply Nat.mod_upper_bound. discriminate.
Qed.

Lemma record_outcome_counts (stats : Stats) (result amount_in : Z) :
  successful_swaps (record_outcome stats result amount_in)
  + failed_swaps (record_outcome stats result amount_in)
  = successful_swaps stats + failed_swaps stats + 1.
Proof. unfold record_outcome. destruct (result >? 0); simpl; lia. Qed.

Lemma worker_loop_counts (todo : nat) :
  forall (i swaps : Z) (wallet : Wallet) (min_delay max_delay : float)
         (stats : Stats) (s : Env),
  exists final,
    result (worker_loop todo i swaps wallet min_delay max_delay stats s) = Ok final /\
    successful_swaps final + failed_swaps final
    = successful_swaps stats + failed_swaps stats + Z.of_nat todo.
Proof.
  induction todo as [ | todo IH]; intros i swaps wallet min_delay max_delay stats s.
  - exists stats. split; [reflexivity | simpl; lia].
  - cbn [worker_loop].
    rewrite (run_bind_known _ _ _ _ _ _ (choose_amount_run s)).
    rewrite result_prefix_events.
    set (amount_in := nth _ SWAP_AMOUNTS 0).
    set (s1 := mkEnv _ _ _).
    destruct (perform_swap_returns wallet amount_in "FOGO_TO_FUSD" s1) as [z Hz].
    rewrite result_bind, Hz.
    set (s2 := rest _).
    set (stats' := record_outcome stats z amount_in).
    rewrite result_bind.
    assert (Hsleep : exists s3,
               (if i <? swaps - 1
                then _adaptive_sleep i stats' min_delay max_delay
                else ret tt) s2
               = mkRun (Ok tt) s3 (events ((if i <? swaps - 1
                then _adaptive_sleep i stats' min_delay max_delay
                else ret tt) s2))).
    { destruct (i <? swaps - 1).
      - rewrite adaptive_sleep_run. eexists. reflexivity.
      - eexists. reflexivity. }
    destruct Hsleep as [s3 Hs3]. rewrite Hs3. cbn [result rest].
    destruct (IH (i + 1) swaps wallet min_delay max_delay stats' s3) as [final [Hf Hc]].
    exists final. split; [exact Hf |].
    rewrite Hc. subst stats'. rewrite record_outcome_counts. lia.
Qed.

End WorkerLoop.

(** C3. For every number of swaps N >= 1, whatever the remote world
    answers (failing channels included), one worker loop ends with
    statistics in which successful_swaps + failed_swaps = N. *)
Theorem worker_records_every_swap :
  forall (RT : Runtime) (name : Z) (wallet : Wallet) (N : Z)
         (min_delay max_delay : float) (s : Env),
    1 <= N ->
    exists stats,
      result (worker name wallet N min_delay max_delay s) = Ok stats /\
      successful_swaps stats + failed_swaps stats = N.
Proof.
  intros RT name wallet N min_delay max_delay s HN. unfold worker.
  destruct (worker_loop_counts (Z.to_nat N) 0 N wallet min_delay max_delay
              (mkStats 0 0 0 name) s) as [final [Hf Hc]].
  exists final. split; [exact Hf |]. rewrite Hc. simpl. lia.
Qed.

Lemma worker_records_every_swap_witness :
  exists stats,
    result (worker 1 alice 3 1%float 2%float
              (world [balance_reply 1000000000; quote_reply (JStr "42"); build_reply;
                      text_reply 200 "5VERv8NMvzbJMEkV8xnrLkEaWRtSz9Cos";
                      Fails TimeoutError])) = Ok stats /\
    successful_swaps stats + failed_swaps stats = 3.
Proof.
  apply (worker_records_every_swap rejecting_runtime 1 alice 3 1%float 2%float). lia.
Defined.

(* ================================================================== *)
(** * Transaction status lookup (transaction.check_transaction_status) *)

Lemma status_shape (tx_signature : string) (s : Env) :
  tx_signature <> "" -> tx_signature <> PLACEHOLDER_SIGNATURE ->
  check_transaction_status tx_signature s
  = mkRun (result (check_transaction_status tx_signature s)) (advance s)
          [EvRequest (signature_status_request tx_signature)].
Proof.
  intros H1 H2. unfold check_transaction_status.
  apply String.eqb_neq in H1. apply String.eqb_neq in H2. rewrite H1, H2.
  cbn [orb]. apply guarded_send_shape; intros; walk.
Qed.

Lemma status_result (tx_signature : string) (s : Env) :
  tx_signature <> "" -> tx_signature <> PLACEHOLDER_SIGNATURE ->
  result (check_transaction_status tx_signature s)
  = Ok (negb (confirmed_failure (next_outcome s))).
Proof.
  intros H1 H2. unfold check_transaction_status, confirmed_failure.
  apply String.eqb_neq in H1. apply String.eqb_neq in H2. rewrite H1, H2.
  cbn [orb].
  destruct (next_outcome s) as [[st tx bj] | e] eqn:E.
  2: { rewrite (guarded_send_fails _ _ _ _ _ E). reflexivity. }
  rewrite (guarded_send_reply _ _ _ _ _ E). do 2 eval_step.
  destruct (Z.eqb_spec st 200) as [-> | Hst]; [| not_200 st Hst].
  eval_step. destruct bj as [j | ]; [| reflexivity].
  eval_step.
  destruct j as [ | b | n | str | items | fields]; try reflexivity.
  - unfold has_truthy_result. cbn [py_in bindE].
    destruct (contains "result" str); reflexivity.
  - unfold has_truthy_result. cbn [py_in bindE].
    destruct (existsb (is_str "result") items); reflexivity.
  - rewrite has_truthy_result_obj. unfold has_reference. cbn [py_getitem].
    destruct (assoc "result" fields) as [res | ]; [| reflexivity].
    destruct (truthy res) eqn:Et.
    + eval_step.
      destruct res as [ | b | n | str | items | inner]; try reflexivity.
      cbn [py_getitem].
      destruct (assoc "value" inner) as [v | ]; [| reflexivity].
      eval_step.
      destruct v as [ | b | n | str | items | vf]; try reflexivity.
      * cbn [is_none]. eval_step. cbn [py_in status_reports_failure].
        destruct (contains "err" str); reflexivity.
      * cbn [is_none]. eval_step. cbn [py_in status_reports_failure].
        destruct (existsb (is_str "err") items); reflexivity.
      * cbn [is_none]. eval_step. cbn [py_in py_getitem status_reports_failure].
        destruct (assoc "err" vf) as [err | ]; [| reflexivity].
        eval_step. destruct err; reflexivity.
    + destruct res as [ | b | n | str | items | inner]; try reflexivity.
      destruct inner; [reflexivity | discriminate].
Qed.

(** X1. For a signature that is neither empty nor the all-ones
    placeholder (for those it answers True at once),
    [check_transaction_status] sends exactly one getSignatureStatus
    request, never raises, and is optimistic: it
    answers False only when the reply is a 200 whose status value is null
    or is a status without a null [err]; a transport exception, another
    HTTP status or a body that is not JSON all give True. *)
Theorem check_transaction_status_optimistic :
  forall (tx_signature : string) (s : Env),
    tx_signature <> "" -> tx_signature <> PLACEHOLDER_SIGNATURE ->
    check_transaction_status tx_signature s
    = mkRun (Ok (negb (confirmed_failure (next_outcome s)))) (advance s)
            [EvRequest (signature_status_request tx_signature)]
    /\ (forall e, next_outcome s = Fails e ->
                  result (check_transaction_status tx_signature s) = Ok true)
    /\ (forall r, next_outcome s = Reply r -> status r <> 200 ->
                  result (check_transaction_status tx_signature s) = Ok true)
    /\ (forall r, next_outcome s = Reply r -> body_json r = None ->
                  result (check_transaction_status tx_signature s) = Ok true).
Proof.
  intros tx_signature s H1 H2.
  rewrite (status_shape _ s H1 H2), (status_result _ s H1 H2). cbn [result].
  split; [reflexivity |]. repeat split.
  - intros e ->. reflexivity.
  - intros [st tx bj] -> Hst. cbn [status] in Hst. unfold confirmed_failure.
    f_equal. not_200 st Hst.
  - intros [st tx bj] -> Hb. cbn [body_json] in Hb. subst bj. unfold confirmed_failure.
    destruct st as [ | p | p]; try reflexivity.
    do 8 (destruct p as [p | p | ]; try reflexivity).
Qed.

Lemma check_transaction_status_optimistic_witness :
  check_transaction_status "5VERv8NMvzbJMEkV8xnrLkEaWRtSz9Cos"
    (world [json_reply 200
              (JObj [("result",
                      JObj [("value",
                             JObj [("err", JObj [("InstructionError", JNum 0)])])])])])
  = mkRun (Ok false) (world [])
      [EvRequest (signature_status_request "5VERv8NMvzbJMEkV8xnrLkEaWRtSz9Cos")].
Proof.
  apply (proj1 (check_transaction_status_optimistic
                  "5VERv8NMvzbJMEkV8xnrLkEaWRtSz9Cos"
                  (world [json_reply 200
                            (JObj [("result",
                                    JObj [("value",
                                           JObj [("err",
                                                  JObj [("InstructionError",
                                                         JNum 0)])])])])])
                  ltac:(discriminate) ltac:(discriminate))).
Defined.

(* ================================================================== *)
(** * Connection checks (network.py) *)

Section TryRules.
Context {A B : Type}.

Lemma try_bind_known (m : M A) (f : A -> M B) (h : PyExn -> M B) (s s' : Env)
    (a : A) (evs : list Event) :
  m s = mkRun (Ok a) s' evs ->
  try_except (bind m f) h s = prefix_events evs (try_except (f a) h s').
Proof.
  intros H. unfold try_except, bind, prefix_events. rewrite H. cbn [result rest events].
  destruct (result (f a s')) eqn:E; cbn [result rest events]; rewrite ?E;
    [reflexivity |].
  rewrite app_assoc. reflexivity.
Qed.

Lemma try_bind_raised (m : M A) (f : A -> M B) (h : PyExn -> M B) (s s' : Env)
    (e : PyExn) (evs : list Event) :
  m s = mkRun (Raise e) s' evs ->
  try_except (bind m f) h s = prefix_events evs (h e s').
Proof.
  intros H. unfold try_except, bind, prefix_events. rewrite H. reflexivity.
Qed.

Lemma try_bind_lift (x : Exc A) (f : A -> M B) (h : PyExn -> M B) (s : Env) :
  try_except (bind (lift x) f) h s
  = match x with
    | Ok a => try_except (f a) h s
    | Raise e => h e s
    end.
Proof.
  destruct x as [a | e].
  - rewrite (try_bind_known (lift (Ok a)) f h s s a [] eq_refl). apply prefix_events_nil.
  - rewrite (try_bind_raised (lift (Raise e)) f h s s e [] eq_refl).
    apply prefix_events_nil.
Qed.

End TryRules.

Lemma try_bind_json {B : Type} (r : Response) (f : json -> M B) (h : PyExn -> M B)
    (s : Env) :
  try_except (bind (resp_json r) f) h s
  = match body_json r with
    | Some j => try_except (f j) h s
    | None => h ContentTypeError s
    end.
Proof.
  unfold resp_json. destruct (body_json r) as [j | ].
  - rewrite (try_bind_known (ret j) f h s s j [] eq_refl). apply prefix_events_nil.
  - rewrite (try_bind_raised (raise ContentTypeError) f h s s ContentTypeError [] eq_refl).
    apply prefix_events_nil.
Qed.

Lemma result_member_found (o : HttpOutcome) (v : json) :
  result_member o = Some v ->
  exists tx fields, o = Reply (mkResponse 200 tx (Some (JObj fields)))
                    /\ assoc "result" fields = Some v.
Proof.
  unfold result_member. destruct o as [[st tx bj] | e]; [| discriminate].
  destruct (Z.eqb_spec st 200) as [-> | Hst].
  - destruct bj as [[ | b | n | str | items | fields] | ]; try discriminate.
    intros H. exists tx, fields. auto.
  - intros H. exfalso.
    destruct st as [ | p | p]; try discriminate.
    do 8 (destruct p as [p | p | ]; try discriminate). apply Hst. reflexivity.
Qed.

(** A guarded block that reads the [result] member of a reply: with no
    such member every continuation that depends on it is skipped. *)
Lemma no_result_member (o : HttpOutcome) :
  result_member o = None ->
  match o with
  | Reply r =>
      status r <> 200 \/ body_json r = None \/
      exists j, body_json r = Some j /\
                (py_in "result" j = Ok false \/
                 (exists e, py_in "result" j = Raise e) \/
                 (py_in "result" j = Ok true /\ exists e, py_getitem j "result" = Raise e))
  | Fails _ => True
  end.
Proof.
  unfold result_member. destruct o as [[st tx bj] | e]; [| trivial].
  cbn [status body_json]. intros H.
  destruct (Z.eqb_spec st 200) as [-> | Hst]; [| left; exact Hst].
  right. destruct bj as [j | ]; [right | left; reflexivity].
  exists j. split; [reflexivity |].
  destruct j as [ | b | n | str | items | fields]; cbn [py_in py_getitem].
  - right. left. eexists. reflexivity.
  - right. left. eexists. reflexivity.
  - right. left. eexists. reflexivity.
  - destruct (contains "result" str); [| left; reflexivity].
    right. right. split; [reflexivity | eexists; reflexivity].
  - destruct (existsb (is_str "result") items); [| left; reflexivity].
    right. right. split; [reflexivity | eexists; reflexivity].
  - rewrite H. left. reflexivity.
Qed.

Lemma version_shape (s : Env) :
  _check_network_version s
  = mkRun (result (_check_network_version s)) (advance s)
          [EvRequest (rpc_request "getVersion")].
Proof. unfold _check_network_version. apply guarded_send_shape; intros; walk. Qed.

Lemma version_run (s : Env) :
  _check_network_version s
  = mkRun (Ok tt) (advance s) [EvRequest (rpc_request "getVersion")].
Proof.
  rewrite version_shape. f_equal.
  unfold _check_network_version.
  destruct (try_except_returns
              (resp <- send (rpc_request "getVersion") ;;
               if status resp =? 200 then
                 result <- resp_json resp ;;
                 has_result <~ py_in "result" result ;;
                 if has_result then
                   version_info <~ py_getitem result "result" ;;
                   _ <~ py_get version_info "solana-core" (JStr "Unknown") ;;
                   has_features <~ py_in "feature-set" version_info ;;
                   if has_features then
                     _ <~ py_getitem version_info "feature-set" ;;
                     ret tt
                   else ret tt
                 else ret tt
               else ret tt) (fun _ => tt) s) as [[] H].
  exact H.
Qed.

(** X2. Whatever the reply to getVersion is -- an exception, another
    status, a version that is not an object -- [_check_network_version]
    returns normally after exactly one request. *)
Theorem version_check_never_fails :
  forall s : Env,
    _check_network_version s
    = mkRun (Ok tt) (advance s) [EvRequest (rpc_request "getVersion")].
Proof. exact version_run. Qed.

Lemma result_member_not_200 (st : Z) (tx : Exc unicode) (bj : option json) :
  st <> 200 -> result_member (Reply (mkResponse st tx bj)) = None.
Proof. intros Hst. unfold result_member. not_200 st Hst. Qed.

(** The guarded block that reads the [result] member of a reply. *)
Lemma read_member {B : Type} (resp : Response) (k : json -> M B) (c : B) (s : Env) :
  try_except
    (if status resp =? 200 then
       result <- resp_json resp ;;
       has_result <~ py_in "result" result ;;
       if has_result then
         member <~ py_getitem result "result" ;;
         k member
       else ret c
     else ret c)
    (fun _ => ret c) s
  = match result_member (Reply resp) with
    | Some member => try_except (k member) (fun _ => ret c) s
    | None => mkRun (Ok c) s []
    end.
Proof.
  destruct resp as [st tx bj]. cbn [status].
  destruct (Z.eqb_spec st 200) as [-> | Hst].
  2: { rewrite (result_member_not_200 _ _ _ Hst). reflexivity. }
  rewrite try_bind_json. cbn [body_json].
  destruct bj as [j | ]; [| reflexivity].
  rewrite try_bind_lift.
  destruct j as [ | b | n | str | items | fields]; try reflexivity.
  - cbn [py_in]. destruct (contains "result" str); reflexivity.
  - cbn [py_in]. destruct (existsb (is_str "result") items); reflexivity.
  - cbn [py_in result_member].
    destruct (assoc "result" fields) as [v | ] eqn:Ev; [| reflexivity].
    rewrite try_bind_lift. cbn [py_getitem]. rewrite Ev. reflexivity.
Qed.

Section ActivityCheck.
Context {PO : PyOrder}.

Lemma activity_run (s : Env) :
  _check_network_activity s
  = match result_member (next_outcome s) with
    | Some current_slot =>
        mkRun (Ok (slot_progressed s current_slot)) (advance (advance s))
              [EvRequest (rpc_request "getSlot"); EvSleep NETWORK_CHECK_DELAY;
               EvRequest (rpc_request "getSlot")]
    | None => mkRun (Ok false) (advance s) [EvRequest (rpc_request "getSlot")]
    end.
Proof.
  unfold _check_network_activity, slot_progressed.
  destruct (next_outcome s) as [r | e] eqn:E.
  2: { rewrite (guarded_send_fails _ _ _ _ _ E). reflexivity. }
  rewrite (guarded_send_reply _ _ _ _ _ E), read_member.
  destruct (result_member (Reply r)) as [current_slot | ]; [| reflexivity].
  rewrite (try_bind_known _ _ _ _ (advance s) tt [EvSleep NETWORK_CHECK_DELAY] eq_refl).
  destruct (next_outcome (advance s)) as [r2 | e2] eqn:E2.
  2: { rewrite (guarded_send_fails _ _ _ _ _ E2). reflexivity. }
  rewrite (guarded_send_reply _ _ _ _ _ E2), read_member.
  destruct (result_member (Reply r2)) as [new_slot | ]; [| reflexivity].
  rewrite try_bind_lift.
  destruct (py_gt new_slot current_slot) as [[ | ] | e3]; reflexivity.
Qed.

End ActivityCheck.

(** X3. [_check_network_activity] never raises, and its whole run is
    fixed by the replies.  Without a [result] in the first getSlot reply
    it answers False after that single request.  Otherwise it sleeps
    NETWORK_CHECK_DELAY and asks once more, and it answers True exactly
    when the second reply carries a slot that compares greater than the
    first -- False when the second reply has no [result] or the comparison
    raises.  For integer slots that is: the second is strictly greater than
    the first (an unchanged slot is "not active"). *)
Theorem activity_needs_slot_progress :
  forall (PO : PyOrder) (s : Env),
    (exists active, result (_check_network_activity s) = Ok active) /\
    (result_member (next_outcome s) = None ->
     _check_network_activity s
     = mkRun (Ok false) (advance s) [EvRequest (rpc_request "getSlot")]) /\
    (forall current_slot,
       result_member (next_outcome s) = Some current_slot ->
       _check_network_activity s
       = mkRun (Ok (match result_member (next_outcome (advance s)) with
                    | Some new_slot =>
                        match py_gt new_slot current_slot with
                        | Ok progressed => progressed
                        | Raise _ => false
                        end
                    | None => false
                    end))
               (advance (advance s))
               [EvRequest (rpc_request "getSlot"); EvSleep NETWORK_CHECK_DELAY;
                EvRequest (rpc_request "getSlot")]) /\
    (forall current_slot new_slot : Z,
       result_member (next_outcome s) = Some (JNum current_slot) ->
       result_member (next_outcome (advance s)) = Some (JNum new_slot) ->
       result (_check_network_activity s) = Ok (new_slot >? current_slot)) /\
    (result (_check_network_activity s) = Ok true ->
     exists current_slot new_slot,
       result_member (next_outcome s) = Some current_slot /\
       result_member (next_outcome (advance s)) = Some new_slot /\
       py_gt new_slot current_slot = Ok true).
Proof.
  intros PO s. rewrite activity_run. split; [| split; [| split; [| split]]].
  - destruct (result_member (next_outcome s)); eexists; reflexivity.
  - intros ->. reflexivity.
  - intros current_slot ->. reflexivity.
  - intros current_slot new_slot ->. unfold slot_progressed. intros ->.
    rewrite py_gt_int. reflexivity.
  - destruct (result_member (next_outcome s)) as [current_slot | ]; [| discriminate].
    cbn [result]. unfold slot_progressed.
    destruct (result_member (next_outcome (advance s))) as [new_slot | ]; [| discriminate].
    destruct (py_gt new_slot current_slot) as [[ | ] | e] eqn:Eg; try discriminate.
    intros _. exists current_slot, new_slot. auto.
Qed.

Lemma activity_needs_slot_progress_witness :
  result (_check_network_activity
            (world [json_reply 200 (JObj [("result", JNum 1000)]);
                    json_reply 200 (JObj [("result", JNum 1000)])]))
  = Ok false.
Proof.
  apply (proj1 (proj2 (proj2 (proj2 (activity_needs_slot_progress scenario_order
            (world [json_reply 200 (JObj [("result", JNum 1000)]);
                    json_reply 200 (JObj [("result", JNum 1000)])])))))
           1000 1000); reflexivity.
Defined.

Section ConnectionCheck.
Context {PO : PyOrder}.

Lemma verify_run (s : Env) :
  verify_fogo_connection s
  = if genesis_matches (next_outcome s)
    then prefix_events [EvRequest (rpc_request "getGenesisHash");
                        EvRequest (rpc_request "getVersion")]
           (_check_network_activity (advance (advance s)))
    else mkRun (Ok false) (advance s) [EvRequest (rpc_request "getGenesisHash")].
Proof.
  unfold verify_fogo_connection, genesis_matches.
  destruct (next_outcome s) as [r | e] eqn:E.
  2: { rewrite (guarded_send_fails _ _ _ _ _ E). reflexivity. }
  rewrite (guarded_send_reply _ _ _ _ _ E).
  assert (Hblock :
    forall cont : bool -> M bool,
      cont false = ret false ->
      try_except
        (genesis_ok <-
           (if status r =? 200 then
              result <- resp_json r ;;
              has_result <~ py_in "result" result ;;
              if has_result then
                genesis_hash <~ py_getitem result "result" ;;
                if is_str FOGO_GENESIS_HASH genesis_hash then ret true else ret false
              else ret false
            else ret false) ;;
         cont genesis_ok)
        (fun _ => ret false) (advance s)
      = match result_member (Reply r) with
        | Some v => if is_str FOGO_GENESIS_HASH v
                    then try_except (cont true) (fun _ => ret false) (advance s)
                    else mkRun (Ok false) (advance s) []
        | None => mkRun (Ok false) (advance s) []
        end).
  { intros cont Hcont. destruct r as [st tx bj]. cbn [status].
    destruct (Z.eqb_spec st 200) as [-> | Hst].
    2: { rewrite (result_member_not_200 _ _ _ Hst).
         rewrite (try_bind_known (ret false) cont _ _ _ false [] eq_refl), Hcont.
         reflexivity. }
    set (h := fun _ : PyExn => ret false).
    destruct bj as [j | ].
    2: { rewrite (try_bind_raised _ cont h (advance s) (advance s) ContentTypeError []);
         reflexivity. }
    destruct j as [ | b | n | str | items | fields].
    - rewrite (try_bind_raised _ cont h (advance s) (advance s) TypeError []);
        reflexivity.
    - rewrite (try_bind_raised _ cont h (advance s) (advance s) TypeError []);
        reflexivity.
    - rewrite (try_bind_raised _ cont h (advance s) (advance s) TypeError []);
        reflexivity.
    - destruct (contains "result" str) eqn:Ec.
      + rewrite (try_bind_raised _ cont h (advance s) (advance s) TypeError []);
          [reflexivity |].
        unfold bind, resp_json, lift, ret. cbn. rewrite Ec. reflexivity.
      + rewrite (try_bind_known _ cont h (advance s) (advance s) false []);
          [rewrite Hcont; reflexivity |].
        unfold bind, resp_json, lift, ret. cbn. rewrite Ec. reflexivity.
    - destruct (existsb (is_str "result") items) eqn:Ec.
      + rewrite (try_bind_raised _ cont h (advance s) (advance s) TypeError []);
          [reflexivity |].
        unfold bind, resp_json, lift, ret. cbn. rewrite Ec. reflexivity.
      + rewrite (try_bind_known _ cont h (advance s) (advance s) false []);
          [rewrite Hcont; reflexivity |].
        unfold bind, resp_json, lift, ret. cbn. rewrite Ec. reflexivity.
    - cbn [result_member].
      destruct (assoc "result" fields) as [v | ] eqn:Ev.
      + rewrite (try_bind_known _ cont h (advance s) (advance s)
                   (is_str FOGO_GENESIS_HASH v) []).
        * destruct (is_str FOGO_GENESIS_HASH v); [apply prefix_events_nil |].
          rewrite Hcont. reflexivity.
        * unfold bind, resp_json, lift, ret. cbn. rewrite Ev. cbn.
          destruct (is_str FOGO_GENESIS_HASH v); reflexivity.
      + rewrite (try_bind_known _ cont h (advance s) (advance s) false []);
          [rewrite Hcont; reflexivity |].
        unfold bind, resp_json, lift, ret. cbn. rewrite Ev. reflexivity. }
  rewrite Hblock by reflexivity.
  destruct (result_member (Reply r)) as [v | ]; [| reflexivity].
  destruct (is_str FOGO_GENESIS_HASH v); [| reflexivity].
  rewrite (try_bind_known _ _ _ _ _ _ _ (version_run (advance s))).
  pose proof (activity_run (advance (advance s))) as Ha.
  destruct (result_member (next_outcome (advance (advance s)))) as [cur | ].
  - rewrite (try_bind_known _ _ _ _ _ _ _ Ha), Ha.
    destruct (slot_progressed (advance (advance s)) cur); reflexivity.
  - rewrite (try_bind_known _ _ _ _ _ _ _ Ha), Ha. reflexivity.
Qed.

End ConnectionCheck.

(** X4. When the reply to getGenesisHash does not carry the FOGO genesis
    hash -- another hash, another status, no JSON, a failed request --
    [verify_fogo_connection] answers False after that single request:
    neither the version nor the slot is asked for. *)
Theorem genesis_mismatch_stops_verification :
  forall (PO : PyOrder) (s : Env),
    genesis_matches (next_outcome s) = false ->
    verify_fogo_connection s
    = mkRun (Ok false) (advance s) [EvRequest (rpc_request "getGenesisHash")].
Proof. intros PO s H. rewrite verify_run, H. reflexivity. Qed.

Lemma genesis_mismatch_stops_verification_witness :
  verify_fogo_connection
    (world [json_reply 200 (JObj [("result", JStr "5eykt4UsFv8P8NJdTREpY1vzqKqZKvdpKuc147dw2N9d")]);
            json_reply 200 (JObj [("result", JNum 1)]);
            json_reply 200 (JObj [("result", JNum 2)]);
            json_reply 200 (JObj [("result", JNum 3)])])
  = mkRun (Ok false)
      (world [json_reply 200 (JObj [("result", JNum 1)]);
              json_reply 200 (JObj [("result", JNum 2)]);
              json_reply 200 (JObj [("result", JNum 3)])])
      [EvRequest (rpc_request "getGenesisHash")].
Proof.
  apply (genesis_mismatch_stops_verification scenario_order
           (world [json_reply 200 (JObj [("result", JStr "5eykt4UsFv8P8NJdTREpY1vzqKqZKvdpKuc147dw2N9d")]);
                   json_reply 200 (JObj [("result", JNum 1)]);
                   json_reply 200 (JObj [("result", JNum 2)]);
                   json_reply 200 (JObj [("result", JNum 3)])])).
  reflexivity.
Defined.

(** X5. [verify_fogo_connection] never raises, and it answers True exactly
    when the genesis hash matches and the activity check that follows the
    version request answers True; the outcome of the version request has no
    influence.  With a matching hash the requests are getGenesisHash,
    getVersion and then those of the activity check. *)
Theorem connection_verified_iff :
  forall (PO : PyOrder) (s : Env),
    (exists b, result (verify_fogo_connection s) = Ok b) /\
    (result (verify_fogo_connection s) = Ok true <->
     genesis_matches (next_outcome s) = true /\
     result (_check_network_activity (advance (advance s))) = Ok true) /\
    (genesis_matches (next_outcome s) = true ->
     events (verify_fogo_connection s)
     = EvRequest (rpc_request "getGenesisHash")
       :: EvRequest (rpc_request "getVersion")
       :: events (_check_network_activity (advance (advance s)))).
Proof.
  intros PO s. rewrite verify_run.
  destruct (genesis_matches (next_outcome s)).
  - rewrite result_prefix_events. split; [| split].
    + rewrite activity_run.
      destruct (result_member (next_outcome (advance (advance s)))); eexists; reflexivity.
    + tauto.
    + reflexivity.
  - split; [| split].
    + exists false. reflexivity.
    + split; [discriminate | intros [H _]; discriminate].
    + discriminate.
Qed.

Lemma connection_verified_iff_witness :
  events (verify_fogo_connection
            (world [json_reply 200 (JObj [("result", JStr FOGO_GENESIS_HASH)]);
                    text_reply 500 "";
                    json_reply 200 (JObj [("result", JNum 7)]);
                    json_reply 200 (JObj [("result", JNum 9)])]))
  = [EvRequest (rpc_request "getGenesisHash"); EvRequest (rpc_request "getVersion");
     EvRequest (rpc_request "getSlot"); EvSleep NETWORK_CHECK_DELAY;
     EvRequest (rpc_request "getSlot")].
Proof.
  apply (proj2 (proj2 (connection_verified_iff scenario_order
           (world [json_reply 200 (JObj [("result", JStr FOGO_GENESIS_HASH)]);
                   text_reply 500 "";
                   json_reply 200 (JObj [("result", JNum 7)]);
                   json_reply 200 (JObj [("result", JNum 9)])])))).
  reflexivity.
Defined.

(* ================================================================== *)
(** * Balances (network.get_balance_rpc, check_wallets_balance,
      send_rpc_request) *)

Lemma send_rpc_run (method : string) (params : json) (s : Env) :
  send_rpc_request method params s
  = mkRun (Ok (decoded_reply (next_outcome s))) (advance s)
      [EvRequest (mkRequest POST FOGO_RPC_URL
                    (JObj [("jsonrpc", JStr "2.0"); ("id", JNum 1);
                           ("method", JStr method); ("params", params)]))].
Proof.
  unfold send_rpc_request, decoded_reply.
  destruct (next_outcome s) as [r | e] eqn:E.
  2: { rewrite (guarded_send_fails _ _ _ _ _ E). reflexivity. }
  rewrite (guarded_send_reply _ _ _ _ _ E).
  destruct (status r =? 200); [| reflexivity].
  unfold resp_json. destruct (body_json r); reflexivity.
Qed.

Lemma balance_result (pubkey : string) (s : Env) :
  result (get_balance_rpc pubkey s) = Ok (reported_balance (next_outcome s)).
Proof.
  unfold get_balance_rpc, reported_balance.
  destruct (next_outcome s) as [r | e] eqn:E.
  2: { rewrite (guarded_send_fails _ _ _ _ _ E). reflexivity. }
  rewrite (guarded_send_reply _ _ _ _ _ E), result_prefix_events.
  destruct r as [st tx bj]. cbn [status].
  destruct (Z.eqb_spec st 200) as [-> | Hst].
  2: { rewrite (result_member_not_200 _ _ _ Hst). reflexivity. }
  rewrite try_bind_json. cbn [body_json].
  destruct bj as [j | ]; [| reflexivity].
  rewrite try_bind_lift.
  destruct j as [ | b | n | str | items | fields]; try reflexivity.
  - cbn [py_in]. destruct (contains "result" str); reflexivity.
  - cbn [py_in]. destruct (existsb (is_str "result") items); reflexivity.
  - cbn [py_in result_member].
    destruct (assoc "result" fields) as [res | ] eqn:Ev; [| reflexivity].
    rewrite try_bind_lift. cbn [py_getitem]. rewrite Ev.
    rewrite try_bind_lift.
    destruct res as [ | b | n | str | items | res]; try reflexivity.
    + cbn [py_in]. destruct (contains "value" str); [| reflexivity].
      rewrite try_bind_lift. cbn [py_getitem]. rewrite ?Ev. reflexivity.
    + cbn [py_in]. destruct (existsb (is_str "value") items); [| reflexivity].
      rewrite try_bind_lift. cbn [py_getitem]. rewrite ?Ev. reflexivity.
    + cbn [py_in]. destruct (assoc "value" res) as [v | ] eqn:Evalue; [| reflexivity].
      rewrite try_bind_lift. cbn [py_getitem]. rewrite ?Ev.
      unfold try_except, lift. cbn [py_getitem]. rewrite Evalue. reflexivity.
Qed.

Lemma balance_reported (pubkey : string) (s : Env) :
  get_balance_rpc pubkey s
  = mkRun (Ok (reported_balance (next_outcome s))) (advance s)
          [EvRequest (balance_request pubkey)].
Proof. apply balance_known, balance_result. Qed.

Lemma after_requests_S (n : nat) (s : Env) :
  after_requests (S n) s = after_requests n (advance s).
Proof.
  unfold after_requests. apply Nat.iter_succ_r. Qed.

Lemma wallets_checked (keypairs : list Wallet) :
  forall s,
    balances_printable keypairs s ->
    check_wallets_balance keypairs s
    = mkRun (Ok tt) (after_requests (List.length keypairs) s) (balance_requests keypairs).
Proof.
  induction keypairs as [| keypair others IH]; intros s H.
  - reflexivity.
  - destruct H as [[balance [Hb Hf]] Hothers].
    cbn [check_wallets_balance].
    rewrite (run_bind_known _ _ _ _ _ _ (balance_known _ _ _ Hb)).
    unfold format_token_amount in Hf.
    destruct (py_number balance) as [n | e] eqn:En; [| discriminate].
    rewrite (run_bind_lift_ok _ _ _ n eq_refl).
    rewrite (run_bind_lift_ok _ _ _ tt).
    2: { unfold format_token_amount. rewrite En. exact Hf. }
    rewrite (IH _ Hothers). cbn [List.length]. rewrite after_requests_S. reflexivity.
Qed.

Lemma wallets_check_stops (before : list Wallet) :
  forall (keypair : Wallet) (others : list Wallet) (s : Env) (e : PyExn),
    balances_printable before s ->
    format_token_amount
      (reported_balance (next_outcome (after_requests (List.length before) s)))
    = Raise e ->
    check_wallets_balance (before ++ keypair :: others) s
    = mkRun (Raise e) (after_requests (S (List.length before)) s)
            (balance_requests (before ++ [keypair])).
Proof.
  induction before as [| first before IH]; intros keypair others s e H Hf.
  - change (after_requests (List.length (@nil Wallet)) s) with s in Hf.
    change (after_requests (S (List.length (@nil Wallet))) s) with (advance s).
    cbn [app check_wallets_balance].
    rewrite (run_bind_known _ _ _ _ _ _ (balance_reported _ _)).
    unfold format_token_amount in Hf.
    destruct (py_number (reported_balance (next_outcome s))) as [n | e'] eqn:En.
    + rewrite (run_bind_lift_ok _ _ _ n eq_refl).
      rewrite (run_bind_lift_raise _ _ _ e).
      2: { unfold format_token_amount. rewrite En. exact Hf. }
      reflexivity.
    + injection Hf as <-. rewrite (run_bind_lift_raise _ _ _ e' eq_refl). reflexivity.
  - destruct H as [[balance [Hb Hfb]] Hothers].
    cbn [app check_wallets_balance].
    rewrite (run_bind_known _ _ _ _ _ _ (balance_known _ _ _ Hb)).
    unfold format_token_amount in Hfb.
    destruct (py_number balance) as [n | e'] eqn:En; [| discriminate].
    rewrite (run_bind_lift_ok _ _ _ n eq_refl).
    rewrite (run_bind_lift_ok _ _ _ tt).
    2: { unfold format_token_amount. rewrite En. exact Hfb. }
    cbn [List.length] in Hf. rewrite after_requests_S in Hf.
    rewrite (IH keypair others _ e Hothers Hf).
    cbn [List.length]. rewrite !after_requests_S. reflexivity.
Qed.

(** X6. [send_rpc_request] never raises and sends exactly one request.  It
    returns the decoded body of a 200 reply and None in every other case,
    so a value other than None was the body of a 200 reply. *)
Theorem send_rpc_request_never_raises :
  forall (method : string) (params : json) (s : Env),
    send_rpc_request method params s
    = mkRun (Ok (decoded_reply (next_outcome s))) (advance s)
        [EvRequest (mkRequest POST FOGO_RPC_URL
                      (JObj [("jsonrpc", JStr "2.0"); ("id", JNum 1);
                             ("method", JStr method); ("params", params)]))] /\
    (decoded_reply (next_outcome s) <> JNull ->
     exists tx,
       next_outcome s = Reply (mkResponse 200 tx (Some (decoded_reply (next_outcome s))))).
Proof.
  intros method params s. split; [apply send_rpc_run |].
  unfold decoded_reply. destruct (next_outcome s) as [[st tx bj] | e];
    cbn [status body_json]; [| congruence].
  destruct (Z.eqb_spec st 200) as [-> | Hst]; [| congruence].
  destruct bj as [j | ]; [| congruence].
  intros _. exists tx. reflexivity.
Qed.

Lemma send_rpc_request_never_raises_witness :
  exists tx,
    next_outcome (world [json_reply 200 (JObj [("result", JNum 12)])])
    = Reply (mkResponse 200 tx (Some (JObj [("result", JNum 12)]))).
Proof.
  apply (proj2 (send_rpc_request_never_raises "getSlot" (JArr [])
                  (world [json_reply 200 (JObj [("result", JNum 12)])]))).
  simpl. discriminate.
Defined.

(** X7. [get_balance_rpc] never raises and sends exactly one getBalance
    request.  Its answer is the [value] member of the reply's [result]
    object exactly as the node sent it -- not checked to be a number -- and
    0 for any other reply or a failed request. *)
Theorem balance_is_reported_value_or_zero :
  forall (pubkey : string) (s : Env),
    get_balance_rpc pubkey s
    = mkRun (Ok (reported_balance (next_outcome s))) (advance s)
            [EvRequest (balance_request pubkey)].
Proof. exact balance_reported. Qed.

(** X8. When every wallet's balance can be printed, [check_wallets_balance]
    returns normally after one getBalance request per wallet, in the order
    of the wallets, and nothing else. *)
Theorem every_wallet_is_checked :
  forall (keypairs : list Wallet) (s : Env),
    balances_printable keypairs s ->
    check_wallets_balance keypairs s
    = mkRun (Ok tt) (after_requests (List.length keypairs) s) (balance_requests keypairs).
Proof. exact wallets_checked. Qed.

Lemma every_wallet_is_checked_witness :
  check_wallets_balance [mkWallet "first"; mkWallet "second"]
    (world [balance_reply 5000000; text_reply 503 ""; balance_reply 1])
  = mkRun (Ok tt) (world [balance_reply 1])
      [EvRequest (balance_request "first"); EvRequest (balance_request "second")].
Proof.
  apply (every_wallet_is_checked [mkWallet "first"; mkWallet "second"]
           (world [balance_reply 5000000; text_reply 503 ""; balance_reply 1])).
  simpl. split; [eexists; split; [reflexivity | vm_compute; reflexivity] |].
  split; [eexists; split; [reflexivity | vm_compute; reflexivity] | exact I].
Defined.

(** X9. The first wallet whose reported balance cannot be compared and
    printed (a value that is no number, or a number too large for a float)
    makes [check_wallets_balance] raise: the wallets after it are never
    queried. *)
Theorem unprintable_balance_aborts_check :
  forall (before : list Wallet) (keypair : Wallet) (others : list Wallet)
         (s : Env) (e : PyExn),
    balances_printable before s ->
    format_token_amount
      (reported_balance (next_outcome (after_requests (List.length before) s)))
    = Raise e ->
    check_wallets_balance (before ++ keypair :: others) s
    = mkRun (Raise e) (after_requests (S (List.length before)) s)
            (balance_requests (before ++ [keypair])).
Proof. exact wallets_check_stops. Qed.

Lemma unprintable_balance_aborts_check_witness :
  check_wallets_balance ([mkWallet "first"] ++ mkWallet "second" :: [mkWallet "third"])
    (world [balance_reply 5000000;
            json_reply 200 (JObj [("result", JObj [("value", JNull)])]);
            balance_reply 7])
  = mkRun (Raise TypeError) (world [balance_reply 7])
      [EvRequest (balance_request "first"); EvRequest (balance_request "second")].
Proof.
  apply (unprintable_balance_aborts_check [mkWallet "first"] (mkWallet "second")
           [mkWallet "third"]
           (world [balance_reply 5000000;
                   json_reply 200 (JObj [("result", JObj [("value", JNull)])]);
                   balance_reply 7])
           TypeError).
  - simpl. split; [eexists; split; [reflexivity | vm_compute; reflexivity] | exact I].
  - reflexivity.
Defined.

(* ================================================================== *)
(** * The stages of a swap, one by one (swap.py) *)

Section StageResults.
Context {RT : Runtime}.

Lemma try_bind_status {B : Type} (r : Response) (f : unit -> M B) (h : PyExn -> M B)
    (s : Env) :
  try_except (bind (raise_for_status r) f) h s
  = if 400 <=? status r then h ClientResponseError s else try_except (f tt) h s.
Proof.
  unfold raise_for_status. destruct (400 <=? status r).
  - rewrite (try_bind_raised (raise ClientResponseError) f h s s ClientResponseError []
               eq_refl).
    apply prefix_events_nil.
  - rewrite (try_bind_known (ret tt) f h s s tt [] eq_refl). apply prefix_events_nil.
Qed.

Lemma quote_result (amount_in : Z) (direction : string) (s : Env) :
  result (_get_swap_quote amount_in direction s)
  = Ok (quote_of_reply direction (next_outcome s)).
Proof.
  unfold _get_swap_quote, quote_of_reply. cbv zeta.
  rewrite (get_accepted _ _ (quote_params_accepted _ _)).
  destruct (next_outcome s) as [r | e] eqn:E.
  2: { rewrite (guarded_send_fails _ _ _ _ _ E). reflexivity. }
  rewrite (guarded_send_reply _ _ _ _ _ E), result_prefix_events.
  rewrite try_bind_status. destruct (400 <=? status r); [reflexivity |].
  rewrite try_bind_json. destruct (body_json r) as [j | ]; [| reflexivity].
  rewrite try_bind_lift.
  destruct j as [ | b | n | str | items | fields]; try reflexivity.
  - cbn [py_in]. destruct (contains "quote" str); reflexivity.
  - cbn [py_in]. destruct (existsb (is_str "quote") items); reflexivity.
  - cbn [py_in py_getitem].
    destruct (assoc "quote" fields) as [quote | ]; [| reflexivity].
    cbn [negb]. rewrite try_bind_lift.
    destruct quote as [ | b | n | str | items | quote]; try reflexivity.
    cbn [py_getitem]. rewrite try_bind_lift.
    destruct (assoc "tokenMinOut" quote) as [min_out | ]; [| reflexivity].
    rewrite try_bind_lift.
    destruct (py_int min_out) as [n | e];
      [| destruct (assoc "poolAddress" quote); reflexivity].
    rewrite try_bind_lift, try_bind_lift. cbn [py_getitem].
    destruct (assoc "poolAddress" quote) as [pool | ]; reflexivity.
Qed.

Lemma swap_tx_params_accepted (wallet : Wallet) (amount_in : Z) (q : QuoteData) :
  forallb (fun kv => query_value_ok (snd kv)) (swap_tx_params wallet amount_in q)
  = query_value_ok (pool_address q).
Proof.
  unfold swap_tx_params. cbn [forallb snd].
  rewrite !query_str_ok, !query_int_ok. cbn [andb]. apply andb_true_r.
Qed.

Lemma swap_tx_unsendable (wallet : Wallet) (amount_in : Z) (direction : string)
    (q : QuoteData) (s : Env) :
  query_value_ok (pool_address q) = false ->
  _get_swap_transaction wallet amount_in direction q s = mkRun (Ok None) s [].
Proof.
  intros H. unfold _get_swap_transaction, get.
  rewrite swap_tx_params_accepted, H. reflexivity.
Qed.

Lemma swap_tx_run (wallet : Wallet) (amount_in : Z) (direction : string)
    (q : QuoteData) (s : Env) :
  query_value_ok (pool_address q) = true ->
  _get_swap_transaction wallet amount_in direction q s
  = mkRun (Ok (tx_of_reply (next_outcome s))) (advance s)
          [EvRequest (swap_tx_request wallet amount_in q)].
Proof.
  intros H.
  assert (Hshape :
    _get_swap_transaction wallet amount_in direction q s
    = mkRun (result (_get_swap_transaction wallet amount_in direction q s)) (advance s)
            [EvRequest (swap_tx_request wallet amount_in q)]).
  { unfold _get_swap_transaction, swap_tx_request.
    rewrite get_accepted by (rewrite swap_tx_params_accepted; exact H).
    apply guarded_send_shape; intros; walk. }
  rewrite Hshape. f_equal.
  unfold _get_swap_transaction, tx_of_reply.
  rewrite get_accepted by (rewrite swap_tx_params_accepted; exact H).
  destruct (next_outcome s) as [r | e] eqn:E.
  2: { rewrite (guarded_send_fails _ _ _ _ _ E). reflexivity. }
  rewrite (guarded_send_reply _ _ _ _ _ E), result_prefix_events.
  rewrite try_bind_status. destruct (400 <=? status r); [reflexivity |].
  rewrite try_bind_json. destruct (body_json r) as [j | ]; [| reflexivity].
  rewrite try_bind_lift.
  destruct j as [ | b | n | str | items | fields]; try reflexivity.
  - cbn [py_in]. destruct (contains "serializedTx" str); reflexivity.
  - cbn [py_in]. destruct (existsb (is_str "serializedTx") items); reflexivity.
  - cbn [py_in py_getitem].
    destruct (assoc "serializedTx" fields) as [raw | ]; [| reflexivity].
    cbn [negb]. rewrite try_bind_lift, try_bind_lift, try_bind_lift.
    destruct raw as [ | b | n | encoded | items | obj]; try reflexivity.
    cbn [py_b64decode]. destruct (b64decode encoded); reflexivity.
Qed.

Lemma paymaster_result (raw_tx : json) (s : Env) :
  result (send_transaction_paymaster raw_tx s)
  = Ok (match paymaster_reference (next_outcome s) with
        | Some reference => (true, reference)
        | None => (false, u "")
        end).
Proof.
  unfold paymaster_reference.
  destruct (next_outcome s) as [[st body bj] | e] eqn:E.
  2: { apply (paymaster_result_raised _ _ _ E). }
  cbn [status text].
  destruct (Z.eqb_spec st 200) as [-> | Hst].
  - destruct body as [body | e].
    + rewrite (paymaster_result_200 _ _ _ _ E).
      destruct (negb (unicode_eqb (strip dquote body) (u ""))
                && negb (unicode_eqb (strip dquote body) (u "null"))
                && (10 <? len (strip dquote body))); reflexivity.
    + apply (paymaster_result_unreadable _ _ _ _ _ E).
  - apply (paymaster_result_other_status _ _ _ E). exact Hst.
Qed.

Lemma execute_result (wallet : Wallet) (tx_data : TxData) (s : Env) :
  exists signed,
    deserialize_and_sign_transaction (raw_tx_bytes tx_data) wallet = Ok signed /\
    _execute_transaction wallet tx_data s
    = match paymaster_reference (next_outcome s) with
      | Some _ => mkRun (Ok true) (advance s) [EvRequest (paymaster_request (raw_tx tx_data))]
      | None =>
          mkRun (Ok (match rpc_reference (next_outcome (advance s)) with
                     | Some _ => true
                     | None => false
                     end))
                (advance (advance s))
                [EvRequest (paymaster_request (raw_tx tx_data));
                 EvRequest (send_transaction_request signed)]
      end.
Proof.
  destruct (execute_run wallet tx_data s) as [signed [Hs ->]].
  exists signed. split; [exact Hs |].
  pose proof (paymaster_run (raw_tx tx_data) s) as Hp.
  rewrite paymaster_result in Hp.
  rewrite (run_bind_known _ _ _ _ _ _ Hp).
  destruct (paymaster_reference (next_outcome s)) as [reference | ]; [reflexivity |].
  cbn [fst].
  pose proof (rpc_run signed (advance s)) as Hr.
  rewrite rpc_result in Hr.
  rewrite (run_bind_known _ _ _ _ _ _ Hr).
  destruct (rpc_reference (next_outcome (advance s))) as [v | ]; [| reflexivity].
  destruct (is_str PLACEHOLDER_SIGNATURE v); reflexivity.
Qed.

End StageResults.

(** X10. [_get_swap_quote] never raises and sends exactly one request.  It
    returns a quote exactly when the reply has a status below 400 and a
    JSON object whose [quote] object has a [tokenMinOut] that [int]
    accepts and a [poolAddress]; the quote then holds that integer
    (zero and negative values included), the pool address as sent, and the
    direction flag.  Every other reply gives None. *)
Theorem quote_needs_wellformed_reply :
  forall (RT : Runtime) (amount_in : Z) (direction : string) (s : Env),
    (exists answer,
       _get_swap_quote amount_in direction s
       = mkRun (Ok answer) (advance s) [EvRequest (quote_request amount_in direction)]) /\
    (forall q,
       result (_get_swap_quote amount_in direction s) = Ok (Some q) <->
       exists r fields quote min_out,
         next_outcome s = Reply r /\ status r < 400 /\
         body_json r = Some (JObj fields) /\
         assoc "quote" fields = Some (JObj quote) /\
         assoc "tokenMinOut" quote = Some min_out /\
         py_int min_out = Ok (token_min_out q) /\
         assoc "poolAddress" quote = Some (pool_address q) /\
         is_fogo_to_fusd q = String.eqb direction "FOGO_TO_FUSD").
Proof.
  intros RT amount_in direction s. split.
  { exists (quote_of_reply direction (next_outcome s)).
    rewrite quote_run, quote_result. reflexivity. }
  intros q. rewrite quote_result. unfold quote_of_reply. split.
  - destruct (next_outcome s) as [r | e]; [| discriminate].
    destruct (Z.leb_spec 400 (status r)) as [Hs | Hs]; [discriminate |].
    destruct (body_json r) as [[ | b | n | str | items | fields] | ] eqn:Hb;
      try discriminate.
    destruct (assoc "quote" fields) as [[ | b | n | str | items | quote] | ] eqn:Hq;
      try discriminate.
    destruct (assoc "tokenMinOut" quote) as [min_out | ] eqn:Hm; [| discriminate].
    destruct (assoc "poolAddress" quote) as [pool | ] eqn:Hp; [| discriminate].
    destruct (py_int min_out) as [n | e] eqn:En; [| discriminate].
    intros [= <-]. exists r, fields, quote, min_out. cbn. auto 10.
  - intros [r [fields [quote [min_out [-> [Hs [-> [-> [-> [Hn [-> Hd]]]]]]]]]]].
    destruct (Z.leb_spec 400 (status r)) as [Hs' | _]; [lia |].
    rewrite Hn. destruct q as [n pool flag]. cbn in Hd. rewrite Hd. reflexivity.
Qed.

Lemma quote_needs_wellformed_reply_witness :
  result (_get_swap_quote 100000 "FOGO_TO_FUSD" (world [quote_reply (JStr "-7")]))
  = Ok (Some (mkQuote (-7) (JStr "pool1") true)).
Proof.
  apply (proj2 (quote_needs_wellformed_reply rejecting_runtime 100000 "FOGO_TO_FUSD"
                  (world [quote_reply (JStr "-7")]))
               (mkQuote (-7) (JStr "pool1") true)).
  exists (mkResponse 200 (Ok (u ""))
            (Some (JObj [("quote", JObj [("tokenMinOut", JStr "-7");
                                         ("poolAddress", JStr "pool1")])]))).
  exists [("quote", JObj [("tokenMinOut", JStr "-7"); ("poolAddress", JStr "pool1")])].
  exists [("tokenMinOut", JStr "-7"); ("poolAddress", JStr "pool1")].
  exists (JStr "-7").
  repeat split; reflexivity.
Defined.

(** X11. When [_get_swap_transaction] returns a transaction, its [raw_tx]
    is the base64 text of the reply's [serializedTx] and its
    [raw_tx_bytes] are the decoding of that very text: what is signed
    locally and what is sent to the paymaster are the same transaction.
    The pool address was one the URL builder accepts, and exactly one
    request was sent. *)
Theorem built_transaction_is_decoded_reply :
  forall (RT : Runtime) (wallet : Wallet) (amount_in : Z) (direction : string)
         (q : QuoteData) (s : Env) (tx : TxData),
    result (_get_swap_transaction wallet amount_in direction q s) = Ok (Some tx) ->
    (exists encoded,
       raw_tx tx = JStr encoded /\ b64decode encoded = Ok (raw_tx_bytes tx) /\
       exists r fields,
         next_outcome s = Reply r /\ status r < 400 /\
         body_json r = Some (JObj fields) /\
         assoc "serializedTx" fields = Some (JStr encoded)) /\
    query_value_ok (pool_address q) = true /\
    rest (_get_swap_transaction wallet amount_in direction q s) = advance s /\
    events (_get_swap_transaction wallet amount_in direction q s)
    = [EvRequest (swap_tx_request wallet amount_in q)].
Proof.
  intros RT wallet amount_in direction q s tx H.
  destruct (query_value_ok (pool_address q)) eqn:Hq.
  2: { rewrite (swap_tx_unsendable _ _ _ _ _ Hq) in H. discriminate. }
  rewrite (swap_tx_run _ _ _ _ _ Hq) in H |- *. cbn [result rest events] in *.
  split; [| auto]. unfold tx_of_reply in H.
  destruct (next_outcome s) as [r | e]; [| discriminate].
  destruct (Z.leb_spec 400 (status r)) as [Hs | Hs]; [discriminate |].
  destruct (body_json r) as [[ | b | n | str | items | fields] | ] eqn:Hb;
    try discriminate.
  destruct (assoc "serializedTx" fields) as [[ | b | n | encoded | items | obj] | ] eqn:Ht;
    try discriminate.
  destruct (b64decode encoded) as [decoded | e] eqn:Hd; [| discriminate].
  injection H as <-. exists encoded. cbn [raw_tx raw_tx_bytes].
  repeat split; try assumption. exists r, fields. auto.
Qed.

Lemma built_transaction_is_decoded_reply_witness :
  events (_get_swap_transaction alice 100000 "FOGO_TO_FUSD"
            (mkQuote 42 (JStr "pool1") true) (world [build_reply]))
  = [EvRequest (swap_tx_request alice 100000 (mkQuote 42 (JStr "pool1") true))].
Proof.
  apply (built_transaction_is_decoded_reply rejecting_runtime alice 100000 "FOGO_TO_FUSD"
           (mkQuote 42 (JStr "pool1") true) (world [build_reply])
           (mkTxData (JStr "AQID") [Byte.x01; Byte.x02; Byte.x03])).
  vm_compute. reflexivity.
Defined.

(** X12. A quote whose pool address is a value the URL builder does not
    accept as a query parameter (the quote stage stores it unchecked)
    makes [_get_swap_transaction] return None without sending any
    request. *)
Theorem unsendable_pool_address_skips_build :
  forall (RT : Runtime) (wallet : Wallet) (amount_in : Z) (direction : string)
         (q : QuoteData) (s : Env),
    query_value_ok (pool_address q) = false ->
    _get_swap_transaction wallet amount_in direction q s = mkRun (Ok None) s [].
Proof. intros RT. exact swap_tx_unsendable. Qed.

Lemma unsendable_pool_address_skips_build_witness :
  _get_swap_transaction alice 100000 "FOGO_TO_FUSD" (mkQuote 42 JNull true)
    (world [build_reply])
  = mkRun (Ok None) (world [build_reply]) [].
Proof.
  apply (unsendable_pool_address_skips_build rejecting_runtime alice 100000
           "FOGO_TO_FUSD" (mkQuote 42 JNull true) (world [build_reply])).
  reflexivity.
Defined.

(** X13. When the paymaster accepts the transaction, [_execute_transaction]
    returns True after that single request: the direct RPC fallback is not
    tried. *)
Theorem paymaster_success_skips_fallback :
  forall (RT : Runtime) (wallet : Wallet) (tx_data : TxData) (s : Env)
         (reference : unicode),
    paymaster_reference (next_outcome s) = Some reference ->
    _execute_transaction wallet tx_data s
    = mkRun (Ok true) (advance s) [EvRequest (paymaster_request (raw_tx tx_data))].
Proof.
  intros RT wallet tx_data s reference H.
  destruct (execute_result wallet tx_data s) as [signed [_ ->]]. rewrite H. reflexivity.
Qed.

Lemma paymaster_success_skips_fallback_witness :
  _execute_transaction alice (mkTxData (JStr "AQID") [Byte.x01; Byte.x02; Byte.x03])
    (world [text_reply 200 "5VERv8NMvzbJMEkV8xnrLkEaWRtSz9Cos"; Fails TimeoutError])
  = mkRun (Ok true) (world [Fails TimeoutError])
      [EvRequest (paymaster_request (JStr "AQID"))].
Proof.
  apply (paymaster_success_skips_fallback rejecting_runtime alice
           (mkTxData (JStr "AQID") [Byte.x01; Byte.x02; Byte.x03])
           (world [text_reply 200 "5VERv8NMvzbJMEkV8xnrLkEaWRtSz9Cos"; Fails TimeoutError])
           (u "5VERv8NMvzbJMEkV8xnrLkEaWRtSz9Cos")).
  reflexivity.
Defined.

(** X14. When the paymaster does not accept the transaction,
    [_execute_transaction] makes exactly one more request: a
    sendTransaction call carrying what [deserialize_and_sign_transaction]
    returned for the decoded bytes.  It returns True exactly when that
    reply is a 200 JSON object with a truthy [result], and it never
    raises. *)
Theorem fallback_after_paymaster_refusal :
  forall (RT : Runtime) (wallet : Wallet) (tx_data : TxData) (s : Env),
    paymaster_reference (next_outcome s) = None ->
    exists signed,
      deserialize_and_sign_transaction (raw_tx_bytes tx_data) wallet = Ok signed /\
      _execute_transaction wallet tx_data s
      = mkRun (Ok (match rpc_reference (next_outcome (advance s)) with
                   | Some _ => true
                   | None => false
                   end))
              (advance (advance s))
              [EvRequest (paymaster_request (raw_tx tx_data));
               EvRequest (send_transaction_request signed)].
Proof.
  intros RT wallet tx_data s H.
  destruct (execute_result wallet tx_data s) as [signed [Hs ->]]. rewrite H.
  exists signed. auto.
Qed.

Lemma fallback_after_paymaster_refusal_witness :
  exists signed,
    deserialize_and_sign_transaction [Byte.x01; Byte.x02; Byte.x03] alice = Ok signed /\
    _execute_transaction alice (mkTxData (JStr "AQID") [Byte.x01; Byte.x02; Byte.x03])
      (world [text_reply 200 "null";
              json_reply 200 (JObj [("result", JStr "3nQ")])])
    = mkRun (Ok true) (world [])
        [EvRequest (paymaster_request (JStr "AQID"));
         EvRequest (send_transaction_request signed)].
Proof.
  apply (fallback_after_paymaster_refusal rejecting_runtime alice
           (mkTxData (JStr "AQID") [Byte.x01; Byte.x02; Byte.x03])
           (world [text_reply 200 "null";
                   json_reply 200 (JObj [("result", JStr "3nQ")])])).
  reflexivity.
Defined.

(** X15. A result of [perform_swap] other than 0 is always the
    token_min_out of a quote that was obtained: the balance was found
    sufficient, the quote and build stages succeeded, and the submission
    pipeline was run.  Either the submission succeeded or the value is
    positive. *)
Theorem nonzero_swap_result_is_quoted_minimum :
  forall (RT : Runtime) (wallet : Wallet) (amount_in : Z) (direction : string)
         (s : Env) (z : Z),
    result (perform_swap wallet amount_in direction s) = Ok z ->
    z <> 0 ->
    exists q success,
      reaches_submission wallet amount_in direction s q success /\
      z = token_min_out q /\
      (success = true \/ 0 < z).
Proof.
  intros RT wallet amount_in direction s z H Hz.
  destruct (result (perform_swap_body wallet amount_in direction s)) as [z' | e] eqn:E.
  2: { rewrite (perform_swap_handler _ _ _ _ _ E) in H. congruence. }
  rewrite (perform_swap_body_ok _ _ _ _ _ E), E in H. injection H as ->.
  rewrite perform_swap_body_eq, result_bind in E.
  destruct (result (get_balance_rpc (pubkey wallet) s)) as [balance | e] eqn:Hb;
    [| discriminate].
  rewrite result_bind_lift in E.
  destruct (format_token_amount balance) as [[] | e] eqn:Hf; [| discriminate].
  rewrite result_bind in E.
  destruct (result (_ensure_sufficient_balance wallet balance amount_in
                      (rest (get_balance_rpc (pubkey wallet) s))))
    as [[ | ] | e] eqn:Hc; try discriminate.
  2: { cbn in E. congruence. }
  cbn [negb] in E. unfold quote_build_submit in E.
  set (s1 := rest (_ensure_sufficient_balance wallet balance amount_in
                     (rest (get_balance_rpc (pubkey wallet) s)))) in *.
  rewrite result_bind in E.
  destruct (result (_get_swap_quote amount_in direction s1)) as [[q | ] | e] eqn:Hq;
    try discriminate.
  2: { cbn in E. congruence. }
  rewrite result_bind in E.
  destruct (result (_get_swap_transaction wallet amount_in direction q
                      (rest (_get_swap_quote amount_in direction s1))))
    as [[tx | ] | e] eqn:Ht; try discriminate.
  2: { cbn in E. congruence. }
  rewrite result_bind in E.
  destruct (result (_execute_transaction wallet tx
                      (rest (_get_swap_transaction wallet amount_in direction q
                               (rest (_get_swap_quote amount_in direction s1))))))
    as [success | e] eqn:He; [| discriminate].
  exists q, success. split.
  - exists s1, tx. split.
    + exists balance. cbv zeta. auto.
    + cbv zeta. auto.
  - destruct success.
    + cbn in E. injection E as <-. auto.
    + destruct (Z.gtb_spec (token_min_out q) 0) as [Hpos | Hneg]; cbn in E.
      * injection E as <-. split; [reflexivity | right; lia].
      * congruence.
Qed.

Lemma nonzero_swap_result_is_quoted_minimum_witness :
  exists q success,
    reaches_submission alice 100000 "FOGO_TO_FUSD"
      (world [balance_reply 1000000000; quote_reply (JStr "42"); build_reply;
              Fails TimeoutError; Fails TimeoutError]) q success /\
    42 = token_min_out q /\
    (success = true \/ 0 < 42).
Proof.
  apply (nonzero_swap_result_is_quoted_minimum rejecting_runtime alice 100000
           "FOGO_TO_FUSD"
           (world [balance_reply 1000000000; quote_reply (JStr "42"); build_reply;
                   Fails TimeoutError; Fails TimeoutError]) 42).
  - vm_compute. reflexivity.
  - discriminate.
Defined.

(* ================================================================== *)
(** * How many requests an operation sends *)

Lemma requests_in_app (l1 l2 : list Event) :
  requests_in (l1 ++ l2) = (requests_in l1 + requests_in l2)%nat.
Proof. unfold requests_in. rewrite filter_app. apply length_app. Qed.

Lemma requests_in_requests (reqs : list Request) :
  requests_in (map EvRequest reqs) = List.length reqs.
Proof.
  unfold requests_in. induction reqs as [| req reqs IH]; [reflexivity |].
  cbn [map filter is_request List.length]. rewrite IH. reflexivity.
Qed.

Section SendRules.
Context {A B : Type}.

Lemma sends_bind (k1 k2 : nat) (m : M A) (f : A -> M B) :
  sends_at_most k1 m -> (forall a, sends_at_most k2 (f a)) ->
  sends_at_most (k1 + k2) (bind m f).
Proof.
  intros Hm Hf s. unfold bind. specialize (Hm s).
  destruct (result (m s)) as [a | e]; cbn [events].
  - rewrite requests_in_app. specialize (Hf a (rest (m s))).
    apply Nat.add_le_mono; assumption.
  - apply (Nat.le_trans _ _ _ Hm), Nat.le_add_r.
Qed.

Lemma sends_try (k1 k2 : nat) (m : M A) (h : PyExn -> M A) :
  sends_at_most k1 m -> (forall e, sends_at_most k2 (h e)) ->
  sends_at_most (k1 + k2) (try_except m h).
Proof.
  intros Hm Hh s. unfold try_except. specialize (Hm s).
  destruct (result (m s)) as [a | e]; cbn [events].
  - apply (Nat.le_trans _ _ _ Hm), Nat.le_add_r.
  - rewrite requests_in_app. specialize (Hh e (rest (m s))).
    apply Nat.add_le_mono; assumption.
Qed.

Lemma sends_quiet (m : M A) : quiet m -> sends_at_most 0 m.
Proof. intros H s. destruct (H s) as [_ ->]. apply Nat.le_refl. Qed.

Lemma sends_weaken (k k' : nat) (m : M A) :
  sends_at_most k m -> (k <= k')%nat -> sends_at_most k' m.
Proof. intros H Hk s. exact (Nat.le_trans _ _ _ (H s) Hk). Qed.

End SendRules.

Section RequestBudget.
Context {RT : Runtime}.

Lemma sends_balance (pubkey : string) : sends_at_most 1 (get_balance_rpc pubkey).
Proof. intros s. rewrite balance_run. apply Nat.le_refl. Qed.

Lemma sends_airdrop (pubkey : string) : sends_at_most 4 (request_airdrop pubkey).
Proof.
  intros s. rewrite request_airdrop_run. cbn [events].
  rewrite requests_in_requests, length_firstn.
  apply (Nat.le_trans _ _ _ (Nat.le_min_l _ _)).
  unfold requests_made.
  destruct (primary_reports_success _); [auto |].
  destruct (faucet_reports_success _); [auto |].
  destruct (faucet_reports_success _); auto.
Qed.

Lemma sends_quote (amount_in : Z) (direction : string) :
  sends_at_most 1 (_get_swap_quote amount_in direction).
Proof. intros s. rewrite quote_run. apply Nat.le_refl. Qed.

Lemma sends_swap_tx (wallet : Wallet) (amount_in : Z) (direction : string)
    (q : QuoteData) :
  sends_at_most 1 (_get_swap_transaction wallet amount_in direction q).
Proof.
  intros s. destruct (query_value_ok (pool_address q)) eqn:Hq.
  - rewrite (swap_tx_run _ _ _ _ _ Hq). apply Nat.le_refl.
  - rewrite (swap_tx_unsendable _ _ _ _ _ Hq). apply Nat.le_0_l.
Qed.

Lemma sends_execute (wallet : Wallet) (tx_data : TxData) :
  sends_at_most 2 (_execute_transaction wallet tx_data).
Proof.
  intros s. destruct (execute_result wallet tx_data s) as [signed [_ ->]].
  destruct (paymaster_reference (next_outcome s)); cbn; auto.
Qed.

Lemma sends_fund (wallet : Wallet) (amount_in : Z) :
  sends_at_most 5 (fund_and_recheck wallet amount_in).
Proof.
  unfold fund_and_recheck. apply (sends_bind 4 1); [apply sends_airdrop |].
  intros [ | ]; [| apply (sends_weaken 0); [apply sends_quiet, quiet_ret | auto]].
  apply (sends_bind 0 1); [intros s; apply Nat.le_refl |]. intros _.
  apply (sends_bind 1 0); [apply sends_balance |]. intros v.
  apply sends_quiet. walk.
Qed.

Lemma sends_ensure (wallet : Wallet) (balance : json) (amount_in : Z) :
  sends_at_most 5 (_ensure_sufficient_balance wallet balance amount_in).
Proof.
  unfold _ensure_sufficient_balance. cbv zeta.
  apply (sends_bind 0 5); [apply sends_quiet, quiet_lift |]. intros b.
  destruct (b >=? amount_in);
    [apply (sends_weaken 0); [apply sends_quiet, quiet_ret | auto with arith] |].
  destruct (b >? 0); [| apply sends_fund].
  apply (sends_bind 0 5); [apply sends_quiet, quiet_lift |]. intros _.
  apply (sends_bind 0 5); [apply sends_quiet, quiet_lift |]. intros _.
  destruct (b >? 100000); [| apply sends_fund].
  apply (sends_weaken 0); [apply sends_quiet; walk | auto with arith].
Qed.

Lemma sends_quote_build_submit (wallet : Wallet) (amount_in : Z) (direction : string) :
  sends_at_most 4 (quote_build_submit wallet amount_in direction).
Proof.
  unfold quote_build_submit. apply (sends_bind 1 3); [apply sends_quote |].
  intros [q | ]; [| apply (sends_weaken 0); [apply sends_quiet, quiet_ret | auto with arith]].
  apply (sends_bind 1 2); [apply sends_swap_tx |].
  intros [tx | ]; [| apply (sends_weaken 0); [apply sends_quiet, quiet_ret | auto with arith]].
  apply (sends_bind 2 0); [apply sends_execute |].
  intros success. apply sends_quiet.
  destruct success; [apply quiet_ret |].
  destruct (token_min_out q >? 0); apply quiet_ret.
Qed.

Lemma sends_perform_swap (wallet : Wallet) (amount_in : Z) (direction : string) :
  sends_at_most 10 (perform_swap wallet amount_in direction).
Proof.
  unfold perform_swap. apply (sends_try 10 0).
  - rewrite perform_swap_body_eq.
    apply (sends_bind 1 9); [apply sends_balance |]. intros balance.
    apply (sends_bind 0 9); [apply sends_quiet, quiet_lift |]. intros _.
    apply (sends_bind 5 4); [apply sends_ensure |]. intros sufficient.
    destruct (negb sufficient);
      [apply (sends_weaken 0); [apply sends_quiet, quiet_ret | auto with arith] |].
    apply sends_quote_build_submit.
  - intros e. destruct (is_client_error e); apply sends_quiet, quiet_ret.
Qed.

Lemma sends_worker_loop (todo : nat) :
  forall (i swaps : Z) (wallet : Wallet) (min_delay max_delay : float) (stats : Stats),
    sends_at_most (10 * todo)
      (worker_loop todo i swaps wallet min_delay max_delay stats).
Proof.
  induction todo as [| todo IH]; intros i swaps wallet min_delay max_delay stats.
  - apply sends_quiet, quiet_ret.
  - cbn [worker_loop].
    apply (sends_weaken (0 + (10 + (0 + 10 * todo)))); [| lia].
    apply sends_bind; [intros s; apply Nat.le_refl |]. intros amount_in.
    apply sends_bind; [apply sends_perform_swap |]. intros z.
    apply sends_bind; [| intros _; apply IH].
    destruct (i <? swaps - 1).
    + intros s. rewrite adaptive_sleep_run. apply Nat.le_refl.
    + apply sends_quiet, quiet_ret.
Qed.

End RequestBudget.

(** X16. One call of [perform_swap] sends at most ten requests -- balance,
    up to four for funding, balance again, quote, build, paymaster, direct
    RPC -- whatever the replies are; and ten are sent when funding only
    succeeds at the last channel and the paymaster refuses. *)
Theorem swap_sends_at_most_ten_requests :
  (forall (RT : Runtime) (wallet : Wallet) (amount_in : Z) (direction : string),
      sends_at_most 10 (perform_swap wallet amount_in direction)) /\
  (exists s,
      requests_in (events (perform_swap (RT := rejecting_runtime) alice 100000
                             "FOGO_TO_FUSD" s)) = 10%nat).
Proof.
  split; [intros RT; exact sends_perform_swap |].
  exists (world [balance_reply 0;
                 Fails TimeoutError; Fails TimeoutError; Fails TimeoutError;
                 json_reply 200 (JObj [("result", JStr "5VERv8NMvzbJMEkV8xnrLkEaWRtSz9Cos")]);
                 balance_reply 1000000000;
                 quote_reply (JStr "42"); build_reply;
                 Fails TimeoutError; Fails TimeoutError]).
  vm_compute. reflexivity.
Qed.

(** X17. A worker asked for N swaps sends at most 10 N requests. *)
Theorem worker_sends_at_most_ten_per_swap :
  forall (RT : Runtime) (name : Z) (wallet : Wallet) (N : Z)
         (min_delay max_delay : float) (s : Env),
    0 <= N ->
    (Z.of_nat (requests_in (events (worker name wallet N min_delay max_delay s)))
     <= 10 * N).
Proof.
  intros RT name wallet N min_delay max_delay s HN. unfold worker.
  pose proof (sends_worker_loop (Z.to_nat N) 0 N wallet min_delay max_delay
                (mkStats 0 0 0 name) s) as H.
  lia.
Qed.

Lemma worker_sends_at_most_ten_per_swap_witness :
  Z.of_nat (requests_in (events (worker 1 alice 3 1%float 2%float
                                   (world [balance_reply 1000000000;
                                           quote_reply (JStr "42"); build_reply]))))
  <= 10 * 3.
Proof.
  apply (worker_sends_at_most_ten_per_swap rejecting_runtime 1 alice 3 1%float 2%float).
  lia.
Defined.

(* ================================================================== *)
(** * Volume of a worker and totals of a fleet (worker.py) *)

Lemma swap_amount_bounds (amount_in : Z) :
  In amount_in SWAP_AMOUNTS -> 100000 <= amount_in <= 1500000.
Proof. unfold SWAP_AMOUNTS. cbn [In]. intros H. lia. Qed.

Lemma record_outcome_grows (stats : Stats) (result amount_in : Z) :
  100000 <= amount_in <= 1500000 ->
  grows_from stats (record_outcome stats result amount_in) 1.
Proof.
  intros H. unfold grows_from, record_outcome.
  destruct (result >? 0);
    cbn [worker_name successful_swaps failed_swaps Worker.total_volume]; lia.
Qed.

Lemma grows_from_trans (a b c : Stats) (n m : Z) :
  grows_from a b n -> grows_from b c m -> grows_from a c (n + m).
Proof. unfold grows_from. intros H1 H2. repeat split; lia. Qed.

Section WorkerSummary.
Context {RT : Runtime}.

Lemma worker_loop_summary (todo : nat) :
  forall (i swaps : Z) (wallet : Wallet) (min_delay max_delay : float)
         (stats : Stats) (s : Env),
  exists final,
    result (worker_loop todo i swaps wallet min_delay max_delay stats s) = Ok final /\
    grows_from stats final (Z.of_nat todo).
Proof.
  induction todo as [ | todo IH]; intros i swaps wallet min_delay max_delay stats s.
  - exists stats. split; [reflexivity |]. unfold grows_from.
    change (Z.of_nat 0) with 0. lia.
  - cbn [worker_loop].
    rewrite (run_bind_known _ _ _ _ _ _ (choose_amount_run s)).
    rewrite result_prefix_events.
    set (amount := nth _ SWAP_AMOUNTS 0).
    assert (Hin : In amount SWAP_AMOUNTS).
    { apply nth_In, Nat.mod_upper_bound. discriminate. }
    set (s1 := mkEnv _ _ _).
    destruct (perform_swap_returns wallet amount "FOGO_TO_FUSD" s1) as [z Hz].
    rewrite result_bind, Hz.
    set (s2 := rest _).
    set (stats' := record_outcome stats z amount).
    rewrite result_bind.
    assert (Hsleep : exists s3,
               (if i <? swaps - 1
                then _adaptive_sleep i stats' min_delay max_delay
                else ret tt) s2
               = mkRun (Ok tt) s3 (events ((if i <? swaps - 1
                then _adaptive_sleep i stats' min_delay max_delay
                else ret tt) s2))).
    { destruct (i <? swaps - 1).
      - rewrite adaptive_sleep_run. eexists. reflexivity.
      - eexists. reflexivity. }
    destruct Hsleep as [s3 Hs3]. rewrite Hs3. cbn [result rest].
    destruct (IH (i + 1) swaps wallet min_delay max_delay stats' s3) as [final [Hf Hg]].
    exists final. split; [exact Hf |].
    replace (Z.of_nat (S todo)) with (1 + Z.of_nat todo) by lia.
    apply (grows_from_trans stats stats' final); [| exact Hg].
    apply record_outcome_grows, swap_amount_bounds, Hin.
Qed.

Lemma worker_summary (name : Z) (wallet : Wallet) (N : Z) (min_delay max_delay : float)
    (s : Env) :
  exists stats,
    result (worker name wallet N min_delay max_delay s) = Ok stats /\
    grows_from (mkStats 0 0 0 name) stats (Z.max 0 N).
Proof.
  unfold worker.
  destruct (worker_loop_summary (Z.to_nat N) 0 N wallet min_delay max_delay
              (mkStats 0 0 0 name) s) as [final [Hf Hg]].
  exists final. split; [exact Hf |].
  replace (Z.max 0 N) with (Z.of_nat (Z.to_nat N)) by lia. exact Hg.
Qed.

End WorkerSummary.

(** X18. A worker always returns statistics that carry its own name,
    counters that are not negative, and a volume that lies between 100000
    and 1500000 lamports per successful swap (the smallest and the largest
    configured amount): the volume is 0 exactly when no swap succeeded. *)
Theorem worker_volume_within_amount_range :
  forall (RT : Runtime) (name : Z) (wallet : Wallet) (N : Z)
         (min_delay max_delay : float) (s : Env),
  exists stats,
    result (worker name wallet N min_delay max_delay s) = Ok stats /\
    worker_name stats = name /\
    0 <= successful_swaps stats /\ 0 <= failed_swaps stats /\
    100000 * successful_swaps stats <= Worker.total_volume stats
    <= 1500000 * successful_swaps stats /\
    (Worker.total_volume stats = 0 <-> successful_swaps stats = 0).
Proof.
  intros RT name wallet N min_delay max_delay s.
  destruct (worker_summary name wallet N min_delay max_delay s) as [stats [Hr Hg]].
  exists stats. split; [exact Hr |].
  unfold grows_from in Hg. cbn [worker_name successful_swaps failed_swaps
                                 Worker.total_volume] in Hg.
  repeat split; lia.
Qed.

(* ================================================================== *)
(** * The fleet (worker.run_multiple_workers) *)

Section FleetTotals.
Context {RT : Runtime}.

Lemma gather_workers (num_swaps : Z) (min_delay max_delay : float)
    (worlds : nat -> Env) (keypairs : list Wallet) :
  forall start : nat,
  exists results,
    Fleet.gather
      (map (fun ik => (fst ik, worker (Z.of_nat (fst ik)) (snd ik) num_swaps
                                  min_delay max_delay))
           (combine (seq start (List.length keypairs)) keypairs))
      worlds
    = Ok results /\
    map worker_name results = map Z.of_nat (seq start (List.length keypairs)) /\
    Forall (fun stats =>
              grows_from (mkStats 0 0 0 (worker_name stats)) stats (Z.max 0 num_swaps))
           results.
Proof.
  induction keypairs as [| keypair others IH]; intros start.
  - exists []. repeat split. constructor.
  - cbn [List.length seq combine map Fleet.gather fst snd].
    destruct (worker_summary (Z.of_nat start) keypair num_swaps min_delay max_delay
                (worlds start)) as [stats [Hr Hg]].
    destruct (IH (S start)) as [results [Hrs [Hnames Hall]]].
    rewrite Hr, Hrs. cbn [bindE].
    assert (Hname : worker_name stats = Z.of_nat start) by apply Hg.
    exists (stats :: results). repeat split.
    + cbn [map]. rewrite Hname, Hnames. reflexivity.
    + constructor; [rewrite Hname; exact Hg | exact Hall].
Qed.

Lemma fleet_sums (num_swaps : Z) (results : list Stats) :
  Forall (fun stats =>
            grows_from (mkStats 0 0 0 (worker_name stats)) stats num_swaps) results ->
  Fleet.sum_of successful_swaps results + Fleet.sum_of failed_swaps results
  = Z.of_nat (List.length results) * num_swaps /\
  0 <= Fleet.sum_of successful_swaps results /\
  0 <= Fleet.sum_of failed_swaps results /\
  100000 * Fleet.sum_of successful_swaps results
  <= Fleet.sum_of Worker.total_volume results
  <= 1500000 * Fleet.sum_of successful_swaps results.
Proof.
  induction 1 as [| stats results Hg _ IH].
  - cbn. lia.
  - unfold grows_from in Hg.
    cbn [worker_name successful_swaps failed_swaps Worker.total_volume] in Hg.
    unfold Fleet.sum_of in *. cbn [fold_right List.length].
    rewrite Nat2Z.inj_succ. nia.
Qed.

End FleetTotals.

(** X19. For parameters that [validate_input_params] accepts,
    [run_multiple_workers] returns totals in which successful and failed
    swaps add up to worker_count times swaps_per_worker (the number of
    attempts that the final report divides by), with one result per wallet,
    named 1, 2, ... in the order of the wallets, and a total volume between
    100000 and 1500000 lamports per successful swap. *)
Theorem fleet_totals_account_for_every_swap :
  forall (RT : Runtime) (keypairs : list Wallet) (num_swaps : Z)
         (min_delay max_delay : float) (worlds : nat -> Env) (elapsed : float),
    validate_input_params num_swaps min_delay max_delay = true ->
    exists fleet,
      Fleet.run_multiple_workers keypairs num_swaps min_delay max_delay worlds elapsed
      = Ok fleet /\
      Fleet.total_successful_swaps fleet + Fleet.total_failed_swaps fleet
      = Fleet.total_attempts fleet /\
      Fleet.worker_count fleet = Z.of_nat (List.length keypairs) /\
      Fleet.swaps_per_worker fleet = num_swaps /\
      map worker_name (Fleet.worker_results fleet)
      = map Z.of_nat (seq 1 (List.length keypairs)) /\
      0 <= Fleet.total_successful_swaps fleet /\
      0 <= Fleet.total_failed_swaps fleet /\
      100000 * Fleet.total_successful_swaps fleet
      <= Fleet.total_volume fleet
      <= 1500000 * Fleet.total_successful_swaps fleet.
Proof.
  intros RT keypairs num_swaps min_delay max_delay worlds elapsed Hv.
  assert (Hn : 0 < num_swaps).
  { unfold validate_input_params in Hv.
    destruct (Z.leb_spec num_swaps 0); [discriminate | assumption]. }
  unfold Fleet.run_multiple_workers, Fleet.enumerate.
  destruct (gather_workers num_swaps min_delay max_delay worlds keypairs 1)
    as [results [-> [Hnames Hall]]].
  cbn [bindE]. eexists. split; [reflexivity |].
  replace (Z.max 0 num_swaps) with num_swaps in Hall by lia.
  destruct (fleet_sums num_swaps results Hall) as [Hsum [Hs [Hf Hvol]]].
  assert (Hlen : List.length results = List.length keypairs).
  { rewrite <- (length_map worker_name results), Hnames, length_map, length_seq.
    reflexivity. }
  unfold Fleet.total_attempts.
  cbn [Fleet.total_successful_swaps Fleet.total_failed_swaps Fleet.total_volume
       Fleet.worker_count Fleet.swaps_per_worker Fleet.worker_results].
  rewrite Hlen in Hsum. repeat split; try assumption; lia.
Qed.

Lemma fleet_totals_account_for_every_swap_witness :
  exists fleet,
    Fleet.run_multiple_workers [alice; mkWallet "second"] 3 1%float 2%float
      (fun _ => world [balance_reply 1000000000; quote_reply (JStr "42"); build_reply])
      12%float
    = Ok fleet /\
    Fleet.total_successful_swaps fleet + Fleet.total_failed_swaps fleet
    = Fleet.total_attempts fleet /\
    Fleet.worker_count fleet = Z.of_nat (List.length [alice; mkWallet "second"]) /\
    Fleet.swaps_per_worker fleet = 3 /\
    map worker_name (Fleet.worker_results fleet)
    = map Z.of_nat (seq 1 (List.length [alice; mkWallet "second"])) /\
    0 <= Fleet.total_successful_swaps fleet /\
    0 <= Fleet.total_failed_swaps fleet /\
    100000 * Fleet.total_successful_swaps fleet
    <= Fleet.total_volume fleet
    <= 1500000 * Fleet.total_successful_swaps fleet.
Proof.
  apply (fleet_totals_account_for_every_swap rejecting_runtime
           [alice; mkWallet "second"] 3 1%float 2%float
           (fun _ => world [balance_reply 1000000000; quote_reply (JStr "42"); build_reply])
           12%float).
  vm_compute. reflexivity.
Defined.

(* ================================================================== *)
(** * Funding a fleet (airdrop.request_multiple_airdrops) *)

Lemma airdrop_results_count (worlds : nat -> Env) (keypairs : list Wallet) :
  forall start : nat,
    List.length
      (filter Fleet.is_true_result
         (map (fun ik => result (request_airdrop (pubkey (snd ik)) (worlds (fst ik))))
              (combine (seq start (List.length keypairs)) keypairs)))
    = List.length (filter (fun k => some_channel_succeeds (worlds k))
                          (seq start (List.length keypairs))).
Proof.
  induction keypairs as [| keypair others IH]; intros start; [reflexivity |].
  cbn [List.length seq combine map filter fst snd].
  rewrite request_airdrop_run. cbn [result Fleet.is_true_result].
  destruct (some_channel_succeeds (worlds start)); cbn [List.length]; rewrite IH;
    reflexivity.
Qed.

(** X20. [request_multiple_airdrops] returns the number of wallets for
    which some funding channel reported success -- never more than the
    number of wallets -- and it waits AIRDROP_CONFIRMATION_DELAY afterwards
    exactly when that number is positive. *)
Theorem airdrop_count_and_confirmation_wait :
  forall (keypairs : list Wallet) (worlds : nat -> Env),
    fst (Fleet.request_multiple_airdrops keypairs worlds)
    = Z.of_nat (List.length (funded_positions (List.length keypairs) worlds)) /\
    0 <= fst (Fleet.request_multiple_airdrops keypairs worlds)
      <= Z.of_nat (List.length keypairs) /\
    snd (Fleet.request_multiple_airdrops keypairs worlds)
    = match funded_positions (List.length keypairs) worlds with
      | [] => []
      | _ :: _ => [EvSleep AIRDROP_CONFIRMATION_DELAY]
      end.
Proof.
  intros keypairs worlds.
  unfold Fleet.request_multiple_airdrops, Fleet.enumerate, funded_positions.
  cbn [fst snd]. rewrite airdrop_results_count.
  pose proof (filter_length_le (fun k => some_channel_succeeds (worlds k))
                (seq 0 (List.length keypairs))) as Hle.
  rewrite length_seq in Hle.
  repeat split; try lia.
  destruct (filter _ (seq 0 (List.length keypairs))); reflexivity.
Qed.

(* ================================================================== *)
(** * The proxy file (utils.load_proxies) *)

Lemma lstrip_space_spec (s : unicode) :
  (exists before, s = before ++ lstrip_space s /\ forallb is_space before = true) /\
  (forall c rest, lstrip_space s = c :: rest -> is_space c = false).
Proof.
  induction s as [| a t [[before [Ht Hb]] IH]]; cbn [lstrip_space].
  - split; [exists []; auto | discriminate].
  - destruct (is_space a) eqn:Ea.
    + split; [| exact IH].
      exists (a :: before). cbn [app forallb]. rewrite Ea, Hb, <- Ht. auto.
    + split; [exists []; auto |]. intros c rest [= <- _]. exact Ea.
Qed.

Lemma rstrip_space_spec (s : unicode) :
  (exists after, s = rstrip_space s ++ after /\ forallb is_space after = true) /\
  (forall init c, rstrip_space s = init ++ [c] -> is_space c = false).
Proof.
  induction s as [| a t [[after [Ht Ha]] IH]]; cbn [rstrip_space].
  - split; [exists []; auto |]. intros [| x init] c; discriminate.
  - destruct (rstrip_space t) as [| x kept] eqn:Et.
    + cbn [app] in Ht. subst after. destruct (is_space a) eqn:Ea.
      * split; [| intros [| y init] c; discriminate].
        exists (a :: t). cbn [app forallb]. rewrite Ea, Ha. auto.
      * split; [exists t; auto |].
        intros [| y init] c; [intros [= <-]; exact Ea |].
        destruct init; discriminate.
    + split.
      * exists after. cbn [app] in *. rewrite Ht at 1. auto.
      * intros [| y init] c; [discriminate |]. cbn [app]. intros [= _ H].
        exact (IH init c H).
Qed.

Lemma rstrip_space_keeps_head (a : N) (t : unicode) :
  is_space a = false -> exists kept, rstrip_space (a :: t) = a :: kept.
Proof.
  intros Ea. cbn [rstrip_space]. destruct (rstrip_space t) as [| x kept].
  - rewrite Ea. exists []. reflexivity.
  - exists (x :: kept). reflexivity.
Qed.

Lemma strip_space_spec (line : unicode) :
  (exists before after,
      line = before ++ strip_space line ++ after /\
      forallb is_space before = true /\ forallb is_space after = true) /\
  (forall c rest, strip_space line = c :: rest -> is_space c = false) /\
  (forall init c, strip_space line = init ++ [c] -> is_space c = false).
Proof.
  unfold strip_space.
  destruct (lstrip_space_spec line) as [[before [Hl Hb]] Hhead].
  destruct (rstrip_space_spec (lstrip_space line)) as [[after [Hr Ha]] Hlast].
  split; [| split; [| exact Hlast]].
  - exists before, after. rewrite <- Hr. auto.
  - intros c rest H.
    destruct (lstrip_space line) as [| a t] eqn:El; [discriminate |].
    pose proof (Hhead a t eq_refl) as Ea.
    destruct (rstrip_space_keeps_head a t Ea) as [kept Hk].
    rewrite Hk in H. injection H as <- _. exact Ea.
Qed.

Lemma scheme_added (proxy : unicode) :
  unicode_in (u "://") (u "http://" ++ proxy) = true /\
  startswith (u "#") (u "http://" ++ proxy) = false.
Proof. split; reflexivity. Qed.

Lemma with_scheme_wellformed (proxy : unicode) :
  names_a_proxy proxy = true ->
  unicode_in (u "://") (with_scheme proxy) = true /\
  with_scheme proxy <> [] /\
  startswith (u "#") (with_scheme proxy) = false.
Proof.
  unfold names_a_proxy, with_scheme. intros H.
  apply andb_true_iff in H. destruct H as [Hfull Hcomment].
  apply negb_true_iff in Hfull, Hcomment. apply unicode_eqb_neq in Hfull.
  destruct (unicode_in (u "://") proxy) eqn:Hscheme.
  - auto.
  - destruct (scheme_added proxy) as [H1 H2]. repeat split; try assumption.
    discriminate.
Qed.

Lemma load_proxy_line (line : unicode) (others : list unicode) :
  load_proxy_lines (line :: others)
  = (if names_a_proxy (strip_space line) then [with_scheme (strip_space line)] else [])
    ++ load_proxy_lines others.
Proof.
  cbn [load_proxy_lines]. unfold names_a_proxy, with_scheme.
  destruct (negb (unicode_eqb (strip_space line) (u ""))
            && negb (startswith (u "#") (strip_space line))); [| reflexivity].
  destruct (unicode_in (u "://") (strip_space line)); reflexivity.
Qed.

Lemma load_proxy_lines_app (lines1 lines2 : list unicode) :
  load_proxy_lines (lines1 ++ lines2)
  = load_proxy_lines lines1 ++ load_proxy_lines lines2.
Proof.
  induction lines1 as [| line others IH]; [reflexivity |].
  change ((line :: others) ++ lines2) with (line :: (others ++ lines2)).
  rewrite !load_proxy_line, IH. apply app_assoc.
Qed.

Lemma proxy_lines_wellformed (lines : list unicode) :
  Forall (fun proxy => unicode_in (u "://") proxy = true /\ proxy <> [] /\
                       startswith (u "#") proxy = false)
         (load_proxy_lines lines).
Proof.
  induction lines as [| line others IH]; [constructor |].
  rewrite load_proxy_line.
  destruct (names_a_proxy (strip_space line)) eqn:Hp; [| exact IH].
  constructor; [| exact IH]. apply with_scheme_wellformed, Hp.
Qed.

(** X21. [load_proxies] handles the lines of the file one by one and in
    order.  A line is first stripped of the white space around it (every
    Unicode white-space character, the line end included; nothing else is
    removed).  A stripped line that is empty or starts with "#" adds
    nothing, wherever it stands in the file; any other stripped line adds
    exactly one proxy: itself if it contains "://", and "http://" followed
    by it otherwise.  So every proxy returned contains "://", is not empty
    and does not start with "#"; and a missing file gives no proxy. *)
Theorem loaded_proxies_name_a_scheme :
  (forall lines1 lines2 : list unicode,
      load_proxies (Some (lines1 ++ lines2))
      = load_proxies (Some lines1) ++ load_proxies (Some lines2)) /\
  (forall line : unicode,
      load_proxies (Some [line])
      = if names_a_proxy (strip_space line)
        then [with_scheme (strip_space line)]
        else []) /\
  (forall (before after : list unicode) (line : unicode),
      strip_space line = [] \/ startswith (u "#") (strip_space line) = true ->
      load_proxies (Some (before ++ line :: after))
      = load_proxies (Some (before ++ after))) /\
  (forall line : unicode,
      (exists before after,
          line = before ++ strip_space line ++ after /\
          forallb is_space before = true /\ forallb is_space after = true) /\
      (forall c rest, strip_space line = c :: rest -> is_space c = false) /\
      (forall init c, strip_space line = init ++ [c] -> is_space c = false)) /\
  (forall file : option (list unicode),
      Forall (fun proxy => unicode_in (u "://") proxy = true /\ proxy <> [] /\
                           startswith (u "#") proxy = false)
             (load_proxies file)) /\
  load_proxies None = [].
Proof.
  split; [| split; [| split; [| split; [| split]]]].
  - intros lines1 lines2. apply load_proxy_lines_app.
  - intros line. cbn [load_proxies]. rewrite load_proxy_line. apply app_nil_r.
  - intros before after line H. cbn [load_proxies].
    rewrite !load_proxy_lines_app, load_proxy_line.
    assert (Hskip : names_a_proxy (strip_space line) = false).
    { unfold names_a_proxy. destruct H as [-> | ->]; [reflexivity |].
      apply andb_false_r. }
    rewrite Hskip. reflexivity.
  - exact strip_space_spec.
  - intros [lines | ]; [apply proxy_lines_wellformed | constructor].
  - reflexivity.
Qed.

Lemma loaded_proxies_name_a_scheme_witness :
  load_proxies (Some ([u "10.0.0.1:8080"]
                      ++ [160; 35; 32; 111; 102; 102; 10]%N
                      :: [u "socks5://10.0.0.2:1080  "]))
  = load_proxies (Some ([u "10.0.0.1:8080"] ++ [u "socks5://10.0.0.2:1080  "])).
Proof.
  apply (proj1 (proj2 (proj2 loaded_proxies_name_a_scheme))
           [u "10.0.0.1:8080"] [u "socks5://10.0.0.2:1080  "]
           [160; 35; 32; 111; 102; 102; 10]%N).
  right. reflexivity.
Defined.

(* ================================================================== *)
(** * The summary report (worker.generate_summary_report) *)

Section ReportOfFleet.
Context {RT : Runtime}.

Lemma fleet_of_run (keypairs : list Wallet) (num_swaps : Z) (min_delay max_delay : float)
    (worlds : nat -> Env) (elapsed : float) (fleet : Fleet.FleetStats) :
  Fleet.run_multiple_workers keypairs num_swaps min_delay max_delay worlds elapsed
  = Ok fleet ->
  0 <= Fleet.total_successful_swaps fleet /\
  100000 * Fleet.total_successful_swaps fleet <= Fleet.total_volume fleet
  <= 1500000 * Fleet.total_successful_swaps fleet.
Proof.
  unfold Fleet.run_multiple_workers, Fleet.enumerate.
  destruct (gather_workers num_swaps min_delay max_delay worlds keypairs 1)
    as [results [-> [_ Hall]]].
  cbn [bindE]. intros [= <-].
  cbn [Fleet.total_successful_swaps Fleet.total_volume].
  destruct (fleet_sums _ results Hall) as [_ [Hs [_ Hvol]]]. auto.
Qed.

End ReportOfFleet.

(** X22. For the totals that [run_multiple_workers] returns after a run in
    which no swap succeeded, [generate_summary_report] raises
    ZeroDivisionError at the "Average volume per swap" line: thirteen
    writes were made, and the rest of the report -- the table of the
    workers included -- is never written. *)
Theorem report_fails_without_successful_swap :
  forall (RT : Runtime) (keypairs : list Wallet) (num_swaps : Z)
         (min_delay max_delay : float) (worlds : nat -> Env) (elapsed : float)
         (fleet : Fleet.FleetStats),
    Fleet.run_multiple_workers keypairs num_swaps min_delay max_delay worlds elapsed
    = Ok fleet ->
    Fleet.total_successful_swaps fleet = 0 ->
    Report.generate_summary_report fleet = (13%nat, Some Report.ZeroDivisionError).
Proof.
  intros RT keypairs num_swaps min_delay max_delay worlds elapsed fleet Hrun Hzero.
  destruct (fleet_of_run _ _ _ _ _ _ _ Hrun) as [_ Hvol].
  rewrite Hzero in Hvol.
  assert (Hv : Fleet.total_volume fleet = 0) by lia.
  unfold Report.generate_summary_report. rewrite Hzero, Hv.
  pose proof FLOAT_OVERFLOW_large as HF.
  assert (Hrate :
    (if Fleet.worker_count fleet * Fleet.swaps_per_worker fleet >? 0
     then Report.int_true_div 0 (Fleet.worker_count fleet * Fleet.swaps_per_worker fleet)
     else None) = None).
  { destruct (Z.gtb_spec (Fleet.worker_count fleet * Fleet.swaps_per_worker fleet) 0)
      as [Hpos | _]; [| reflexivity].
    unfold Report.int_true_div.
    destruct (Z.eqb_spec (Fleet.worker_count fleet * Fleet.swaps_per_worker fleet) 0);
      [lia |].
    revert HF Hpos.
    generalize (Fleet.worker_count fleet * Fleet.swaps_per_worker fleet).
    generalize FLOAT_OVERFLOW. intros F a HF Hpos.
    destruct (Z.geb_spec (Z.abs 0) (F * Z.abs a)); [nia | reflexivity]. }
  rewrite Hrate. cbn [Report.checked].
  assert (Hvolume : Report.int_true_div 0 LAMPORTS_PER_FOGO = None).
  { unfold Report.int_true_div, LAMPORTS_PER_FOGO. cbn [Z.eqb].
    revert HF. generalize FLOAT_OVERFLOW. intros F HF.
    destruct (Z.geb_spec (Z.abs 0) (F * Z.abs 1000000000)); [lia | reflexivity]. }
  rewrite Hvolume. cbn [Report.checked].
  assert (Haverage : Report.float_div_int 0 = Some Report.ZeroDivisionError).
  { unfold Report.float_div_int.
    revert HF. generalize FLOAT_OVERFLOW. intros F HF.
    destruct (Z.geb_spec (Z.abs 0) F); [lia | reflexivity]. }
  rewrite Haverage. reflexivity.
Qed.

Lemma report_fails_without_successful_swap_witness :
  Report.generate_summary_report
    (Fleet.mkFleet 0 2 0 3%float 1 2 [mkStats 0 2 0 1])
  = (13%nat, Some Report.ZeroDivisionError).
Proof.
  apply (report_fails_without_successful_swap rejecting_runtime [alice] 2 1%float 2%float
           (fun _ => world []) 3%float).
  - vm_compute. reflexivity.
  - reflexivity.
Defined.
